(** * tpm-trust: the trust-establishment pipeline, embedded from the Go sources

    Packages covered, each as a module of the same name:
    - [crl]      (internal/crl):      the revocation-list wrapper;
    - [validate] (internal/validate): the downloader and the EK checker;
    - [tpm]      (internal/tpm):      the EK search in the TPM.

    Logging calls are left out: they never change a returned value.
    Calls that leave the process (HTTP requests, TPM commands) and calls of
    the downloader's methods are recorded, in order, in a trace. *)

From Stdlib Require Import ZArith List String Ascii Bool Lia.
Import ListNotations.

Set Warnings "-register-all".

Local Open Scope string_scope.
Local Open Scope list_scope.
Local Open Scope Z_scope.

(** ** Go error values *)

(** The package-level [errors.New] values of the repository and of the
    attest library. Go compares them by identity. *)
Inductive sentinel : Type :=
| ErrUntrustedCertificate
| ErrCertificateRevoked
| ErrEKCannotBeCA
| ErrDownloaderDisabled
| ErrCrlIsExpired
| ErrCrlNotYetValid
| ErrUnknownAuthorityError
| ErrCrlCannotBeNil
| ErrEKCertNotFound.

Definition sentinel_eqb (a b : sentinel) : bool :=
  match a, b with
  | ErrUntrustedCertificate, ErrUntrustedCertificate
  | ErrCertificateRevoked, ErrCertificateRevoked
  | ErrEKCannotBeCA, ErrEKCannotBeCA
  | ErrDownloaderDisabled, ErrDownloaderDisabled
  | ErrCrlIsExpired, ErrCrlIsExpired
  | ErrCrlNotYetValid, ErrCrlNotYetValid
  | ErrUnknownAuthorityError, ErrUnknownAuthorityError
  | ErrCrlCannotBeNil, ErrCrlCannotBeNil
  | ErrEKCertNotFound, ErrEKCertNotFound => true
  | _, _ => false
  end.

(** An operand of [fmt.Errorf]: [%d], [%q]/[%s], [%v] of an error, [%w] of an
    error. The error operands are interface values and may be nil. *)
Inductive operand (E : Type) : Type :=
| OpInt (n : Z)
| OpStr (s : string)
| OpV (e : option E)
| OpW (e : option E).

Arguments OpInt {E} n.
Arguments OpStr {E} s.
Arguments OpV {E} e.
Arguments OpW {E} e.

(** A non-nil error: a sentinel, an error made by a library (opaque text), or
    the result of [fmt.Errorf]. The Go type [error] is [option error]. *)
Inductive error : Type :=
| Sentinel (s : sentinel)
| Opaque (msg : string)
| Errorf (format : string) (operands : list (operand error)).

(** [errors.Is err target] for a sentinel target: walks the [%w] chain.
    A [%w] whose operand is nil wraps nothing. *)
Fixpoint errors_Is (err : error) (target : sentinel) : bool :=
  match err with
  | Sentinel s => sentinel_eqb s target
  | Opaque _ => false
  | Errorf _ ops =>
      (fix any (l : list (operand error)) : bool :=
         match l with
         | [] => false
         | OpW (Some e) :: r => errors_Is e target || any r
         | _ :: r => any r
         end) ops
  end.

(** ** Outcomes and the trace monad *)

(** A Go call either returns or panics. *)
Inductive outcome (A : Type) : Type :=
| Returned (a : A)
| Panicked (reason : string).

Arguments Returned {A} a.
Arguments Panicked {A} reason.

(** A computation that appends to a trace of events of type [E]; the trace so
    far is the state, most recent event last. *)
Definition M (E A : Type) : Type := list E -> outcome A * list E.

Definition ret {E A} (a : A) : M E A := fun t => (Returned a, t).

Definition bind {E A B} (m : M E A) (k : A -> M E B) : M E B :=
  fun t =>
    match m t with
    | (Returned a, t') => k a t'
    | (Panicked r, t') => (Panicked r, t')
    end.

Definition emit {E} (e : E) : M E unit := fun t => (Returned tt, t ++ [e]).

Definition history {E} : M E (list E) := fun t => (Returned t, t).

Definition panic {E A} (reason : string) : M E A := fun t => (Panicked reason, t).

Notation "x <- c1 ;; c2" := (bind c1 (fun x => c2))
  (at level 100, c1 at next level, right associativity).
Notation "c1 ;;; c2" := (bind c1 (fun _ => c2))
  (at level 100, right associativity).

(** The panic of a method call or field access through a nil pointer. *)
Definition nil_dereference : string :=
  "runtime error: invalid memory address or nil pointer dereference".

(** ** crypto/x509: the fields the repository reads *)

Module x509.

(** [time.Time] instants, in nanoseconds. *)
Definition Time : Type := Z.

Record Certificate : Type := mkCertificate {
  IsCA : bool;
  SerialNumber : Z;
  IssuingCertificateURL : list string;
  CRLDistributionPoints : list string;
  UnknownExtKeyUsage : list (list Z);
  Raw : list Z
}.

Record RevocationListEntry : Type := mkEntry {
  EntrySerialNumber : Z
}.

Record RevocationList : Type := mkRevocationList {
  ThisUpdate : Time;
  NextUpdate : Time;
  RevokedCertificateEntries : list RevocationListEntry;
  Signature : list Z
}.

End x509.

(** ** Package crl *)

Module crl.

Import x509.

(** The struct [crl] embeds a pointer to a revocation list, here non-nil. *)
Record crl : Type := mkcrl {
  list_of : RevocationList
}.

(** The interface [CRL]: nil, or a [*crl]. *)
Definition CRL : Type := option crl.

(** [IsValid], with [now] the value [time.Now()] returns.
    [After] and [Before] are strict. *)
Definition IsValid (now : Time) (c : crl) : option error :=
  if NextUpdate (list_of c) <? now then Some (Sentinel ErrCrlIsExpired)
  else if now <? ThisUpdate (list_of c) then Some (Sentinel ErrCrlNotYetValid)
  else None.

Definition NewCRL (now : Time) (rl : option RevocationList) : CRL * option error :=
  match rl with
  | None => (None, Some (Sentinel ErrCrlCannotBeNil))
  | Some rl =>
      let c := mkcrl rl in
      match IsValid now c with
      | Some err => (None, Some err)
      | None => (Some c, None)
      end
  end.

Section Verify.

(** [CheckSignatureFrom] of a revocation list, from the standard library. *)
Variable CheckSignatureFrom : RevocationList -> Certificate -> option error.

Fixpoint Verify (c : crl) (certs : list Certificate) : option error :=
  match certs with
  | [] => Some (Sentinel ErrUnknownAuthorityError)
  | cert :: rest =>
      match CheckSignatureFrom (list_of c) cert with
      | None => None
      | Some _ => Verify c rest
      end
  end.

End Verify.

(** [entry.SerialNumber.Cmp(cert.SerialNumber) == 0] on big integers. *)
Fixpoint revoked_in (entries : list RevocationListEntry) (cert : Certificate) : bool :=
  match entries with
  | [] => false
  | entry :: rest =>
      if EntrySerialNumber entry =? SerialNumber cert then true
      else revoked_in rest cert
  end.

Definition IsRevoked (c : crl) (cert : Certificate) : bool :=
  revoked_in (RevokedCertificateEntries (list_of c)) cert.

End crl.

(** ** Package validate *)

Module validate.

Import x509.

(** [net/url.URL]: the scheme, and the text [String()] gives back. *)
Record URL : Type := mkURL {
  Scheme : string;
  Text : string
}.

(** [http.Response]: the status code and what [io.ReadAll(r.Body)] yields. *)
Record Response : Type := mkResponse {
  StatusCode : Z;
  Body : error + list Z
}.

Inductive resource : Type :=
| IssuerCertificate
| RevocationListFile.

(** What a verification run does that can be observed from outside the
    checker: a method of the downloader is entered, or [client.Do] sends a
    request (a network fetch, tagged with the method that sends it). *)
Inductive event : Type :=
| DownloadCRLSignerCalled (u : URL)
| DownloadCRLCalled (u : URL)
| HttpGet (what : resource) (u : URL).

(** The struct [downloader]. [client] is [client.Do]: its answer may depend
    on everything that happened before the request. [maxDownloads] is a Go
    [int]; it is only compared, never computed with. *)
Record downloader : Type := mkdownloader {
  enabled : bool;
  maxDownloads : Z;
  client : list event -> URL -> error + Response;
  timeout : Z
}.

(** The standard-library functions the package calls. *)
Record golib : Type := mkgolib {
  url_Parse : string -> error + URL;
  http_NewRequestWithContext : URL -> option error;
  x509_ParseRevocationList : list Z -> error + RevocationList;
  x509_ParseCertificate : list Z -> error + Certificate;
  CheckSignatureFrom : RevocationList -> Certificate -> option error;
  time_Now : list event -> Time
}.

(** [apiv1beta.TrustedBundle], the external trust-anchor bundle. *)
Record TrustedBundle : Type := mkTrustedBundle {
  Contains : Certificate -> bool;
  VerifyCertificate : Certificate -> option error
}.

Record ekchecker : Type := mkekchecker {
  ekdownloader : downloader;
  tb : TrustedBundle
}.

(** [EK] is a pointer and may be nil. *)
Record CheckConfig : Type := mkCheckConfig {
  EK : option Certificate;
  SkipRevocationCheck : bool
}.

Definition EKCertificate : list Z := [2; 23; 133; 8; 1].

Definition second : Z := 1000000000.

Definition newDefaultDownloader (DefaultClient : list event -> URL -> error + Response) : downloader :=
  {| enabled := true;
     maxDownloads := 10;
     client := DefaultClient;
     timeout := 2 * second |}.

(** [slices.Equal] on [[]int]. *)
Fixpoint slices_Equal (a b : list Z) : bool :=
  match a, b with
  | [], [] => true
  | x :: a', y :: b' => (x =? y) && slices_Equal a' b'
  | _, _ => false
  end.

(** [slices.Contains] on [[]string]. *)
Definition slices_Contains (l : list string) (s : string) : bool :=
  existsb (String.eqb s) l.

Definition len {A} (l : list A) : Z := Z.of_nat (List.length l).

Definition CheckConfig_CheckAndSetDefaults (c : CheckConfig) : option error :=
  match EK c with
  | None => Some (Errorf "EK certificate must be provided" [])
  | Some _ => None
  end.

(** The errors of the structural checks of [check]. The third one prints the
    number of distribution points, as the source does. *)
Definition errNoIssuingCertificateURL : error :=
  Errorf "EK certificate does not contain AIA extension with issuing certificate URL" [].

Definition errTooManyIssuers (d : downloader) (ek : Certificate) : error :=
  Errorf "number of Issuers (%d) bigger than the maximum allowed number (%d) of downloads"
    [OpInt (len (CRLDistributionPoints ek)); OpInt (maxDownloads d)].

Definition errTooManyCRLs (d : downloader) (ek : Certificate) : error :=
  Errorf "number of CRLs (%d) bigger than the maximum allowed number (%d) of downloads"
    [OpInt (len (CRLDistributionPoints ek)); OpInt (maxDownloads d)].

Definition errMissingEKOID : error :=
  Errorf "EK certificate does not contain the required EK OID in Extended Key Usage" [].

(** [check] receives a pointer to the configuration and may set its
    [SkipRevocationCheck]: the configuration after the call is returned with
    the error. *)
Definition check (c : ekchecker) (cfg : CheckConfig) : M event (CheckConfig * option error) :=
  match EK cfg with
  | None => panic nil_dereference
  | Some ek =>
      let d := ekdownloader c in
      if IsCA ek then ret (cfg, Some (Sentinel ErrEKCannotBeCA))
      else if len (IssuingCertificateURL ek) =? 0 then
        ret (cfg, Some errNoIssuingCertificateURL)
      else if maxDownloads d <? len (IssuingCertificateURL ek) then
        ret (cfg, Some (errTooManyIssuers d ek))
      else if negb (SkipRevocationCheck cfg)
              && (maxDownloads d <? len (CRLDistributionPoints ek)) then
        ret (cfg, Some (errTooManyCRLs d ek))
      else
        let cfg :=
          if len (CRLDistributionPoints ek) =? 0
          then {| EK := EK cfg; SkipRevocationCheck := true |}
          else cfg in
        let found :=
          existsb (fun ext => slices_Equal ext EKCertificate) (UnknownExtKeyUsage ek) in
        if negb found then ret (cfg, Some errMissingEKOID)
        else ret (cfg, None)
  end.

Section WithLibrary.

Variable go : golib.

(** The loop of [prepareUrls]; [acc] is the slice built so far. *)
Fixpoint prepareUrls_loop (acc : list URL) (urls : list string) : list URL * option error :=
  match urls with
  | [] => (acc, None)
  | u :: rest =>
      match url_Parse go u with
      | inl err =>
          ([], Some (Errorf "failed to parse CRL URL %q: %w" [OpStr u; OpW (Some err)]))
      | inr parsedURL =>
          if negb (slices_Contains ["http"; "https"] (Scheme parsedURL))
          then prepareUrls_loop acc rest
          else prepareUrls_loop (acc ++ [parsedURL]) rest
      end
  end.

Definition prepareUrls (urls : list string) : list URL * option error :=
  prepareUrls_loop [] urls.

(** [client.Do]: one network fetch. *)
Definition Do (d : downloader) (what : resource) (u : URL) : M event (error + Response) :=
  h <- history ;;
  emit (HttpGet what u) ;;;
  ret (client d h u).

Definition downloadCRL (d : downloader) (u : URL) : M event (crl.CRL * option error) :=
  emit (DownloadCRLCalled u) ;;;
  if negb (enabled d) then ret (None, None)
  else
    match http_NewRequestWithContext go u with
    | Some err => ret (None, Some (Errorf "failed creating request: %w" [OpW (Some err)]))
    | None =>
        r <- Do d RevocationListFile u ;;
        match r with
        | inl err =>
            ret (None, Some (Errorf "failed retrieving CRL from %q: %w"
                               [OpStr (Text u); OpW (Some err)]))
        | inr resp =>
            if negb (StatusCode resp =? 200) then
              ret (None, Some (Errorf "http request to %q failed with status %d"
                                 [OpStr (Text u); OpInt (StatusCode resp)]))
            else
              match Body resp with
              | inl err =>
                  ret (None, Some (Errorf "failed reading CRL response body: %w"
                                     [OpW (Some err)]))
              | inr crlBytes =>
                  match x509_ParseRevocationList go crlBytes with
                  | inl err =>
                      ret (None, Some (Errorf "failed parsing CRL from %q: %w"
                                         [OpStr (Text u); OpW (Some err)]))
                  | inr rl =>
                      h <- history ;;
                      ret (crl.NewCRL (time_Now go h) (Some rl))
                  end
              end
        end
    end.

(** [downloadCRLSigner] returns [(nil, err)] or [(cert, nil)] with a non-nil
    certificate: [inl err] or [inr cert]. *)
Definition downloadCRLSigner (d : downloader) (u : URL) : M event (error + Certificate) :=
  emit (DownloadCRLSignerCalled u) ;;;
  if negb (enabled d) then ret (inl (Sentinel ErrDownloaderDisabled))
  else
    match http_NewRequestWithContext go u with
    | Some err => ret (inl (Errorf "failed creating request: %w" [OpW (Some err)]))
    | None =>
        r <- Do d IssuerCertificate u ;;
        match r with
        | inl err =>
            ret (inl (Errorf "failed retrieving certificate from %q: %w"
                        [OpStr (Text u); OpW (Some err)]))
        | inr resp =>
            if negb (StatusCode resp =? 200) then
              ret (inl (Errorf "http request to %q failed with status %d"
                          [OpStr (Text u); OpInt (StatusCode resp)]))
            else
              match Body resp with
              | inl err =>
                  ret (inl (Errorf "failed reading CRL response body: %w" [OpW (Some err)]))
              | inr certBytes =>
                  match x509_ParseCertificate go certBytes with
                  | inl err =>
                      ret (inl (Errorf "failed parsing certificate from %q: %w"
                                  [OpStr (Text u); OpW (Some err)]))
                  | inr cert => ret (inr cert)
                  end
              end
        end
    end.

(** The loop of [getIssuerCertificates]; [issuers] holds the certificates
    stored so far. *)
Fixpoint getIssuerCertificates_loop (d : downloader) (issuers : list Certificate)
    (issuerUrls : list URL) : M event (list Certificate * option error) :=
  match issuerUrls with
  | [] => ret (issuers, None)
  | u :: rest =>
      r <- downloadCRLSigner d u ;;
      match r with
      | inl err =>
          ret ([], Some (Errorf "failed to download issuer certificate: %w" [OpW (Some err)]))
      | inr cert => getIssuerCertificates_loop d (issuers ++ [cert]) rest
      end
  end.

Definition getIssuerCertificates (d : downloader) (cert : Certificate)
    : M event (list Certificate * option error) :=
  match prepareUrls (IssuingCertificateURL cert) with
  | (_, Some err) =>
      ret ([], Some (Errorf "failed to prepare issuer URLs: %w" [OpW (Some err)]))
  | (issuerUrls, None) => getIssuerCertificates_loop d [] issuerUrls
  end.

(** The loop of [Check] over the revocation-list URLs: [Some err] when the
    loop returns from [Check], [None] when it runs to its end. The methods
    [Verify] and [IsRevoked] are called on the interface value that
    [downloadCRL] returned. *)
Fixpoint Check_crl_loop (c : ekchecker) (ek : Certificate) (issuers : list Certificate)
    (crlUrls : list URL) : M event (option error) :=
  match crlUrls with
  | [] => ret None
  | u :: rest =>
      r <- downloadCRL (ekdownloader c) u ;;
      match r with
      | (_, Some err) =>
          ret (Some (Errorf "failed to download CRL from %q: %w"
                       [OpStr (Text u); OpW (Some err)]))
      | (None, None) => panic nil_dereference
      | (Some l, None) =>
          match crl.Verify (CheckSignatureFrom go) l issuers with
          | Some err => ret (Some (Errorf "failed to verify CRL: %w" [OpW (Some err)]))
          | None =>
              if crl.IsRevoked l ek then ret (Some (Sentinel ErrCertificateRevoked))
              else Check_crl_loop c ek issuers rest
          end
      end
  end.

Definition Check (c : ekchecker) (cfg : CheckConfig) : M event (option error) :=
  match CheckConfig_CheckAndSetDefaults cfg with
  | Some err => ret (Some (Errorf "invalid check config: %w" [OpW (Some err)]))
  | None =>
      r <- check c cfg ;;
      match r with
      | (_, Some err) => ret (Some err)
      | (cfg, None) =>
          match EK cfg with
          | None => panic nil_dereference
          | Some ek =>
              ri <- getIssuerCertificates (ekdownloader c) ek ;;
              match ri with
              | (_, Some err) => ret (Some err)
              | (issuers, None) =>
                  rc <- (if negb (SkipRevocationCheck cfg) then
                           match prepareUrls (CRLDistributionPoints ek) with
                           | (_, Some err) =>
                               ret (Some (Errorf "failed to prepare CRL URLs: %w"
                                            [OpW (Some err)]))
                           | (crlUrls, None) => Check_crl_loop c ek issuers crlUrls
                           end
                         else ret None) ;;
                  match rc with
                  | Some err => ret (Some err)
                  | None =>
                      match VerifyCertificate (tb c) ek with
                      | Some err =>
                          ret (Some (Errorf "%w: %v"
                                       [OpW (Some (Sentinel ErrUntrustedCertificate));
                                        OpV (Some err)]))
                      | None => ret None
                      end
                  end
              end
          end
      end
  end.

End WithLibrary.

(** The network fetches of one kind in a trace. *)
Definition is_fetch (what : resource) (e : event) : bool :=
  match e, what with
  | HttpGet IssuerCertificate _, IssuerCertificate => true
  | HttpGet RevocationListFile _, RevocationListFile => true
  | _, _ => false
  end.

Definition fetches (what : resource) (t : list event) : Z :=
  len (filter (is_fetch what) t).

Definition total_fetches (t : list event) : Z :=
  fetches IssuerCertificate t + fetches RevocationListFile t.

(** The trace [t'] continues [t] with at most [ni] fetches of issuer
    certificates and at most [nc] fetches of revocation lists. *)
Definition adds_fetches (ni nc : Z) (t t' : list event) : Prop :=
  exists a, t' = t ++ a /\
            fetches IssuerCertificate a <= ni /\
            fetches RevocationListFile a <= nc.


(** The schemes [prepareUrls] keeps. *)
Definition supported (u : URL) : bool :=
  slices_Contains ["http"; "https"] (Scheme u).

(** The events of a run that has nothing to do with revocation lists. *)
Definition issuer_event (e : event) : bool :=
  match e with
  | DownloadCRLSignerCalled _ => true
  | HttpGet IssuerCertificate _ => true
  | _ => false
  end.

(** The calls of the downloader's methods in a trace. *)
Definition is_call (e : event) : bool :=
  match e with
  | DownloadCRLSignerCalled _ | DownloadCRLCalled _ => true
  | HttpGet _ _ => false
  end.

(** The events of one successful download of an issuer certificate. *)
Definition issuer_download (u : URL) : list event :=
  [DownloadCRLSignerCalled u; HttpGet IssuerCertificate u].

(** The revocation step of [Check], and [Check] from the download of the
    issuers on, for a certificate that passed the structural checks;
    [skip] is the value of [SkipRevocationCheck] that [check] left. *)
Definition Check_revocation (go : golib) (c : ekchecker) (ek : Certificate) (skip : bool)
    (issuers : list Certificate) : M event (option error) :=
  if negb skip then
    match prepareUrls go (CRLDistributionPoints ek) with
    | (_, Some err) =>
        ret (Some (Errorf "failed to prepare CRL URLs: %w" [OpW (Some err)]))
    | (crlUrls, None) => Check_crl_loop go c ek issuers crlUrls
    end
  else ret None.

Definition Check_after_check (go : golib) (c : ekchecker) (ek : Certificate) (skip : bool)
    : M event (option error) :=
  ri <- getIssuerCertificates go (ekdownloader c) ek ;;
  match ri with
  | (_, Some err) => ret (Some err)
  | (issuers, None) =>
      rc <- Check_revocation go c ek skip issuers ;;
      match rc with
      | Some err => ret (Some err)
      | None =>
          match VerifyCertificate (tb c) ek with
          | Some err =>
              ret (Some (Errorf "%w: %v"
                           [OpW (Some (Sentinel ErrUntrustedCertificate));
                            OpV (Some err)]))
          | None => ret None
          end
      end
  end.

(** [EKCheckerConfig] without its logger. [Downloader] is a pointer and
    [Bundle] (the field [TrustedBundle]) an interface value: both may be
    nil. [Timeout] is a [time.Duration], in nanoseconds. *)
Record EKCheckerConfig : Type := mkEKCheckerConfig {
  Downloader : option downloader;
  Bundle : option TrustedBundle;
  Timeout : Z
}.

(** What the package takes from outside when it fills in defaults:
    [http.DefaultClient], and [apiv1beta.GetTrustedBundle] called with a
    context of the given timeout and auto-update disabled. *)
Record defaults : Type := mkdefaults {
  DefaultClient : list event -> URL -> error + Response;
  GetTrustedBundle : Z -> error + TrustedBundle
}.

Definition with_timeout (d : downloader) (timeout : Z) : downloader :=
  {| enabled := enabled d; maxDownloads := maxDownloads d;
     client := client d; timeout := timeout |}.

(** [CheckAndSetDefaults] has a pointer receiver: the configuration after
    the call is returned with the error. The last assignment writes the
    timeout into the downloader the configuration points to. *)
Definition EKCheckerConfig_CheckAndSetDefaults (env : defaults) (e : EKCheckerConfig)
    : EKCheckerConfig * option error :=
  let timeout := if Timeout e =? 0 then 5 * second else Timeout e in
  let d :=
    match Downloader e with
    | None => newDefaultDownloader (DefaultClient env)
    | Some d => d
    end in
  match Bundle e with
  | None =>
      match GetTrustedBundle env timeout with
      | inl err =>
          ({| Downloader := Some d; Bundle := None; Timeout := timeout |}, Some err)
      | inr bundle =>
          ({| Downloader := Some (with_timeout d timeout); Bundle := Some bundle;
              Timeout := timeout |}, None)
      end
  | Some bundle =>
      ({| Downloader := Some (with_timeout d timeout); Bundle := Some bundle;
          Timeout := timeout |}, None)
  end.

(** [NewEKChecker] returns [(nil, err)] or a checker: [inl err] or
    [inr checker]. The checker is built from the two pointers of the
    configuration; the last case stands for a checker with a nil field and
    is not reached, as [CheckAndSetDefaults] sets both. *)
Definition NewEKChecker (env : defaults) (cfg : EKCheckerConfig) : error + ekchecker :=
  match EKCheckerConfig_CheckAndSetDefaults env cfg with
  | (_, Some err) => inl (Errorf "invalid config: %w" [OpW (Some err)])
  | (cfg', None) =>
      match Downloader cfg', Bundle cfg' with
      | Some d, Some bundle => inr {| ekdownloader := d; tb := bundle |}
      | _, _ => inl (Opaque "checker with a nil field")
      end
  end.

End validate.

(** ** Package tpm *)

Module tpm.

(** [tpm2.TPMAlgID]: the two algorithms the package names, and the others. *)
Inductive TPMAlgID : Type :=
| TPMAlgRSA
| TPMAlgECC
| TPMAlgOther (id : Z).

Definition TPMAlgID_eqb (a b : TPMAlgID) : bool :=
  match a, b with
  | TPMAlgRSA, TPMAlgRSA => true
  | TPMAlgECC, TPMAlgECC => true
  | TPMAlgOther x, TPMAlgOther y => x =? y
  | _, _ => false
  end.

(** [attest.EKCertTemplate]: its key type and the NV index it was read at. *)
Record EKCertTemplate : Type := mkEKCertTemplate {
  TemplateType : TPMAlgID;
  Index : Z
}.

Record TPMTPublic : Type := mkTPMTPublic {
  PublicType : TPMAlgID
}.

(** [endorsement.EK]: both fields are pointers. *)
Record EK : Type := mkEK {
  Certificate : option x509.Certificate;
  Public : option TPMTPublic
}.

(** The zero value [endorsement.EK{}]. *)
Definition EK_zero : EK := {| Certificate := None; Public := None |}.

(** The zero value of [attest.EKCertTemplate]. *)
Definition EKCertTemplate_zero : EKCertTemplate :=
  {| TemplateType := TPMAlgOther 0; Index := 0 |}.

Record Manufacturer : Type := mkManufacturer {
  ASCII : string;
  Name : string
}.

Record TPMInfo : Type := mkTPMInfo {
  InfoManufacturer : Manufacturer
}.

(** An open [*attest.TPM], by what its methods answer: [Info()],
    [endorsement.SearchAvailableCertificates(tpm.Tpm())], [PersistedEKs()],
    [EK(attest.GetEKCertConfig{Template: t})] and [Close()]. *)
Record TPM : Type := mkTPM {
  Info : error + TPMInfo;
  SearchAvailableCertificates : list EKCertTemplate;
  PersistedEKs : list EKCertTemplate;
  TPM_EK : EKCertTemplate -> EK * option error;
  Close : option error
}.

(** The commands sent to the TPM, and the entries into [getEK]. *)
Inductive event : Type :=
| OpenTPMCalled
| InfoCalled
| SearchAvailableCertificatesCalled
| PersistedEKsCalled
| GetEKCalled (alg : TPMAlgID)
| EKCalled (template : EKCertTemplate)
| CloseCalled.

Record TPMConfig : Type := mkTPMConfig { }.

Definition TPMConfig_CheckAndSetDefaults (c : TPMConfig) : option error := None.

Record EKResponse : Type := mkEKResponse {
  ResponseCertificate : option x509.Certificate;
  ResponseManufacturer : Manufacturer
}.

Definition has_type (alg : TPMAlgID) (t : EKCertTemplate) : bool :=
  TPMAlgID_eqb (TemplateType t) alg.

Definition getEK (tpm : TPM) (alg : TPMAlgID) (availableCerts : list EKCertTemplate)
    : M event (EK * option error) :=
  emit (GetEKCalled alg) ;;;
  if existsb (has_type alg) availableCerts then
    let template :=
      match find (has_type alg) availableCerts with
      | Some t => t
      | None => EKCertTemplate_zero
      end in
    emit (EKCalled template) ;;;
    ret (TPM_EK tpm template)
  else ret (EK_zero, Some (Sentinel ErrEKCertNotFound)).

(** What a call of [getEK] returns; it does not depend on the trace. *)
Definition getEK_returns (tpm : TPM) (alg : TPMAlgID) (availableCerts : list EKCertTemplate)
    : outcome (EK * option error) :=
  fst (getEK tpm alg availableCerts []).

(** The end of [search], after the switch: the log line reads
    [ek.Certificate.Issuer] and [*ek.Public], then [ek, nil] is returned. *)
Definition search_select (ek : EK) : M event (EK * option error) :=
  match Certificate ek with
  | None => panic nil_dereference
  | Some _ =>
      match Public ek with
      | None => panic nil_dereference
      | Some _ => ret (ek, None)
      end
  end.

Definition search (tpm : TPM) : M event (EK * option error) :=
  emit SearchAvailableCertificatesCalled ;;;
  let availableCerts := SearchAvailableCertificates tpm in
  if (List.length availableCerts =? 0)%nat then
    ret (EK_zero, Some (Errorf "no EK certificates available in TPM" []))
  else
    emit PersistedEKsCalled ;;;
    match PersistedEKs tpm with
    | template0 :: _ =>
        (* case len(templates) >= 1: errGet is assigned and not read again *)
        emit (EKCalled template0) ;;;
        let '(ek, errGet) := TPM_EK tpm template0 in
        search_select ek
    | [] =>
        r <- getEK tpm TPMAlgECC availableCerts ;;
        let '(ek, errGet) := r in
        match errGet with
        | None => search_select ek
        | Some e =>
            if errors_Is e ErrEKCertNotFound then
              r' <- getEK tpm TPMAlgRSA availableCerts ;;
              let '(ek', errGet') := r' in
              match errGet' with
              | Some e' =>
                  ret (EK_zero, Some (Errorf "failed to get any EK cert: %w" [OpW (Some e')]))
              | None =>
                  (* errGet is nil here, and the return below is reached *)
                  ret (EK_zero, Some (Errorf "failed to get EK ECC cert: %w" [OpW errGet']))
              end
            else
              ret (EK_zero, Some (Errorf "failed to get EK ECC cert: %w" [OpW (Some e)]))
        end
    end.

(** The state of a call of [GetEKCertificate] at a return statement: the
    values of the return statement, which are the function's (unnamed)
    results, and the local variable [err]. *)
Record frame : Type := mkframe {
  results : option EKResponse * option error;
  err : option error
}.

(** [GetEKCertificate] from the deferred close on, up to its return
    statement. *)
Definition GetEKCertificate_body (tpm : TPM) : M event frame :=
  emit InfoCalled ;;;
  match Info tpm with
  | inl e =>
      ret {| results := (None, Some (Errorf "failed to get TPM info: %w" [OpW (Some e)]));
             err := Some e |}
  | inr info =>
      r <- search tpm ;;
      let '(ek, e) := r in
      match e with
      | Some e' => ret {| results := (None, Some e'); err := e |}
      | None =>
          ret {| results :=
                   (Some {| ResponseCertificate := Certificate ek;
                            ResponseManufacturer := InfoManufacturer info |}, None);
                 err := None |}
      end
  end.

(** The deferred function: it closes the TPM and assigns to the local
    variable [err]; the frame's results are not touched. *)
Definition GetEKCertificate_deferred (tpm : TPM) (fr : frame) : M event frame :=
  emit CloseCalled ;;;
  match Close tpm with
  | Some closeErr =>
      ret {| results := results fr;
             err := Some (Errorf "failed to close TPM: %w (original error: %v)"
                            [OpW (Some closeErr); OpV (err fr)]) |}
  | None => ret fr
  end.

(** [defer]: the deferred function runs when the body returns and when it
    panics (then with [err] still nil, as [search] has not returned). *)
Definition GetEKCertificate_frame (OpenTPM : error + TPM) (cfg : TPMConfig) : M event frame :=
  match TPMConfig_CheckAndSetDefaults cfg with
  | Some e =>
      ret {| results := (None, Some (Errorf "invalid config: %w" [OpW (Some e)]));
             err := Some e |}
  | None =>
      emit OpenTPMCalled ;;;
      match OpenTPM with
      | inl e =>
          ret {| results := (None, Some (Errorf "failed to open TPM: %w" [OpW (Some e)]));
                 err := Some e |}
      | inr tpm =>
          fun t =>
            match GetEKCertificate_body tpm t with
            | (Returned fr, t1) => GetEKCertificate_deferred tpm fr t1
            | (Panicked reason, t1) =>
                match GetEKCertificate_deferred tpm
                        {| results := (None, None); err := None |} t1 with
                | (_, t2) => (Panicked reason, t2)
                end
            end
      end
  end.

(** What the caller receives: the results, not the local variable. *)
Definition GetEKCertificate (OpenTPM : error + TPM) (cfg : TPMConfig)
    : M event (option EKResponse * option error) :=
  fr <- GetEKCertificate_frame OpenTPM cfg ;;
  ret (results fr).

End tpm.

(** ** The order of the structural checks, as the specification words it *)

Module prechecks.

Import x509 validate.

(** The rejecting checks of the specification's list, by their number there:
    1 (CA flag), 2 (no issuer URL), 3 (issuer URLs over the ceiling),
    4 (revocation enabled and distribution points over the ceiling) and
    6 (identity-key OID absent). Step 5 rejects nothing. *)
Inductive rule : Type :=
| CannotBeCA
| NoIssuerURL
| IssuerCeiling
| CRLCeiling
| MissingEKOID.

Definition order : list rule :=
  [CannotBeCA; NoIssuerURL; IssuerCeiling; CRLCeiling; MissingEKOID].

Definition has_EK_OID (ek : Certificate) : bool :=
  existsb (fun oid => slices_Equal oid [2; 23; 133; 8; 1]) (UnknownExtKeyUsage ek).

Definition violated (d : downloader) (skip : bool) (ek : Certificate) (r : rule) : bool :=
  match r with
  | CannotBeCA => IsCA ek
  | NoIssuerURL => len (IssuingCertificateURL ek) =? 0
  | IssuerCeiling => maxDownloads d <? len (IssuingCertificateURL ek)
  | CRLCeiling => negb skip && (maxDownloads d <? len (CRLDistributionPoints ek))
  | MissingEKOID => negb (has_EK_OID ek)
  end.

Definition rejection (d : downloader) (ek : Certificate) (r : rule) : error :=
  match r with
  | CannotBeCA => Sentinel ErrEKCannotBeCA
  | NoIssuerURL => errNoIssuingCertificateURL
  | IssuerCeiling => errTooManyIssuers d ek
  | CRLCeiling => errTooManyCRLs d ek
  | MissingEKOID => errMissingEKOID
  end.

(** First failing check wins. *)
Definition first_failing (d : downloader) (skip : bool) (ek : Certificate) : option rule :=
  find (violated d skip ek) order.

(** Step 5 is reached when checks 1 to 4 pass; it then turns the revocation
    check off for a certificate without distribution points. *)
Definition reaches_step5 (failing : option rule) : bool :=
  match failing with
  | None | Some MissingEKOID => true
  | Some _ => false
  end.

Definition skip_after (failing : option rule) (skip : bool) (ek : Certificate) : bool :=
  if reaches_step5 failing
  then skip || (len (CRLDistributionPoints ek) =? 0)
  else skip.

End prechecks.

(** ** Concrete environments for the examples *)

Module fixtures.

Import x509.

(** The scheme split of [net/url] ([getScheme]): letters, then letters,
    digits, [+], [-] and [.], up to the first colon. *)
Definition is_letter (c : ascii) : bool :=
  let n := nat_of_ascii c in
  (((97 <=? n) && (n <=? 122)) || ((65 <=? n) && (n <=? 90)))%nat.

Definition is_scheme_symbol (c : ascii) : bool :=
  let n := nat_of_ascii c in
  (((48 <=? n) && (n <=? 57)) || (n =? 43) || (n =? 45) || (n =? 46))%nat.

Definition to_lower (c : ascii) : ascii :=
  let n := nat_of_ascii c in
  if ((65 <=? n) && (n <=? 90))%nat then ascii_of_nat (n + 32) else c.

Fixpoint getScheme (first : bool) (scheme : string) (rest : string) : string * option error :=
  match rest with
  | EmptyString => (EmptyString, None)
  | String c r =>
      if is_letter c then getScheme false (scheme ++ String c EmptyString) r
      else if is_scheme_symbol c then
        if first then (EmptyString, None) else getScheme false (scheme ++ String c EmptyString) r
      else if (nat_of_ascii c =? 58)%nat then
        if first then (EmptyString, Some (Opaque "missing protocol scheme")) else (scheme, None)
      else (EmptyString, None)
  end.

Fixpoint ToLower (s : string) : string :=
  match s with
  | EmptyString => EmptyString
  | String c r => String (to_lower c) (ToLower r)
  end.

Definition url_Parse (rawURL : string) : error + validate.URL :=
  match getScheme true EmptyString rawURL with
  | (_, Some e) => inl (Errorf "parse %q: %w" [OpStr rawURL; OpW (Some e)])
  | (scheme, None) => inr {| validate.Scheme := ToLower scheme; validate.Text := rawURL |}
  end.

(** An issuing CA and a revocation list valid from 0 to 100 that revokes
    the serial numbers 7 and 9. *)
Definition issuer0 : Certificate :=
  {| IsCA := true; SerialNumber := 1; IssuingCertificateURL := [];
     CRLDistributionPoints := []; UnknownExtKeyUsage := []; Raw := [48] |}.

Definition rl0 : RevocationList :=
  {| ThisUpdate := 0; NextUpdate := 100;
     RevokedCertificateEntries := [mkEntry 7; mkEntry 9]; Signature := [1] |}.

(** A standard library in which every body parses, every signature verifies
    and the clock shows 50. *)
Definition go0 : validate.golib :=
  {| validate.url_Parse := url_Parse;
     validate.http_NewRequestWithContext := fun _ => None;
     validate.x509_ParseRevocationList := fun _ => inr rl0;
     validate.x509_ParseCertificate := fun _ => inr issuer0;
     validate.CheckSignatureFrom := fun _ _ => None;
     validate.time_Now := fun _ => 50 |}.

(** A server that answers every request with status 200. *)
Definition client200 : list validate.event -> validate.URL -> error + validate.Response :=
  fun _ _ => inr {| validate.StatusCode := 200; validate.Body := inr [48] |}.

Definition tb0 : validate.TrustedBundle :=
  {| validate.Contains := fun _ => true; validate.VerifyCertificate := fun _ => None |}.

Definition disabled : validate.downloader :=
  {| validate.enabled := false; validate.maxDownloads := 10;
     validate.client := client200; validate.timeout := 2 * validate.second |}.

Definition signer_url : string := "http://pki/signer.cer".
Definition crl_url : string := "http://pki/ek.crl".
Definition ldap_url : string := "ldap://directory/cn=signer".

(** An EK certificate with ten issuer URLs and one distribution point. *)
Definition ek_ten_issuers : Certificate :=
  {| IsCA := false; SerialNumber := 5;
     IssuingCertificateURL := repeat signer_url 10;
     CRLDistributionPoints := [crl_url];
     UnknownExtKeyUsage := [validate.EKCertificate]; Raw := [48] |}.

(** An EK certificate whose only issuer URL is an LDAP one. *)
Definition ek_ldap_issuer : Certificate :=
  {| IsCA := false; SerialNumber := 5;
     IssuingCertificateURL := [ldap_url];
     CRLDistributionPoints := [crl_url];
     UnknownExtKeyUsage := [validate.EKCertificate]; Raw := [48] |}.

(** An EK certificate that is a CA and has every other defect too. *)
Definition ek_ca : Certificate :=
  {| IsCA := true; SerialNumber := 5; IssuingCertificateURL := [];
     CRLDistributionPoints := []; UnknownExtKeyUsage := []; Raw := [48] |}.

(** An EK certificate without distribution points and otherwise in order. *)
Definition ek_no_crl : Certificate :=
  {| IsCA := false; SerialNumber := 5;
     IssuingCertificateURL := [signer_url];
     CRLDistributionPoints := [];
     UnknownExtKeyUsage := [validate.EKCertificate]; Raw := [48] |}.

Definition checker (d : validate.downloader) : validate.ekchecker :=
  {| validate.ekdownloader := d; validate.tb := tb0 |}.

(** TPMs. *)
Definition rsa_template : tpm.EKCertTemplate :=
  {| tpm.TemplateType := tpm.TPMAlgRSA; tpm.Index := 29360130 |}.

Definition ecc_template : tpm.EKCertTemplate :=
  {| tpm.TemplateType := tpm.TPMAlgECC; tpm.Index := 29360138 |}.

Definition ek_of (t : tpm.EKCertTemplate) : tpm.EK :=
  {| tpm.Certificate := Some ek_no_crl;
     tpm.Public := Some {| tpm.PublicType := tpm.TemplateType t |} |}.

Definition info0 : tpm.TPMInfo :=
  {| tpm.InfoManufacturer := {| tpm.ASCII := "IFX"; tpm.Name := "Infineon" |} |}.

(** A TPM that holds one RSA certificate and no persisted handle; key
    generation succeeds. *)
Definition tpm_rsa_only (close : option error) : tpm.TPM :=
  {| tpm.Info := inr info0;
     tpm.SearchAvailableCertificates := [rsa_template];
     tpm.PersistedEKs := [];
     tpm.TPM_EK := fun t => (ek_of t, None);
     tpm.Close := close |}.

(** A TPM that holds one ECC certificate and no persisted handle; key
    generation succeeds. *)
Definition tpm_ecc_only (close : option error) : tpm.TPM :=
  {| tpm.Info := inr info0;
     tpm.SearchAvailableCertificates := [ecc_template];
     tpm.PersistedEKs := [];
     tpm.TPM_EK := fun t => (ek_of t, None);
     tpm.Close := close |}.

(** A TPM that holds an ECC and an RSA certificate and no persisted handle;
    every key generation fails with an error of the TPM. *)
Definition tpm_failing : tpm.TPM :=
  {| tpm.Info := inr info0;
     tpm.SearchAvailableCertificates := [rsa_template; ecc_template];
     tpm.PersistedEKs := [];
     tpm.TPM_EK := fun _ => (tpm.EK_zero, Some (Opaque "TPM_RC_FAILURE"));
     tpm.Close := None |}.

(** A TPM whose [Info] fails. *)
Definition tpm_no_info (close : option error) : tpm.TPM :=
  {| tpm.Info := inl (Opaque "TPM_RC_FAILURE");
     tpm.SearchAvailableCertificates := [];
     tpm.PersistedEKs := [];
     tpm.TPM_EK := fun _ => (tpm.EK_zero, Some (Opaque "TPM_RC_FAILURE"));
     tpm.Close := close |}.


End fixtures.

(** ** Package sliceutil *)

Module sliceutil.

Section Filter.

Variables T S : Type.

(** [S] is [comparable]: [==] decides equality. *)
Variable S_eq_dec : forall a b : S, {a = b} + {a <> b}.

(** The map [seen] is used as a set: only membership is asked of it. *)
Definition found (seen : list S) (s : S) : bool :=
  if in_dec S_eq_dec s seen then true else false.

(** The loop of [Filter]; [ss] is the slice built so far and [seen] the keys
    stored so far. *)
Fixpoint Filter_loop (fn : T -> S * bool) (ss seen : list S) (ts : list T) : list S :=
  match ts with
  | [] => ss
  | t :: rest =>
      let '(s, include) := fn t in
      if include then
        if found seen s then Filter_loop fn ss seen rest
        else Filter_loop fn (ss ++ [s]) (s :: seen) rest
      else Filter_loop fn ss seen rest
  end.

Definition Filter (ts : list T) (fn : T -> S * bool) : list S :=
  Filter_loop fn [] [] ts.

End Filter.

Arguments found {S} S_eq_dec seen s.

(** A key that is not stored yet. *)
Definition fresh {S : Type} (S_eq_dec : forall a b : S, {a = b} + {a <> b})
    (seen : list S) (s : S) : bool :=
  negb (found S_eq_dec seen s).
Arguments Filter_loop {T S} S_eq_dec fn ss seen ts.
Arguments Filter {T S} S_eq_dec ts fn.

(** The values [fn] keeps, in the order of the input and with repetitions. *)
Definition kept {T S : Type} (ts : list T) (fn : T -> S * bool) : list S :=
  map (fun t => fst (fn t)) (filter (fun t => snd (fn t)) ts).

End sliceutil.

(** ** Package privilege (the sudo implementation) *)

(** A call that may end the process: it returns, [os.Exit] is called, or it
    panics. *)
Inductive exit_or (A : Type) : Type :=
| Continues (a : A)
| Exits (code : Z)
| Panics (reason : string).

Arguments Continues {A} a.
Arguments Exits {A} code.
Arguments Panics {A} reason.

(** The panic of [os.Args[1:]] on an empty [os.Args]. *)
Definition slice_out_of_range : string :=
  "runtime error: slice bounds out of range [1:0]".

Module privilege.

Definition tpmDevicePath : string := "/dev/tpmrm0".

(** What [cmd.Run] returns when it fails: an [*exec.ExitError], with the
    [ExitStatus()] of its [Sys()] when that is a [syscall.WaitStatus], or
    another error. *)
Inductive run_error : Type :=
| ExitError (e : error) (status : option Z)
| OtherError (e : error).

Definition error_of (r : run_error) : error :=
  match r with
  | ExitError e _ => e
  | OtherError e => e
  end.

(** The operating system, by what its calls answer: [os.Geteuid()], the
    error of [os.Stat] and of [os.OpenFile] with [O_RDWR] on a path,
    [os.Executable()], [os.Args], and [cmd.Run()] for a command line. *)
Record host : Type := mkhost {
  Geteuid : Z;
  Stat : string -> option error;
  OpenFile : string -> option error;
  Executable : error + string;
  Args : list string;
  Run : list string -> option run_error
}.

Inductive event : Type :=
| StatCalled (path : string)
| OpenFileCalled (path : string)
| FileClosed (path : string)
| ExecutableCalled
| CommandRun (argv : list string).

Definition NeedsElevation (os : host) : bool * list event :=
  if Geteuid os =? 0 then (false, [])
  else
    match Stat os tpmDevicePath with
    | Some _ => (true, [StatCalled tpmDevicePath])
    | None =>
        match OpenFile os tpmDevicePath with
        | Some _ => (true, [StatCalled tpmDevicePath; OpenFileCalled tpmDevicePath])
        | None =>
            (false, [StatCalled tpmDevicePath; OpenFileCalled tpmDevicePath;
                     FileClosed tpmDevicePath])
        end
    end.

Definition Elevate (os : host) : exit_or (option error) * list event :=
  let '(needed, t) := NeedsElevation os in
  if negb needed then (Continues None, t)
  else
    match Executable os with
    | inl err =>
        (Continues (Some (Errorf "failed to get executable path: %w" [OpW (Some err)])),
         t ++ [ExecutableCalled])
    | inr executable =>
        match Args os with
        | [] => (Panics slice_out_of_range, t ++ [ExecutableCalled])
        | _ :: rest =>
            let args := [executable] ++ rest in
            let argv := "sudo" :: args in
            let t' := t ++ [ExecutableCalled; CommandRun argv] in
            match Run os argv with
            | Some (ExitError _ (Some status)) => (Exits status, t')
            | Some r =>
                (Continues (Some (Errorf "failed to re-execute with sudo: %w"
                                    [OpW (Some (error_of r))])), t')
            | None => (Exits 0, t')
            end
        end
    end.

End privilege.

(** ** Package windowsexec *)

Module windowsexec.

(** The constants of [golang.org/x/sys/windows] that the package names. *)
Record constants : Type := mkconstants {
  INFINITE : Z;
  WAIT_OBJECT_0 : Z;
  WAIT_TIMEOUT : Z;
  SW_NORMAL : Z
}.

Definition SEE_MASK_NOCLOSEPROCESS : Z := 64.

(** The fields of [shellExecuteInfoW] that [RunAsAndWait] sets, each
    pointer by the string it points to; [cbSize], the size of the struct in
    memory, is left out. *)
Record shellExecuteInfoW : Type := mkshellExecuteInfoW {
  fMask : Z;
  lpVerb : string;
  lpFile : string;
  lpParameters : string;
  lpDirectory : string;
  nShow : Z
}.

(** The Windows calls, by what they answer: [shellExecuteExW] gives its
    error and the [hProcess] it left in the struct; [WaitForSingleObject]
    takes a handle and a [uint32] of milliseconds. *)
Record api : Type := mkapi {
  consts : constants;
  UTF16PtrFromString : string -> error + string;
  shellExecuteExW : shellExecuteInfoW -> option error * Z;
  WaitForSingleObject : Z -> Z -> Z * option error;
  GetExitCodeProcess : Z -> Z * option error
}.

Inductive event : Type :=
| ShellExecuteExWCalled (info : shellExecuteInfoW)
| WaitForSingleObjectCalled (handle : Z) (milliseconds : Z)
| GetExitCodeProcessCalled (handle : Z)
| CloseHandleCalled (handle : Z).

(** The conversion to [uint32]. *)
Definition uint32 (n : Z) : Z := n mod 2 ^ 32.

(** [time.Duration.Milliseconds]: the integer quotient, towards zero. *)
Definition Milliseconds (d : Z) : Z := Z.quot d 1000000.

Definition waitTime (w : api) (timeout : Z) : Z :=
  if 0 <? timeout then Milliseconds timeout else INFINITE (consts w).

(** [RunAsAndWait] once the process handle is known to be non-null, up to
    its return statement. The result of the wait is a [uint32]; the switch
    compares it with the two constants as [uint32] values, in this order. *)
Definition wait_and_check (w : api) (hProcess : Z) (timeout : Z) : M event (option error) :=
  emit (WaitForSingleObjectCalled hProcess (uint32 (waitTime w timeout))) ;;;
  let '(r, err) := WaitForSingleObject w hProcess (uint32 (waitTime w timeout)) in
  match err with
  | Some e => ret (Some (Errorf "waiting for elevated process: %w" [OpW (Some e)]))
  | None =>
      if r =? uint32 (WAIT_OBJECT_0 (consts w)) then
        emit (GetExitCodeProcessCalled hProcess) ;;;
        let '(code, err) := GetExitCodeProcess w hProcess in
        match err with
        | Some e => ret (Some (Errorf "getting exit code: %w" [OpW (Some e)]))
        | None =>
            if negb (code =? 0) then
              ret (Some (Errorf "elevated process exited with code: %d" [OpInt code]))
            else ret None
        end
      else if r =? uint32 (WAIT_TIMEOUT (consts w)) then
        ret (Some (Errorf "timed out waiting for elevated process" []))
      else ret (Some (Errorf "unexpected wait result: %d" [OpInt r]))
  end.

Definition RunAsAndWait (w : api) (file directory : string) (timeout : Z)
    (parameters : list string) : M event (option error) :=
  match UTF16PtrFromString w "runas" with
  | inl err => ret (Some (Errorf "converting verb to ptr: %w" [OpW (Some err)]))
  | inr verb =>
  match UTF16PtrFromString w file with
  | inl err => ret (Some (Errorf "converting file to ptr: %w" [OpW (Some err)]))
  | inr lpfile =>
  match UTF16PtrFromString w directory with
  | inl err => ret (Some (Errorf "converting directory to ptr: %w" [OpW (Some err)]))
  | inr lpdirectory =>
  match UTF16PtrFromString w (String.concat " " parameters) with
  | inl err => ret (Some (Errorf "converting parameters to ptr: %w" [OpW (Some err)]))
  | inr lpparameters =>
      let info :=
        {| fMask := SEE_MASK_NOCLOSEPROCESS; lpVerb := verb; lpFile := lpfile;
           lpParameters := lpparameters; lpDirectory := lpdirectory;
           nShow := SW_NORMAL (consts w) |} in
      emit (ShellExecuteExWCalled info) ;;;
      let '(err, hProcess) := shellExecuteExW w info in
      match err with
      | Some e => ret (Some (Errorf "calling shellExecuteExW: %w" [OpW (Some e)]))
      | None =>
          if hProcess =? 0 then
            ret (Some (Errorf "unexpected null hProcess handle from shellExecuteExW" []))
          else
            (* defer windows.CloseHandle(info.hProcess) *)
            r <- wait_and_check w hProcess timeout ;;
            emit (CloseHandleCalled hProcess) ;;;
            ret r
      end
  end end end end.

End windowsexec.

(** ** Package privilege (the Windows implementation) *)

Module privilege_windows.

Definition minute : Z := 60 * validate.second.

(** [os.Executable()], [os.Getwd()] and [os.Args]. *)
Record host : Type := mkhost {
  Executable : error + string;
  Getwd : error + string;
  Args : list string
}.

Definition elevateWindows (os : host) (w : windowsexec.api)
    : exit_or (option error) * list windowsexec.event :=
  match Executable os with
  | inl err =>
      (Continues (Some (Errorf "failed to get executable path: %w" [OpW (Some err)])), [])
  | inr executable =>
      match Getwd os with
      | inl err =>
          (Continues (Some (Errorf "failed to get working directory: %w"
                              [OpW (Some err)])), [])
      | inr cwd =>
          let timeout := 5 * minute in
          match Args os with
          | [] => (Panics slice_out_of_range, [])
          | _ :: rest =>
              match windowsexec.RunAsAndWait w executable cwd timeout rest [] with
              | (Returned (Some err), t) =>
                  (Continues
                     (Some (Errorf "failed to re-execute with elevated privileges: %w"
                              [OpW (Some err)])), t)
              | (Returned None, t) => (Exits 0, t)
              | (Panicked reason, t) => (Panics reason, t)
              end
          end
      end
  end.

End privilege_windows.

(** ** Concrete environments for the examples of elevation *)

Module fixtures_windows.

(** A Windows in which every call succeeds; the elevated process has the
    handle 7 and exits with the given code. The constants have the values
    of [golang.org/x/sys/windows]. *)
Definition windows_constants : windowsexec.constants :=
  {| windowsexec.INFINITE := 4294967295; windowsexec.WAIT_OBJECT_0 := 0;
     windowsexec.WAIT_TIMEOUT := 258; windowsexec.SW_NORMAL := 1 |}.

Definition windows_ok (code : Z) : windowsexec.api :=
  {| windowsexec.consts := windows_constants;
     windowsexec.UTF16PtrFromString := fun s => inr s;
     windowsexec.shellExecuteExW := fun _ => (None, 7);
     windowsexec.WaitForSingleObject := fun _ _ => (0, None);
     windowsexec.GetExitCodeProcess := fun _ => (code, None) |}.

Definition windows_host : privilege_windows.host :=
  {| privilege_windows.Executable := inr "C:\tpm-trust.exe";
     privilege_windows.Getwd := inr "C:\";
     privilege_windows.Args := ["tpm-trust"; "audit"] |}.

End fixtures_windows.

(** * Properties *)

(** ** The revocation-list wrapper *)

Lemma revoked_in_iff (entries : list x509.RevocationListEntry) (cert : x509.Certificate) :
  crl.revoked_in entries cert = true <->
  In (x509.SerialNumber cert) (map x509.EntrySerialNumber entries).
Proof.
  induction entries as [|entry rest IH]; simpl.
  - split; [discriminate | intros []].
  - destruct (Z.eqb_spec (x509.EntrySerialNumber entry) (x509.SerialNumber cert)) as [Heq|Hne].
    + split; auto.
    + rewrite IH. split; [auto | intros [H|H]; [contradiction | exact H]].
Qed.

(** C7, as amended: for every revocation list, whatever its signature, and
    every evaluation time, [IsValid] returns the expired error when the time
    is after nextUpdate, the not-yet-valid error when the time is before
    thisUpdate and not after nextUpdate, and no error inside the closed
    interval; outside the interval it always returns an error. *)
Theorem IsValid_window (c : crl.crl) (now : x509.Time) :
  let this := x509.ThisUpdate (crl.list_of c) in
  let next := x509.NextUpdate (crl.list_of c) in
  (next < now -> crl.IsValid now c = Some (Sentinel ErrCrlIsExpired)) /\
  (now < this -> now <= next -> crl.IsValid now c = Some (Sentinel ErrCrlNotYetValid)) /\
  (this <= now <= next -> crl.IsValid now c = None) /\
  (~ (this <= now <= next) -> crl.IsValid now c <> None) /\
  (forall signature,
     crl.IsValid now c =
     crl.IsValid now
       (crl.mkcrl (x509.mkRevocationList this next
                     (x509.RevokedCertificateEntries (crl.list_of c)) signature))).
Proof.
  cbv zeta. unfold crl.IsValid. simpl.
  destruct (Z.ltb_spec (x509.NextUpdate (crl.list_of c)) now) as [Hexp|Hexp];
    destruct (Z.ltb_spec now (x509.ThisUpdate (crl.list_of c))) as [Hnot|Hnot];
    repeat split; intros; try reflexivity; try lia; try discriminate.
Qed.

Lemma IsValid_window_witness :
  crl.IsValid 101 (crl.mkcrl fixtures.rl0) = Some (Sentinel ErrCrlIsExpired) /\
  crl.IsValid (-1) (crl.mkcrl fixtures.rl0) = Some (Sentinel ErrCrlNotYetValid) /\
  crl.IsValid 50 (crl.mkcrl fixtures.rl0) = None.
Proof.
  split; [| split].
  - apply (IsValid_window (crl.mkcrl fixtures.rl0) 101). simpl. lia.
  - apply (IsValid_window (crl.mkcrl fixtures.rl0) (-1)); simpl; lia.
  - apply (IsValid_window (crl.mkcrl fixtures.rl0) 50). simpl. lia.
Defined.

(** C7, as stated, fails on a list whose nextUpdate lies before its
    thisUpdate: at a time between the two, the time is before thisUpdate and
    the error is the expired one, not the not-yet-valid one. *)
Lemma IsValid_before_thisUpdate_expired :
  let c := crl.mkcrl (x509.mkRevocationList 10 5 [] []) in
  7 < x509.ThisUpdate (crl.list_of c) /\
  crl.IsValid 7 c = Some (Sentinel ErrCrlIsExpired) /\
  crl.IsValid 7 c <> Some (Sentinel ErrCrlNotYetValid).
Proof.
  cbv zeta. split; [simpl; lia | split; [reflexivity | discriminate]].
Qed.

(** C8: [IsRevoked] returns true exactly when the certificate's serial
    number is the serial number of an entry of the list, and false for every
    certificate when the list has no entry. *)
Theorem IsRevoked_iff_serial_listed (c : crl.crl) (cert : x509.Certificate) :
  (crl.IsRevoked c cert = true <->
   In (x509.SerialNumber cert)
      (map x509.EntrySerialNumber (x509.RevokedCertificateEntries (crl.list_of c)))) /\
  (x509.RevokedCertificateEntries (crl.list_of c) = [] -> crl.IsRevoked c cert = false).
Proof.
  split.
  - apply revoked_in_iff.
  - unfold crl.IsRevoked. intros ->. reflexivity.
Qed.

Lemma IsRevoked_iff_serial_listed_witness :
  crl.IsRevoked (crl.mkcrl (x509.mkRevocationList 0 100 [] [1])) fixtures.ek_ca = false /\
  crl.IsRevoked (crl.mkcrl fixtures.rl0)
    (x509.mkCertificate false 9 [] [] [] []) = true.
Proof.
  split.
  - apply (IsRevoked_iff_serial_listed
             (crl.mkcrl (x509.mkRevocationList 0 100 [] [1])) fixtures.ek_ca).
    reflexivity.
  - apply (IsRevoked_iff_serial_listed (crl.mkcrl fixtures.rl0)
             (x509.mkCertificate false 9 [] [] [] [])).
    simpl. right. left. reflexivity.
Defined.

(** ** The downloader *)

Lemma downloadCRL_disabled (go : validate.golib) (d : validate.downloader)
    (u : validate.URL) (t : list validate.event) :
  validate.enabled d = false ->
  validate.downloadCRL go d u t
    = (Returned (None, None), t ++ [validate.DownloadCRLCalled u]).
Proof.
  intros Hoff. unfold validate.downloadCRL, bind, emit, ret.
  rewrite Hoff. reflexivity.
Qed.

Lemma downloadCRLSigner_disabled (go : validate.golib) (d : validate.downloader)
    (u : validate.URL) (t : list validate.event) :
  validate.enabled d = false ->
  validate.downloadCRLSigner go d u t
    = (Returned (inl (Sentinel ErrDownloaderDisabled)),
       t ++ [validate.DownloadCRLSignerCalled u]).
Proof.
  intros Hoff. unfold validate.downloadCRLSigner, bind, emit, ret.
  rewrite Hoff. reflexivity.
Qed.

(** C6: with the downloader disabled, for every URL, [downloadCRL] returns a
    nil list and a nil error and [downloadCRLSigner] returns the disabled
    error; neither sends a request. *)
Theorem disabled_downloader_paths (go : validate.golib) (d : validate.downloader)
    (u : validate.URL) (t : list validate.event) :
  validate.enabled d = false ->
  validate.downloadCRL go d u t
    = (Returned (None, None), t ++ [validate.DownloadCRLCalled u]) /\
  validate.downloadCRLSigner go d u t
    = (Returned (inl (Sentinel ErrDownloaderDisabled)),
       t ++ [validate.DownloadCRLSignerCalled u]) /\
  validate.total_fetches (snd (validate.downloadCRL go d u [])) = 0 /\
  validate.total_fetches (snd (validate.downloadCRLSigner go d u [])) = 0.
Proof.
  intros Hoff.
  rewrite !downloadCRL_disabled, !downloadCRLSigner_disabled by exact Hoff.
  repeat split; reflexivity.
Qed.

Lemma disabled_downloader_paths_witness :
  validate.downloadCRL fixtures.go0 fixtures.disabled
    (validate.mkURL "http" fixtures.crl_url) []
    = (Returned (None, None),
       [validate.DownloadCRLCalled (validate.mkURL "http" fixtures.crl_url)]) /\
  validate.downloadCRLSigner fixtures.go0 fixtures.disabled
    (validate.mkURL "http" fixtures.signer_url) []
    = (Returned (inl (Sentinel ErrDownloaderDisabled)),
       [validate.DownloadCRLSignerCalled (validate.mkURL "http" fixtures.signer_url)]).
Proof.
  split.
  - apply (disabled_downloader_paths fixtures.go0 fixtures.disabled
             (validate.mkURL "http" fixtures.crl_url) []).
    reflexivity.
  - apply (disabled_downloader_paths fixtures.go0 fixtures.disabled
             (validate.mkURL "http" fixtures.signer_url) []).
    reflexivity.
Defined.

(** ** The structural checks *)

Lemma rejection_injective (d : validate.downloader) (ek : x509.Certificate)
    (r1 r2 : prechecks.rule) :
  prechecks.rejection d ek r1 = prechecks.rejection d ek r2 -> r1 = r2.
Proof.
  destruct r1, r2; simpl; intros H; try reflexivity; discriminate H.
Qed.

(** C2: for every configuration whose certificate has the CA flag, [Check]
    returns [ErrEKCannotBeCA] and leaves the trace as it found it: no method
    of the downloader is entered and no request is sent. *)
Theorem Check_CA_rejected_without_network (go : validate.golib) (c : validate.ekchecker)
    (ek : x509.Certificate) (skip : bool) (t : list validate.event) :
  x509.IsCA ek = true ->
  validate.Check go c (validate.mkCheckConfig (Some ek) skip) t
    = (Returned (Some (Sentinel ErrEKCannotBeCA)), t).
Proof.
  intros Hca.
  unfold validate.Check, validate.check, bind, ret. simpl.
  rewrite Hca. reflexivity.
Qed.

Lemma Check_CA_rejected_without_network_witness :
  validate.Check fixtures.go0
    (fixtures.checker (validate.newDefaultDownloader fixtures.client200))
    (validate.mkCheckConfig (Some fixtures.ek_ca) false) []
    = (Returned (Some (Sentinel ErrEKCannotBeCA)), []).
Proof.
  apply (Check_CA_rejected_without_network fixtures.go0
           (fixtures.checker (validate.newDefaultDownloader fixtures.client200))
           fixtures.ek_ca false []).
  reflexivity.
Defined.

(** [check] computes the first violated check of the list. *)
Lemma check_computes (c : validate.ekchecker) (ek : x509.Certificate)
    (skip : bool) (t : list validate.event) :
  validate.check c (validate.mkCheckConfig (Some ek) skip) t
    = (Returned (validate.mkCheckConfig (Some ek)
                   (prechecks.skip_after
                      (prechecks.first_failing (validate.ekdownloader c) skip ek) skip ek),
                 option_map (prechecks.rejection (validate.ekdownloader c) ek)
                   (prechecks.first_failing (validate.ekdownloader c) skip ek)), t).
Proof.
  unfold validate.check, prechecks.first_failing, prechecks.skip_after,
    prechecks.has_EK_OID, validate.EKCertificate, ret.
  simpl.
  destruct (x509.IsCA ek); [reflexivity|].
  destruct (validate.len (x509.IssuingCertificateURL ek) =? 0); [reflexivity|].
  destruct (validate.maxDownloads (validate.ekdownloader c)
              <? validate.len (x509.IssuingCertificateURL ek)); [reflexivity|].
  destruct (negb skip &&
              (validate.maxDownloads (validate.ekdownloader c)
                 <? validate.len (x509.CRLDistributionPoints ek))); [reflexivity|].
  unfold prechecks.has_EK_OID.
  destruct (existsb (fun oid => validate.slices_Equal oid [2; 23; 133; 8; 1])
              (x509.UnknownExtKeyUsage ek)); simpl;
    destruct (validate.len (x509.CRLDistributionPoints ek) =? 0);
    destruct skip; reflexivity.
Qed.

(** C3: [check] rejects with the error of the first violated check in the
    order CA flag, no issuer URL, issuer URLs over the ceiling, (revocation
    enabled and) distribution points over the ceiling, identity-key OID
    absent; the errors of the five checks are distinct and [Check] returns
    the one [check] chose; having no distribution point is between the
    fourth and the last check and only turns the revocation check off: a
    certificate without distribution points that violates no check is
    accepted. *)
Theorem check_first_failing_wins (c : validate.ekchecker) (ek : x509.Certificate)
    (skip : bool) (t : list validate.event) :
  let d := validate.ekdownloader c in
  let failing := prechecks.first_failing d skip ek in
  validate.check c (validate.mkCheckConfig (Some ek) skip) t
    = (Returned (validate.mkCheckConfig (Some ek) (prechecks.skip_after failing skip ek),
                 option_map (prechecks.rejection d ek) failing), t) /\
  (forall r1 r2, prechecks.rejection d ek r1 = prechecks.rejection d ek r2 -> r1 = r2) /\
  (forall go r, failing = Some r ->
   validate.Check go c (validate.mkCheckConfig (Some ek) skip) t
     = (Returned (Some (prechecks.rejection d ek r)), t)) /\
  (validate.len (x509.CRLDistributionPoints ek) = 0 -> failing = None ->
   validate.check c (validate.mkCheckConfig (Some ek) skip) t
     = (Returned (validate.mkCheckConfig (Some ek) true, None), t)).
Proof.
  cbv zeta.
  split; [apply check_computes | split; [apply rejection_injective | split]].
  - intros go r Hfails.
    unfold validate.Check, validate.CheckConfig_CheckAndSetDefaults, bind.
    cbn [validate.EK]. rewrite check_computes, Hfails. reflexivity.
  - intros Hzero Hnone. rewrite check_computes, Hnone.
    unfold prechecks.skip_after, prechecks.reaches_step5.
    rewrite Hzero. simpl. rewrite orb_true_r. reflexivity.
Qed.

Lemma check_first_failing_wins_witness :
  validate.check (fixtures.checker (validate.newDefaultDownloader fixtures.client200))
    (validate.mkCheckConfig (Some fixtures.ek_no_crl) false) []
    = (Returned (validate.mkCheckConfig (Some fixtures.ek_no_crl) true, None), []) /\
  validate.check (fixtures.checker (validate.newDefaultDownloader fixtures.client200))
    (validate.mkCheckConfig (Some fixtures.ek_ca) false) []
    = (Returned (validate.mkCheckConfig (Some fixtures.ek_ca) false,
                 Some (Sentinel ErrEKCannotBeCA)), []).
Proof.
  split.
  - apply (check_first_failing_wins
             (fixtures.checker (validate.newDefaultDownloader fixtures.client200))
             fixtures.ek_no_crl false []); reflexivity.
  - apply (check_first_failing_wins
             (fixtures.checker (validate.newDefaultDownloader fixtures.client200))
             fixtures.ek_ca false []).
Defined.

(** ** The fetches of a verification run *)

Lemma len_nonneg {A} (l : list A) : 0 <= validate.len l.
Proof. unfold validate.len. lia. Qed.

Lemma len_cons {A} (x : A) (l : list A) : validate.len (x :: l) = 1 + validate.len l.
Proof. unfold validate.len. simpl List.length. lia. Qed.

Lemma len_app {A} (l l' : list A) :
  validate.len (l ++ l') = validate.len l + validate.len l'.
Proof. unfold validate.len. rewrite length_app. lia. Qed.

Lemma fetches_app (what : validate.resource) (a b : list validate.event) :
  validate.fetches what (a ++ b) = validate.fetches what a + validate.fetches what b.
Proof. unfold validate.fetches. rewrite filter_app. apply len_app. Qed.

Lemma fetches_nonneg (what : validate.resource) (a : list validate.event) :
  0 <= validate.fetches what a.
Proof. apply len_nonneg. Qed.

Lemma adds_refl (ni nc : Z) (t : list validate.event) :
  0 <= ni -> 0 <= nc -> validate.adds_fetches ni nc t t.
Proof.
  intros Hi Hc. exists []. rewrite app_nil_r. repeat split; assumption.
Qed.

Lemma adds_trans (ni nc ni' nc' : Z) (t t1 t2 : list validate.event) :
  validate.adds_fetches ni nc t t1 ->
  validate.adds_fetches ni' nc' t1 t2 ->
  validate.adds_fetches (ni + ni') (nc + nc') t t2.
Proof.
  intros (a & -> & Hi & Hc) (b & -> & Hi' & Hc').
  exists (a ++ b). rewrite app_assoc, !fetches_app. repeat split; lia.
Qed.

Lemma adds_weaken (ni nc ni' nc' : Z) (t t' : list validate.event) :
  validate.adds_fetches ni nc t t' -> ni <= ni' -> nc <= nc' ->
  validate.adds_fetches ni' nc' t t'.
Proof.
  intros (a & -> & Hi & Hc) Hle Hle'. exists a. repeat split; lia.
Qed.

Lemma adds_one_call (ni nc : Z) (t : list validate.event) (e : validate.event) :
  validate.fetches validate.IssuerCertificate [e] <= ni ->
  validate.fetches validate.RevocationListFile [e] <= nc ->
  validate.adds_fetches ni nc t (t ++ [e]).
Proof. intros Hi Hc. exists [e]. repeat split; assumption. Qed.

Lemma adds_call_then_fetch (ni nc : Z) (t : list validate.event) (e e' : validate.event) :
  validate.fetches validate.IssuerCertificate [e; e'] <= ni ->
  validate.fetches validate.RevocationListFile [e; e'] <= nc ->
  validate.adds_fetches ni nc t ((t ++ [e]) ++ [e']).
Proof.
  intros Hi Hc. exists [e; e']. rewrite <- app_assoc. repeat split; assumption.
Qed.

Section FetchBounds.

Variable go : validate.golib.

Lemma prepareUrls_loop_len (urls : list string) (acc : list validate.URL) :
  validate.len (fst (validate.prepareUrls_loop go acc urls))
    <= validate.len acc + validate.len urls.
Proof.
  revert acc. induction urls as [|u rest IH]; intros acc.
  - unfold validate.len; simpl; lia.
  - rewrite len_cons. cbn [validate.prepareUrls_loop].
    destruct (validate.url_Parse go u) as [e|parsed].
    + pose proof (len_nonneg acc). pose proof (len_nonneg rest).
      change (validate.len (A:=validate.URL) [] <= validate.len acc + (1 + validate.len rest)).
      change (validate.len (A:=validate.URL) []) with 0. lia.
    + destruct (negb _).
      * specialize (IH acc). lia.
      * specialize (IH (acc ++ [parsed])). rewrite len_app, (len_cons parsed []) in IH.
        unfold validate.len in *. simpl in IH. lia.
Qed.

Lemma prepareUrls_len (urls : list string) :
  validate.len (fst (validate.prepareUrls go urls)) <= validate.len urls.
Proof.
  unfold validate.prepareUrls.
  pose proof (prepareUrls_loop_len urls []) as H.
  unfold validate.len at 2 in H. simpl in H. lia.
Qed.

Lemma downloadCRLSigner_adds (d : validate.downloader) (u : validate.URL)
    (t : list validate.event) :
  validate.adds_fetches 1 0 t (snd (validate.downloadCRLSigner go d u t)).
Proof.
  unfold validate.downloadCRLSigner, validate.Do, bind, emit, history, ret.
  destruct (negb (validate.enabled d)); simpl.
  - apply adds_one_call; vm_compute; discriminate.
  - destruct (validate.http_NewRequestWithContext go u); simpl.
    + apply adds_one_call; vm_compute; discriminate.
    + destruct (validate.client d _ u) as [e|resp]; simpl;
        [apply adds_call_then_fetch; vm_compute; discriminate|].
      destruct (negb (validate.StatusCode resp =? 200)); simpl;
        [apply adds_call_then_fetch; vm_compute; discriminate|].
      destruct (validate.Body resp) as [e|bytes]; simpl;
        [apply adds_call_then_fetch; vm_compute; discriminate|].
      destruct (validate.x509_ParseCertificate go bytes); simpl;
        apply adds_call_then_fetch; vm_compute; discriminate.
Qed.

Lemma downloadCRL_adds (d : validate.downloader) (u : validate.URL)
    (t : list validate.event) :
  validate.adds_fetches 0 1 t (snd (validate.downloadCRL go d u t)).
Proof.
  unfold validate.downloadCRL, validate.Do, bind, emit, history, ret.
  destruct (negb (validate.enabled d)); simpl.
  - apply adds_one_call; vm_compute; discriminate.
  - destruct (validate.http_NewRequestWithContext go u); simpl.
    + apply adds_one_call; vm_compute; discriminate.
    + destruct (validate.client d _ u) as [e|resp]; simpl;
        [apply adds_call_then_fetch; vm_compute; discriminate|].
      destruct (negb (validate.StatusCode resp =? 200)); simpl;
        [apply adds_call_then_fetch; vm_compute; discriminate|].
      destruct (validate.Body resp) as [e|bytes]; simpl;
        [apply adds_call_then_fetch; vm_compute; discriminate|].
      destruct (validate.x509_ParseRevocationList go bytes); simpl;
        apply adds_call_then_fetch; vm_compute; discriminate.
Qed.

End FetchBounds.

Section CheckBounds.

Variable go : validate.golib.

Lemma getIssuerCertificates_loop_adds (d : validate.downloader) (urls : list validate.URL) :
  forall (issuers : list x509.Certificate) (t : list validate.event),
    validate.adds_fetches (validate.len urls) 0 t
      (snd (validate.getIssuerCertificates_loop go d issuers urls t)).
Proof.
  induction urls as [|u rest IH]; intros issuers t.
  - apply adds_refl; [apply len_nonneg | lia].
  - rewrite len_cons. cbn [validate.getIssuerCertificates_loop]. unfold bind.
    pose proof (downloadCRLSigner_adds go d u t) as Hone.
    destruct (validate.downloadCRLSigner go d u t) as [[[e|cert]|reason] t1];
      simpl in Hone.
    + eapply adds_weaken; [exact Hone | pose proof (len_nonneg rest); lia | lia].
    + eapply adds_weaken; [eapply adds_trans; [exact Hone | apply IH] | lia | lia].
    + eapply adds_weaken; [exact Hone | pose proof (len_nonneg rest); lia | lia].
Qed.

Lemma getIssuerCertificates_adds (d : validate.downloader) (cert : x509.Certificate)
    (t : list validate.event) :
  validate.adds_fetches (validate.len (x509.IssuingCertificateURL cert)) 0 t
    (snd (validate.getIssuerCertificates go d cert t)).
Proof.
  unfold validate.getIssuerCertificates.
  pose proof (prepareUrls_len go (x509.IssuingCertificateURL cert)) as Hlen.
  destruct (validate.prepareUrls go (x509.IssuingCertificateURL cert)) as [urls [e|]];
    simpl in Hlen.
  - apply adds_refl; [apply len_nonneg | lia].
  - eapply adds_weaken; [apply getIssuerCertificates_loop_adds | exact Hlen | lia].
Qed.

Lemma Check_crl_loop_adds (c : validate.ekchecker) (ek : x509.Certificate)
    (issuers : list x509.Certificate) (urls : list validate.URL) :
  forall t : list validate.event,
    validate.adds_fetches 0 (validate.len urls) t
      (snd (validate.Check_crl_loop go c ek issuers urls t)).
Proof.
  induction urls as [|u rest IH]; intros t.
  - apply adds_refl; [lia | apply len_nonneg].
  - rewrite len_cons. cbn [validate.Check_crl_loop]. unfold bind.
    pose proof (downloadCRL_adds go (validate.ekdownloader c) u t) as Hone.
    pose proof (len_nonneg rest) as Hrest.
    destruct (validate.downloadCRL go (validate.ekdownloader c) u t)
      as [[[[l|] [e|]]|reason] t1]; simpl in Hone;
      try (eapply adds_weaken; [exact Hone | lia | lia]).
    destruct (crl.Verify (validate.CheckSignatureFrom go) l issuers);
      [eapply adds_weaken; [exact Hone | lia | lia]|].
    destruct (crl.IsRevoked l ek);
      [eapply adds_weaken; [exact Hone | lia | lia]|].
    eapply adds_weaken; [eapply adds_trans; [exact Hone | apply IH] | lia | lia].
Qed.

(** What [check] has established when it returns no error. *)
Lemma check_accepts (c : validate.ekchecker) (cfg cfg' : validate.CheckConfig)
    (t t' : list validate.event) :
  validate.check c cfg t = (Returned (cfg', None), t') ->
  t' = t /\
  exists ek,
    validate.EK cfg' = Some ek /\
    validate.len (x509.IssuingCertificateURL ek)
      <= validate.maxDownloads (validate.ekdownloader c) /\
    (validate.SkipRevocationCheck cfg' = false ->
     validate.len (x509.CRLDistributionPoints ek)
       <= validate.maxDownloads (validate.ekdownloader c)).
Proof.
  destruct cfg as [[ek|] skip]; [|discriminate].
  rewrite check_computes. intros H. injection H as Hcfg Hrej Ht.
  split; [symmetry; exact Ht|].
  exists ek. subst cfg'. split; [reflexivity|].
  unfold prechecks.first_failing, prechecks.skip_after in *. simpl in *.
  destruct (x509.IsCA ek); [discriminate|].
  destruct (validate.len (x509.IssuingCertificateURL ek) =? 0); [discriminate|].
  destruct (Z.ltb_spec (validate.maxDownloads (validate.ekdownloader c))
              (validate.len (x509.IssuingCertificateURL ek))); [discriminate|].
  split; [assumption|].
  destruct skip; simpl in *.
  - destruct (negb (prechecks.has_EK_OID ek)); simpl; discriminate.
  - destruct (Z.ltb_spec (validate.maxDownloads (validate.ekdownloader c))
                (validate.len (x509.CRLDistributionPoints ek))); [discriminate|].
    intros _. assumption.
Qed.

Lemma check_trace (c : validate.ekchecker) (cfg : validate.CheckConfig)
    (t : list validate.event) :
  snd (validate.check c cfg t) = t.
Proof.
  destruct cfg as [[ek|] skip]; [|reflexivity].
  rewrite check_computes. reflexivity.
Qed.

Lemma Check_adds (c : validate.ekchecker) (cfg : validate.CheckConfig)
    (t : list validate.event) :
  0 <= validate.maxDownloads (validate.ekdownloader c) ->
  validate.adds_fetches (validate.maxDownloads (validate.ekdownloader c))
    (validate.maxDownloads (validate.ekdownloader c)) t
    (snd (validate.Check go c cfg t)).
Proof.
  intros Hpos. unfold validate.Check.
  destruct (validate.CheckConfig_CheckAndSetDefaults cfg);
    [apply adds_refl; assumption|].
  unfold bind.
  pose proof (check_trace c cfg t) as Htrace.
  destruct (validate.check c cfg t) as [[[cfg' [e|]]|reason] t1] eqn:Hcheck;
    simpl in Htrace; subst t1; try (apply adds_refl; assumption).
  apply check_accepts in Hcheck as (_ & ek & Hek & Hissuers & Hcrls).
  rewrite Hek.
  pose proof (getIssuerCertificates_adds (validate.ekdownloader c) ek t) as Hfirst.
  destruct (validate.getIssuerCertificates go (validate.ekdownloader c) ek t)
    as [[[issuers [e|]]|reason] t1]; simpl in Hfirst;
    try (eapply adds_weaken; [exact Hfirst | lia | lia]).
  assert (Hsecond : forall o t2,
    (if negb (validate.SkipRevocationCheck cfg')
     then match validate.prepareUrls go (x509.CRLDistributionPoints ek) with
          | (_, Some err) =>
              ret (Some (Errorf "failed to prepare CRL URLs: %w" [OpW (Some err)]))
          | (crlUrls, None) => validate.Check_crl_loop go c ek issuers crlUrls
          end
     else ret None) t1 = (o, t2) ->
    validate.adds_fetches 0 (validate.maxDownloads (validate.ekdownloader c)) t1 t2).
  { intros o t2.
    destruct (validate.SkipRevocationCheck cfg'); simpl.
    - intros H. injection H as _ <-. apply adds_refl; lia.
    - specialize (Hcrls eq_refl).
      pose proof (prepareUrls_len go (x509.CRLDistributionPoints ek)) as Hlen.
      destruct (validate.prepareUrls go (x509.CRLDistributionPoints ek))
        as [urls [e|]]; simpl in Hlen.
      + intros H. injection H as _ <-. apply adds_refl; lia.
      + intros H.
        pose proof (Check_crl_loop_adds c ek issuers urls t1) as Hloop.
        rewrite H in Hloop. simpl in Hloop.
        eapply adds_weaken; [exact Hloop | lia | lia]. }
  match goal with
  | |- context [bind ?m _ t1] => unfold bind at 1; destruct (m t1) as [o t2] eqn:Hrun
  | |- context [match ?m t1 with _ => _ end] => destruct (m t1) as [o t2] eqn:Hrun
  end.
  specialize (Hsecond o t2 eq_refl). clear Hrun. rename Hsecond into Hrun.
  assert (Hboth : validate.adds_fetches
                    (validate.maxDownloads (validate.ekdownloader c))
                    (validate.maxDownloads (validate.ekdownloader c)) t t2).
  { eapply adds_weaken; [eapply adds_trans; [exact Hfirst | exact Hrun] | lia | lia]. }
  destruct o as [[e|]|reason]; simpl; try exact Hboth.
  destruct (validate.VerifyCertificate (validate.tb c) ek); exact Hboth.
Qed.

End CheckBounds.

(** C1, as amended: with a ceiling N that is not negative, a run of [Check]
    sends at most N requests for issuer certificates and at most N requests
    for revocation lists, hence at most 2N requests; and when the structural
    checks reject, [Check] returns their error without any request or call
    of the downloader. *)
Theorem Check_fetches_bounded_per_kind (go : validate.golib) (c : validate.ekchecker)
    (cfg : validate.CheckConfig) :
  let N := validate.maxDownloads (validate.ekdownloader c) in
  let t := snd (validate.Check go c cfg []) in
  0 <= N ->
  validate.fetches validate.IssuerCertificate t <= N /\
  validate.fetches validate.RevocationListFile t <= N /\
  validate.total_fetches t <= 2 * N /\
  (forall cfg' e,
     fst (validate.check c cfg []) = Returned (cfg', Some e) ->
     validate.Check go c cfg [] = (Returned (Some e), [])).
Proof.
  cbv zeta. intros Hpos.
  destruct (Check_adds go c cfg [] Hpos) as (a & Ha & Hi & Hc).
  rewrite Ha. change ([] ++ a) with a. unfold validate.total_fetches.
  split; [lia | split; [lia | split; [lia |]]].
  intros cfg' e Hrej.
  destruct cfg as [[ek|] skip]; [|discriminate].
  unfold validate.Check, bind. simpl.
  pose proof (check_trace c (validate.mkCheckConfig (Some ek) skip) []) as Htrace.
  destruct (validate.check c (validate.mkCheckConfig (Some ek) skip) [])
    as [o t1]; simpl in *. subst. reflexivity.
Qed.

Lemma Check_fetches_bounded_per_kind_witness :
  validate.fetches validate.IssuerCertificate
    (snd (validate.Check fixtures.go0
            (fixtures.checker (validate.newDefaultDownloader fixtures.client200))
            (validate.mkCheckConfig (Some fixtures.ek_ten_issuers) false) [])) <= 10.
Proof.
  apply (Check_fetches_bounded_per_kind fixtures.go0
           (fixtures.checker (validate.newDefaultDownloader fixtures.client200))
           (validate.mkCheckConfig (Some fixtures.ek_ten_issuers) false)).
  simpl. lia.
Defined.

(** C1, as stated, fails: with the default ceiling of 10, a certificate with
    ten issuer URLs and one distribution point passes the structural checks
    and the run sends eleven requests. *)
Lemma Check_total_fetches_exceed_ceiling :
  let d := validate.newDefaultDownloader fixtures.client200 in
  let run := validate.Check fixtures.go0 (fixtures.checker d)
               (validate.mkCheckConfig (Some fixtures.ek_ten_issuers) false) [] in
  fst run = Returned None /\
  validate.total_fetches (snd run) = 11 /\
  validate.maxDownloads d < validate.total_fetches (snd run).
Proof.
  cbv zeta. vm_compute. repeat split; reflexivity.
Qed.

(** ** The nil revocation list of a disabled downloader *)

(** With the downloader disabled, issuer URLs that are all dropped and one
    distribution point left, the revocation loop calls [Verify] on the nil
    list. *)
Lemma Check_crl_loop_disabled_panics (go : validate.golib) (c : validate.ekchecker)
    (ek : x509.Certificate) (issuers : list x509.Certificate) (u : validate.URL)
    (rest : list validate.URL) (t : list validate.event) :
  validate.enabled (validate.ekdownloader c) = false ->
  validate.Check_crl_loop go c ek issuers (u :: rest) t
    = (Panicked nil_dereference, t ++ [validate.DownloadCRLCalled u]).
Proof.
  intros Hoff. cbn [validate.Check_crl_loop]. unfold bind.
  rewrite downloadCRL_disabled by exact Hoff. reflexivity.
Qed.

(** C10 fails on the code: the configuration below has revocation checking
    enabled and an http distribution point and passes the structural checks;
    with the downloader disabled, [Check] does not return: it panics on the
    nil list that [downloadCRL] returned. *)
Theorem Check_disabled_downloader_nil_list_panics :
  let c := fixtures.checker fixtures.disabled in
  let cfg := validate.mkCheckConfig (Some fixtures.ek_ldap_issuer) false in
  validate.check c cfg [] = (Returned (cfg, None), []) /\
  validate.prepareUrls fixtures.go0 (x509.CRLDistributionPoints fixtures.ek_ldap_issuer)
    = ([validate.mkURL "http" fixtures.crl_url], None) /\
  validate.Check fixtures.go0 c cfg []
    = (Panicked nil_dereference,
       [validate.DownloadCRLCalled (validate.mkURL "http" fixtures.crl_url)]).
Proof.
  cbv zeta. repeat split; vm_compute; reflexivity.
Qed.

Lemma Check_disabled_panics (go : validate.golib) (c : validate.ekchecker)
    (ek : x509.Certificate) (u : validate.URL) (rest : list validate.URL)
    (t : list validate.event) :
  validate.enabled (validate.ekdownloader c) = false ->
  prechecks.first_failing (validate.ekdownloader c) false ek = None ->
  validate.len (x509.CRLDistributionPoints ek) <> 0 ->
  validate.prepareUrls go (x509.IssuingCertificateURL ek) = ([], None) ->
  validate.prepareUrls go (x509.CRLDistributionPoints ek) = (u :: rest, None) ->
  validate.Check go c (validate.mkCheckConfig (Some ek) false) t
    = (Panicked nil_dereference, t ++ [validate.DownloadCRLCalled u]).
Proof.
  intros Hoff Hpass Hcrl Hissuers Hurls.
  unfold validate.Check, validate.CheckConfig_CheckAndSetDefaults, bind.
  cbn [validate.EK]. rewrite check_computes, Hpass.
  unfold prechecks.skip_after, prechecks.reaches_step5.
  apply Z.eqb_neq in Hcrl. rewrite Hcrl. simpl.
  unfold validate.getIssuerCertificates. rewrite Hissuers. simpl.
  rewrite Hurls.
  rewrite Check_crl_loop_disabled_panics by exact Hoff. reflexivity.
Qed.

(** ** The search for the EK certificate *)

Lemma getEK_run (tpm : tpm.TPM) (alg : tpm.TPMAlgID) (certs : list tpm.EKCertTemplate)
    (t : list tpm.event) :
  tpm.getEK tpm alg certs t
    = (tpm.getEK_returns tpm alg certs, t ++ snd (tpm.getEK tpm alg certs [])).
Proof.
  unfold tpm.getEK_returns, tpm.getEK, bind, emit, ret.
  destruct (existsb (tpm.has_type alg) certs); simpl.
  - rewrite <- app_assoc. reflexivity.
  - reflexivity.
Qed.

(** The commands of a call of [getEK]: at most one key request, for a
    template of the algorithm asked for. *)
Lemma getEK_events (tpm : tpm.TPM) (alg : tpm.TPMAlgID) (certs : list tpm.EKCertTemplate) :
  (snd (tpm.getEK tpm alg certs []) = [tpm.GetEKCalled alg] /\
   tpm.getEK_returns tpm alg certs
     = Returned (tpm.EK_zero, Some (Sentinel ErrEKCertNotFound))) \/
  (exists template,
     tpm.TemplateType template = alg /\ In template certs /\
     snd (tpm.getEK tpm alg certs []) = [tpm.GetEKCalled alg; tpm.EKCalled template] /\
     tpm.getEK_returns tpm alg certs = Returned (tpm.TPM_EK tpm template)).
Proof.
  unfold tpm.getEK_returns, tpm.getEK, bind, emit, ret.
  destruct (existsb (tpm.has_type alg) certs) eqn:Hany; simpl.
  - right. apply existsb_exists in Hany as (x & Hin & Hx).
    destruct (find (tpm.has_type alg) certs) as [template|] eqn:Hfind.
    + apply find_some in Hfind as (Hin' & Htype).
      exists template. repeat split; try assumption.
      unfold tpm.has_type in Htype.
      destruct (tpm.TemplateType template), alg; simpl in Htype;
        try discriminate; try reflexivity.
      apply Z.eqb_eq in Htype. congruence.
    + pose proof (find_none _ _ Hfind x Hin) as Hno. congruence.
  - left. split; reflexivity.
Qed.

Lemma TPMAlgECC_not_RSA (template : tpm.EKCertTemplate) :
  tpm.TemplateType template = tpm.TPMAlgECC ->
  tpm.GetEKCalled tpm.TPMAlgRSA <> tpm.EKCalled template /\
  tpm.TemplateType template <> tpm.TPMAlgRSA.
Proof. intros H. split; [discriminate | congruence]. Qed.

Lemma search_select_trace (ek : tpm.EK) (t : list tpm.event) :
  snd (tpm.search_select ek t) = t.
Proof.
  unfold tpm.search_select.
  destruct (tpm.Certificate ek); [destruct (tpm.Public ek)|]; reflexivity.
Qed.

(** [search] when no handle is persisted and a certificate is available:
    the switch's second case, entered after two commands. *)
Lemma search_without_persisted (tpm : tpm.TPM) :
  tpm.PersistedEKs tpm = [] ->
  tpm.SearchAvailableCertificates tpm <> [] ->
  tpm.search tpm [] =
  match tpm.getEK_returns tpm tpm.TPMAlgECC (tpm.SearchAvailableCertificates tpm) with
  | Panicked reason =>
      (Panicked reason,
       [tpm.SearchAvailableCertificatesCalled; tpm.PersistedEKsCalled]
         ++ snd (tpm.getEK tpm tpm.TPMAlgECC (tpm.SearchAvailableCertificates tpm) []))
  | Returned (ek, None) =>
      tpm.search_select ek
        ([tpm.SearchAvailableCertificatesCalled; tpm.PersistedEKsCalled]
           ++ snd (tpm.getEK tpm tpm.TPMAlgECC (tpm.SearchAvailableCertificates tpm) []))
  | Returned (ek, Some e) =>
      if errors_Is e ErrEKCertNotFound then
        match tpm.getEK_returns tpm tpm.TPMAlgRSA (tpm.SearchAvailableCertificates tpm) with
        | Panicked reason =>
            (Panicked reason,
             ([tpm.SearchAvailableCertificatesCalled; tpm.PersistedEKsCalled]
                ++ snd (tpm.getEK tpm tpm.TPMAlgECC (tpm.SearchAvailableCertificates tpm) []))
               ++ snd (tpm.getEK tpm tpm.TPMAlgRSA (tpm.SearchAvailableCertificates tpm) []))
        | Returned (_, Some e') =>
            (Returned (tpm.EK_zero,
                       Some (Errorf "failed to get any EK cert: %w" [OpW (Some e')])),
             ([tpm.SearchAvailableCertificatesCalled; tpm.PersistedEKsCalled]
                ++ snd (tpm.getEK tpm tpm.TPMAlgECC (tpm.SearchAvailableCertificates tpm) []))
               ++ snd (tpm.getEK tpm tpm.TPMAlgRSA (tpm.SearchAvailableCertificates tpm) []))
        | Returned (_, None) =>
            (Returned (tpm.EK_zero,
                       Some (Errorf "failed to get EK ECC cert: %w" [OpW None])),
             ([tpm.SearchAvailableCertificatesCalled; tpm.PersistedEKsCalled]
                ++ snd (tpm.getEK tpm tpm.TPMAlgECC (tpm.SearchAvailableCertificates tpm) []))
               ++ snd (tpm.getEK tpm tpm.TPMAlgRSA (tpm.SearchAvailableCertificates tpm) []))
        end
      else
        (Returned (tpm.EK_zero,
                   Some (Errorf "failed to get EK ECC cert: %w" [OpW (Some e)])),
         [tpm.SearchAvailableCertificatesCalled; tpm.PersistedEKsCalled]
           ++ snd (tpm.getEK tpm tpm.TPMAlgECC (tpm.SearchAvailableCertificates tpm) []))
  end.
Proof.
  intros Hnone Hsome.
  unfold tpm.search, tpm.getEK_returns. rewrite Hnone.
  assert (Hrun : forall alg certs t,
             tpm.getEK tpm alg certs t
             = (fst (tpm.getEK tpm alg certs []), t ++ snd (tpm.getEK tpm alg certs [])))
    by (intros; apply getEK_run).
  generalize dependent (tpm.getEK tpm). intros g Hrun.
  destruct (tpm.SearchAvailableCertificates tpm) as [|c0 certs]; [contradiction|].
  unfold bind, emit. simpl.
  rewrite (Hrun tpm.TPMAlgECC).
  destruct (fst (g tpm.TPMAlgECC (c0 :: certs) [])) as [[ek [e|]]|reason];
    try reflexivity.
  destruct (errors_Is e ErrEKCertNotFound); [|reflexivity].
  rewrite (Hrun tpm.TPMAlgRSA).
  destruct (fst (g tpm.TPMAlgRSA (c0 :: certs) [])) as [[ek' [e'|]]|reason];
    reflexivity.
Qed.

Lemma search_persisted_or_empty_trace (tpm : tpm.TPM) :
  tpm.SearchAvailableCertificates tpm = [] \/ tpm.PersistedEKs tpm <> [] ->
  ~ In (tpm.GetEKCalled tpm.TPMAlgRSA) (snd (tpm.search tpm [])).
Proof.
  intros Hcase. unfold tpm.search, bind, emit.
  destruct (tpm.SearchAvailableCertificates tpm) as [|c0 certs]; simpl.
  - intros [H|[]]; discriminate H.
  - destruct Hcase as [Hcase|Hcase]; [discriminate|].
    destruct (tpm.PersistedEKs tpm) as [|template0 rest]; [contradiction|].
    simpl. destruct (tpm.TPM_EK tpm template0) as [ek errGet].
    pose proof (search_select_trace ek
      [tpm.SearchAvailableCertificatesCalled; tpm.PersistedEKsCalled;
       tpm.EKCalled template0]) as Htrace.
    destruct (tpm.search_select ek _) as [o t']. simpl in *. subst t'.
    intros [H|[H|[H|[]]]]; discriminate H.
Qed.

(** C5: the trace of [search] holds a call of [getEK] for RSA only after a
    call for ECC that failed with an error in whose chain
    [ErrEKCertNotFound] is; and when, without persisted handle, the ECC
    attempt fails with any other error, [search] returns that error wrapped,
    [getEK] is not called for RSA and no key is requested for a template
    that is not an ECC one. *)
Theorem search_RSA_only_after_ECC_not_found (tpm : tpm.TPM) :
  let certs := tpm.SearchAvailableCertificates tpm in
  let run := tpm.search tpm [] in
  (In (tpm.GetEKCalled tpm.TPMAlgRSA) (snd run) ->
   exists ek e before after,
     tpm.PersistedEKs tpm = [] /\
     tpm.getEK_returns tpm tpm.TPMAlgECC certs = Returned (ek, Some e) /\
     errors_Is e ErrEKCertNotFound = true /\
     snd run = before ++ tpm.GetEKCalled tpm.TPMAlgRSA :: after /\
     In (tpm.GetEKCalled tpm.TPMAlgECC) before /\
     ~ In (tpm.GetEKCalled tpm.TPMAlgRSA) before) /\
  (forall ek e,
     tpm.PersistedEKs tpm = [] ->
     certs <> [] ->
     tpm.getEK_returns tpm tpm.TPMAlgECC certs = Returned (ek, Some e) ->
     errors_Is e ErrEKCertNotFound = false ->
     fst run = Returned (tpm.EK_zero,
                         Some (Errorf "failed to get EK ECC cert: %w" [OpW (Some e)])) /\
     ~ In (tpm.GetEKCalled tpm.TPMAlgRSA) (snd run) /\
     (forall template,
        In (tpm.EKCalled template) (snd run) ->
        tpm.TemplateType template = tpm.TPMAlgECC)).
Proof.
  cbv zeta. split.
  - intros Hrsa.
    destruct (tpm.PersistedEKs tpm) as [|template0 rest] eqn:Hpersisted;
      [|exfalso; revert Hrsa; apply search_persisted_or_empty_trace;
        right; rewrite Hpersisted; discriminate].
    destruct (tpm.SearchAvailableCertificates tpm) as [|c0 certs] eqn:Hcerts;
      [exfalso; revert Hrsa; apply search_persisted_or_empty_trace; left; exact Hcerts|].
    assert (Hsome : tpm.SearchAvailableCertificates tpm <> [])
      by (rewrite Hcerts; discriminate).
    rewrite (search_without_persisted tpm Hpersisted Hsome) in *.
    rewrite Hcerts in *.
    assert (Hecc : exists tail,
               snd (tpm.getEK tpm tpm.TPMAlgECC (c0 :: certs) [])
               = tpm.GetEKCalled tpm.TPMAlgECC :: tail /\
               ~ In (tpm.GetEKCalled tpm.TPMAlgRSA) tail).
    { destruct (getEK_events tpm tpm.TPMAlgECC (c0 :: certs))
        as [(Hev & _)|(template & _ & _ & Hev & _)]; rewrite Hev.
      - exists []. split; [reflexivity | intros []].
      - exists [tpm.EKCalled template]. split; [reflexivity|].
        intros [H|[]]; discriminate H. }
    destruct Hecc as (tail & Hecc & Htail). rewrite Hecc in *.
    assert (Hbefore : ~ In (tpm.GetEKCalled tpm.TPMAlgRSA)
                        ([tpm.SearchAvailableCertificatesCalled; tpm.PersistedEKsCalled]
                           ++ tpm.GetEKCalled tpm.TPMAlgECC :: tail)).
    { simpl. intros [H|[H|[H|H]]]; try discriminate H. exact (Htail H). }
    destruct (tpm.getEK_returns tpm tpm.TPMAlgECC (c0 :: certs)) as [[ek [e|]]|reason].
    + destruct (errors_Is e ErrEKCertNotFound) eqn:His.
      * assert (Hrsaev : exists after,
                  snd (tpm.getEK tpm tpm.TPMAlgRSA (c0 :: certs) [])
                  = tpm.GetEKCalled tpm.TPMAlgRSA :: after).
        { destruct (getEK_events tpm tpm.TPMAlgRSA (c0 :: certs))
            as [(Hev & _)|(template & _ & _ & Hev & _)]; rewrite Hev; eauto. }
        destruct Hrsaev as (after & Hrsaev).
        exists ek, e,
          ([tpm.SearchAvailableCertificatesCalled; tpm.PersistedEKsCalled]
             ++ tpm.GetEKCalled tpm.TPMAlgECC :: tail), after.
        split; [reflexivity|]. split; [reflexivity|]. split; [exact His|].
        split.
        { rewrite Hrsaev.
          destruct (tpm.getEK_returns tpm tpm.TPMAlgRSA (c0 :: certs))
            as [[ek' [e'|]]|reason]; reflexivity. }
        split; [simpl; auto | exact Hbefore].
      * exfalso. exact (Hbefore Hrsa).
    + exfalso. rewrite search_select_trace in Hrsa. exact (Hbefore Hrsa).
    + exfalso. exact (Hbefore Hrsa).
  - intros ek e Hpersisted Hsome Hfails Hother.
    rewrite (search_without_persisted tpm Hpersisted Hsome), Hfails, Hother.
    split; [reflexivity|].
    destruct (getEK_events tpm tpm.TPMAlgECC (tpm.SearchAvailableCertificates tpm))
      as [(Hev & Hret)|(template & Htype & _ & Hev & _)].
    + rewrite Hret in Hfails. injection Hfails as _ He. subst e. discriminate Hother.
    + rewrite Hev. simpl. split.
      * intros [H|[H|[H|[H|[]]]]]; discriminate H.
      * intros template' [H|[H|[H|[H|[]]]]]; try discriminate H.
        injection H as <-. exact Htype.
Qed.

Lemma search_RSA_only_after_ECC_not_found_witness :
  fst (tpm.search fixtures.tpm_failing [])
    = Returned (tpm.EK_zero,
                Some (Errorf "failed to get EK ECC cert: %w"
                        [OpW (Some (Opaque "TPM_RC_FAILURE"))])) /\
  ~ In (tpm.GetEKCalled tpm.TPMAlgRSA) (snd (tpm.search fixtures.tpm_failing [])).
Proof.
  destruct (search_RSA_only_after_ECC_not_found fixtures.tpm_failing) as (_ & Hother).
  destruct (Hother tpm.EK_zero (Opaque "TPM_RC_FAILURE")) as (Hret & Hno & _).
  - reflexivity.
  - discriminate.
  - reflexivity.
  - reflexivity.
  - split; assumption.
Defined.

(** C4 fails on the code: on a TPM without persisted handle and without ECC
    certificate, where the ECC attempt fails with [ErrEKCertNotFound] and
    the RSA key generation succeeds, [search] returns the zero EK and an
    error that wraps a nil error. *)
Theorem search_successful_RSA_fallback_returns_error :
  let tpm := fixtures.tpm_rsa_only None in
  let certs := tpm.SearchAvailableCertificates tpm in
  tpm.PersistedEKs tpm = [] /\
  tpm.getEK_returns tpm tpm.TPMAlgECC certs
    = Returned (tpm.EK_zero, Some (Sentinel ErrEKCertNotFound)) /\
  tpm.getEK_returns tpm tpm.TPMAlgRSA certs
    = Returned (fixtures.ek_of fixtures.rsa_template, None) /\
  tpm.search tpm []
    = (Returned (tpm.EK_zero,
                 Some (Errorf "failed to get EK ECC cert: %w" [OpW None])),
       [tpm.SearchAvailableCertificatesCalled; tpm.PersistedEKsCalled;
        tpm.GetEKCalled tpm.TPMAlgECC; tpm.GetEKCalled tpm.TPMAlgRSA;
        tpm.EKCalled fixtures.rsa_template]).
Proof.
  cbv zeta. repeat split; vm_compute; reflexivity.
Qed.

(** The same for every TPM: a successful RSA fallback ends in the error
    return of the ECC path. *)
Lemma search_RSA_fallback_never_succeeds (tpm : tpm.TPM) (ek ek' : tpm.EK) (e : error) :
  tpm.PersistedEKs tpm = [] ->
  tpm.SearchAvailableCertificates tpm <> [] ->
  tpm.getEK_returns tpm tpm.TPMAlgECC (tpm.SearchAvailableCertificates tpm)
    = Returned (ek, Some e) ->
  errors_Is e ErrEKCertNotFound = true ->
  tpm.getEK_returns tpm tpm.TPMAlgRSA (tpm.SearchAvailableCertificates tpm)
    = Returned (ek', None) ->
  fst (tpm.search tpm [])
    = Returned (tpm.EK_zero, Some (Errorf "failed to get EK ECC cert: %w" [OpW None])).
Proof.
  intros Hpersisted Hsome Hecc His Hrsa.
  rewrite (search_without_persisted tpm Hpersisted Hsome), Hecc, His, Hrsa.
  reflexivity.
Qed.

(** ** The TPM session *)

(** The answers of the TPM do not depend on the trace: [search] run after
    [t] appends to [t] what it appends to the empty trace. *)
Lemma search_select_run (ek : tpm.EK) (t : list tpm.event) :
  tpm.search_select ek t = (fst (tpm.search_select ek []), t).
Proof.
  unfold tpm.search_select.
  destruct (tpm.Certificate ek); [destruct (tpm.Public ek)|]; reflexivity.
Qed.

Lemma search_run (tpm : tpm.TPM) (t : list tpm.event) :
  tpm.search tpm t = (fst (tpm.search tpm []), t ++ snd (tpm.search tpm [])).
Proof.
  unfold tpm.search.
  assert (Hrun : forall alg certs t,
             tpm.getEK tpm alg certs t
             = (fst (tpm.getEK tpm alg certs []), t ++ snd (tpm.getEK tpm alg certs [])))
    by (intros; apply getEK_run).
  generalize dependent (tpm.getEK tpm). intros g Hrun.
  destruct (tpm.SearchAvailableCertificates tpm) as [|c0 certs];
    [reflexivity|].
  unfold bind, emit. simpl.
  destruct (tpm.PersistedEKs tpm) as [|template0 rest].
  - rewrite (Hrun tpm.TPMAlgECC _ ((t ++ _) ++ _)), (Hrun tpm.TPMAlgECC _ [_; _]).
    destruct (fst (g tpm.TPMAlgECC (c0 :: certs) [])) as [[ek [e|]]|reason]; simpl.
    + destruct (errors_Is e ErrEKCertNotFound); simpl.
      * rewrite (Hrun tpm.TPMAlgRSA _ ((_ ++ _) ++ _)), (Hrun tpm.TPMAlgRSA _ (_ :: _)).
        destruct (fst (g tpm.TPMAlgRSA (c0 :: certs) [])) as [[ek' [e'|]]|reason];
          simpl; rewrite <- !app_assoc; reflexivity.
      * rewrite <- !app_assoc. reflexivity.
    + rewrite (search_select_run ek ((_ ++ _) ++ _)), (search_select_run ek (_ :: _)).
      simpl. rewrite <- !app_assoc. reflexivity.
    + rewrite <- !app_assoc. reflexivity.
  - simpl. destruct (tpm.TPM_EK tpm template0) as [ek errGet].
    rewrite (search_select_run ek ((_ ++ _) ++ _)), (search_select_run ek (_ :: _)).
    simpl. rewrite <- !app_assoc. reflexivity.
Qed.

Lemma getEK_never_closes (tpm : tpm.TPM) (alg : tpm.TPMAlgID)
    (certs : list tpm.EKCertTemplate) :
  ~ In tpm.CloseCalled (snd (tpm.getEK tpm alg certs [])).
Proof.
  destruct (getEK_events tpm alg certs) as [(Hev & _)|(template & _ & _ & Hev & _)];
    rewrite Hev; simpl; intros H; repeat (destruct H as [H|H]; try discriminate H);
    exact H.
Qed.

Lemma search_never_closes (tpm : tpm.TPM) :
  ~ In tpm.CloseCalled (snd (tpm.search tpm [])).
Proof.
  destruct (tpm.SearchAvailableCertificates tpm) as [|c0 certs] eqn:Hcerts.
  - unfold tpm.search, bind, emit. rewrite Hcerts. simpl.
    intros [H|[]]; discriminate H.
  - destruct (tpm.PersistedEKs tpm) as [|template0 rest] eqn:Hpersisted.
    + assert (Hsome : tpm.SearchAvailableCertificates tpm <> [])
        by (rewrite Hcerts; discriminate).
      rewrite (search_without_persisted tpm Hpersisted Hsome).
      pose proof (getEK_never_closes tpm tpm.TPMAlgECC
                    (tpm.SearchAvailableCertificates tpm)) as Hecc.
      pose proof (getEK_never_closes tpm tpm.TPMAlgRSA
                    (tpm.SearchAvailableCertificates tpm)) as Hrsa.
      assert (Hfirst : ~ In tpm.CloseCalled
                ([tpm.SearchAvailableCertificatesCalled; tpm.PersistedEKsCalled]
                   ++ snd (tpm.getEK tpm tpm.TPMAlgECC
                             (tpm.SearchAvailableCertificates tpm) []))).
      { intros H. apply in_app_or in H as [[H|[H|[]]]|H];
          [discriminate H | discriminate H | exact (Hecc H)]. }
      assert (Hboth : ~ In tpm.CloseCalled
                (([tpm.SearchAvailableCertificatesCalled; tpm.PersistedEKsCalled]
                    ++ snd (tpm.getEK tpm tpm.TPMAlgECC
                              (tpm.SearchAvailableCertificates tpm) []))
                   ++ snd (tpm.getEK tpm tpm.TPMAlgRSA
                             (tpm.SearchAvailableCertificates tpm) []))).
      { intros H. apply in_app_or in H as [H|H]; [exact (Hfirst H) | exact (Hrsa H)]. }
      destruct (tpm.getEK_returns tpm tpm.TPMAlgECC (tpm.SearchAvailableCertificates tpm))
        as [[ek [e|]]|reason].
      * destruct (errors_Is e ErrEKCertNotFound); [|exact Hfirst].
        destruct (tpm.getEK_returns tpm tpm.TPMAlgRSA
                    (tpm.SearchAvailableCertificates tpm))
          as [[ek' [e'|]]|reason]; exact Hboth.
      * rewrite search_select_trace. exact Hfirst.
      * exact Hfirst.
    + unfold tpm.search, bind, emit. rewrite Hcerts, Hpersisted. simpl.
      destruct (tpm.TPM_EK tpm template0) as [ek errGet].
      rewrite search_select_trace.
      intros [H|[H|[H|[]]]]; discriminate H.
Qed.

(** The session is closed on every exit path once it is open: the trace of
    [GetEKCertificate] ends with the only [Close] of the run. When the TPM
    cannot be opened there is no session, and nothing is closed. *)
Lemma GetEKCertificate_closes_session (device : tpm.TPM) (cfg : tpm.TPMConfig) :
  exists commands,
    snd (tpm.GetEKCertificate (inr device) cfg [])
      = tpm.OpenTPMCalled :: commands ++ [tpm.CloseCalled] /\
    ~ In tpm.CloseCalled commands.
Proof.
  unfold tpm.GetEKCertificate, tpm.GetEKCertificate_frame,
    tpm.GetEKCertificate_body, tpm.GetEKCertificate_deferred,
    tpm.TPMConfig_CheckAndSetDefaults, bind, emit, ret.
  simpl.
  destruct (tpm.Info device) as [e|info].
  - exists [tpm.InfoCalled]. split.
    + destruct (tpm.Close device); reflexivity.
    + intros [H|[]]; discriminate H.
  - rewrite (search_run device [tpm.OpenTPMCalled; tpm.InfoCalled]).
    exists (tpm.InfoCalled :: snd (tpm.search device [])). split.
    + destruct (fst (tpm.search device [])) as [[ek [e|]]|reason];
        destruct (tpm.Close device); reflexivity.
    + intros [H|H]; [discriminate H | exact (search_never_closes device H)].
Qed.

(** C9 fails on the code: the session is closed, but a failure of [Close]
    does not reach the caller. The deferred function stores it in the local
    variable [err], which is not a result of the function: when [Info]
    fails the caller receives that error alone, and when everything else
    succeeds the caller receives a nil error. *)
Theorem GetEKCertificate_drops_close_error :
  let closeErr := Opaque "close failed" in
  let wrapped original :=
    Errorf "failed to close TPM: %w (original error: %v)"
      [OpW (Some closeErr); OpV original] in
  let infoErr := Errorf "failed to get TPM info: %w" [OpW (Some (Opaque "TPM_RC_FAILURE"))] in
  tpm.GetEKCertificate (inr (fixtures.tpm_no_info (Some closeErr))) tpm.mkTPMConfig []
    = (Returned (None, Some infoErr),
       [tpm.OpenTPMCalled; tpm.InfoCalled; tpm.CloseCalled]) /\
  fst (tpm.GetEKCertificate_frame
         (inr (fixtures.tpm_no_info (Some closeErr))) tpm.mkTPMConfig [])
    = Returned (tpm.mkframe (None, Some infoErr)
                  (Some (wrapped (Some (Opaque "TPM_RC_FAILURE"))))) /\
  tpm.GetEKCertificate (inr (fixtures.tpm_ecc_only (Some closeErr))) tpm.mkTPMConfig []
    = (Returned (Some (tpm.mkEKResponse (Some fixtures.ek_no_crl)
                         (tpm.InfoManufacturer fixtures.info0)), None),
       [tpm.OpenTPMCalled; tpm.InfoCalled; tpm.SearchAvailableCertificatesCalled;
        tpm.PersistedEKsCalled; tpm.GetEKCalled tpm.TPMAlgECC;
        tpm.EKCalled fixtures.ecc_template; tpm.CloseCalled]) /\
  fst (tpm.GetEKCertificate_frame
         (inr (fixtures.tpm_ecc_only (Some closeErr))) tpm.mkTPMConfig [])
    = Returned (tpm.mkframe
                  (Some (tpm.mkEKResponse (Some fixtures.ek_no_crl)
                           (tpm.InfoManufacturer fixtures.info0)), None)
                  (Some (wrapped None))).
Proof.
  cbv zeta. repeat split; vm_compute; reflexivity.
Qed.

(** ** Package sliceutil: [Filter] *)

Section FilterFacts.

Variables T S : Type.
Variable S_eq_dec : forall a b : S, {a = b} + {a <> b}.
Variable fn : T -> S * bool.

Lemma found_true (seen : list S) (s : S) :
  sliceutil.found S_eq_dec seen s = true <-> In s seen.
Proof.
  unfold sliceutil.found. destruct (in_dec S_eq_dec s seen); split; auto; discriminate.
Qed.

Lemma found_false (seen : list S) (s : S) :
  sliceutil.found S_eq_dec seen s = false <-> ~ In s seen.
Proof.
  unfold sliceutil.found. destruct (in_dec S_eq_dec s seen); split; auto;
    [discriminate | contradiction].
Qed.

(** What the loop has built so far stays in front. *)
Lemma Filter_loop_prefix (ts : list T) :
  forall ss seen,
    sliceutil.Filter_loop S_eq_dec fn ss seen ts
    = ss ++ sliceutil.Filter_loop S_eq_dec fn [] seen ts.
Proof.
  induction ts as [|t rest IH]; intros ss seen; simpl.
  - rewrite app_nil_r. reflexivity.
  - destruct (fn t) as [s include]. destruct include; [|apply IH].
    destruct (sliceutil.found S_eq_dec seen s); [apply IH|].
    rewrite (IH (ss ++ [s])), (IH ([] ++ [s])), <- app_assoc. reflexivity.
Qed.

(** Starting with keys already seen removes them from the result. *)
Lemma Filter_loop_seen (ts : list T) :
  forall seen,
    sliceutil.Filter_loop S_eq_dec fn [] seen ts
    = filter (sliceutil.fresh S_eq_dec seen) (sliceutil.Filter S_eq_dec ts fn).
Proof.
  unfold sliceutil.Filter.
  induction ts as [|t rest IH]; intros seen; simpl; [reflexivity|].
  destruct (fn t) as [s include]. destruct include; [|apply IH].
  change (sliceutil.found S_eq_dec [] s) with false. cbv iota.
  rewrite (Filter_loop_prefix rest [s] [s]). simpl.
  rewrite (IH [s]).
  destruct (sliceutil.found S_eq_dec seen s) eqn:Hseen.
  - unfold sliceutil.fresh at 1. rewrite Hseen. simpl.
    rewrite IH. rewrite <- (filter_ext_in (fun x => sliceutil.fresh S_eq_dec seen x && sliceutil.fresh S_eq_dec [s] x)).
    + clear. induction (sliceutil.Filter_loop S_eq_dec fn [] [] rest) as [|x l IHl];
        simpl; [reflexivity|].
      destruct (sliceutil.fresh S_eq_dec [s] x); simpl.
      * rewrite andb_true_r. destruct (sliceutil.fresh S_eq_dec seen x); rewrite IHl; reflexivity.
      * rewrite andb_false_r. exact IHl.
    + intros x _. unfold sliceutil.fresh.
      destruct (sliceutil.found S_eq_dec [s] x) eqn:Hx; simpl;
        [|rewrite andb_true_r; reflexivity].
      apply found_true in Hx. destruct Hx as [<-|[]].
      rewrite Hseen. reflexivity.
  - unfold sliceutil.fresh at 1. rewrite Hseen. simpl.
    rewrite (Filter_loop_prefix rest [s] (s :: seen)). simpl.
    f_equal. rewrite IH.
    rewrite (filter_ext (sliceutil.fresh S_eq_dec (s :: seen)) (fun x => sliceutil.fresh S_eq_dec seen x && sliceutil.fresh S_eq_dec [s] x)).
    + clear. induction (sliceutil.Filter_loop S_eq_dec fn [] [] rest) as [|x l IHl];
        simpl; [reflexivity|].
      destruct (sliceutil.fresh S_eq_dec [s] x); simpl.
      * rewrite andb_true_r. destruct (sliceutil.fresh S_eq_dec seen x); rewrite IHl; reflexivity.
      * rewrite andb_false_r. exact IHl.
    + intros x. unfold sliceutil.fresh, sliceutil.found.
      destruct (in_dec S_eq_dec x (s :: seen)) as [Hin|Hout];
        destruct (in_dec S_eq_dec x seen) as [Hin'|Hout'];
        destruct (in_dec S_eq_dec x [s]) as [Hin''|Hout'']; simpl; try reflexivity;
        exfalso; simpl in *; intuition.
Qed.

(** The result for a first element that [fn] keeps. *)
Lemma Filter_cons_kept (t : T) (rest : list T) (s : S) :
  fn t = (s, true) ->
  sliceutil.Filter S_eq_dec (t :: rest) fn
  = s :: filter (sliceutil.fresh S_eq_dec [s]) (sliceutil.Filter S_eq_dec rest fn).
Proof.
  intros Hfn. unfold sliceutil.Filter at 1. simpl. rewrite Hfn.
  change (sliceutil.found S_eq_dec [] s) with false. cbv iota.
  rewrite (Filter_loop_prefix rest [s] [s]). simpl.
  rewrite Filter_loop_seen. reflexivity.
Qed.

Lemma Filter_cons_dropped (t : T) (rest : list T) (s : S) :
  fn t = (s, false) ->
  sliceutil.Filter S_eq_dec (t :: rest) fn = sliceutil.Filter S_eq_dec rest fn.
Proof.
  intros Hfn. unfold sliceutil.Filter. simpl. rewrite Hfn. reflexivity.
Qed.

Lemma not_in_single (s x : S) : sliceutil.fresh S_eq_dec [s] x = true <-> x <> s.
Proof.
  unfold sliceutil.fresh. rewrite negb_true_iff, found_false. simpl. intuition.
Qed.

Lemma Filter_members (ts : list T) (s : S) :
  In s (sliceutil.Filter S_eq_dec ts fn) <-> exists t, In t ts /\ fn t = (s, true).
Proof.
  induction ts as [|t rest IH].
  - simpl. split; [intros [] | intros (t & [] & _)].
  - destruct (fn t) as [s0 include] eqn:Hfn. destruct include.
    + rewrite (Filter_cons_kept t rest s0 Hfn). simpl. rewrite filter_In, IH.
      split.
      * intros [<-|((t' & Hin & Ht') & _)]; [exists t; auto | exists t'; auto].
      * intros (t' & [<-|Hin] & Ht').
        -- left. congruence.
        -- destruct (S_eq_dec s0 s) as [Heq|Hne]; [left; exact Heq|].
           right. split; [exists t'; auto | apply not_in_single; congruence].
    + rewrite (Filter_cons_dropped t rest s0 Hfn), IH.
      split.
      * intros (t' & Hin & Ht'). exists t'. simpl. auto.
      * intros (t' & [<-|Hin] & Ht'); [congruence | exists t'; auto].
Qed.

Lemma NoDup_filter (p : S -> bool) (l : list S) : NoDup l -> NoDup (filter p l).
Proof.
  induction 1 as [|x l Hx Hl IH]; simpl; [constructor|].
  destruct (p x); [|exact IH].
  constructor; [|exact IH]. rewrite filter_In. tauto.
Qed.

Lemma Filter_NoDup (ts : list T) : NoDup (sliceutil.Filter S_eq_dec ts fn).
Proof.
  induction ts as [|t rest IH]; [constructor|].
  destruct (fn t) as [s0 include] eqn:Hfn. destruct include.
  - rewrite (Filter_cons_kept t rest s0 Hfn). constructor.
    + rewrite filter_In. intros (_ & Hne). apply not_in_single in Hne. congruence.
    + apply NoDup_filter. exact IH.
  - rewrite (Filter_cons_dropped t rest s0 Hfn). exact IH.
Qed.

End FilterFacts.

Lemma filter_twice {A : Type} (p q : A -> bool) (l : list A) :
  filter p (filter q l) = filter (fun x => q x && p x) l.
Proof.
  induction l as [|x l IH]; simpl; [reflexivity|].
  destruct (q x); simpl; [destruct (p x); rewrite IH; reflexivity | exact IH].
Qed.

Lemma filter_all {A : Type} (p : A -> bool) (l : list A) :
  (forall x, In x l -> p x = true) -> filter p l = l.
Proof.
  induction l as [|x l IH]; simpl; intros Hall; [reflexivity|].
  rewrite (Hall x (or_introl eq_refl)), IH; [reflexivity|].
  intros y Hy. apply Hall. right. exact Hy.
Qed.

Section FilterLaws.

Variables T S : Type.
Variable S_eq_dec : forall a b : S, {a = b} + {a <> b}.
Variable fn : T -> S * bool.

Lemma Filter_length (ts : list T) :
  (List.length (sliceutil.Filter S_eq_dec ts fn) <= List.length ts)%nat.
Proof.
  induction ts as [|t rest IH]; [apply Nat.le_refl|].
  destruct (fn t) as [s include] eqn:Hfn. destruct include.
  - rewrite (Filter_cons_kept T S S_eq_dec fn t rest s Hfn). simpl.
    apply le_n_S. eapply Nat.le_trans; [apply filter_length_le | exact IH].
  - rewrite (Filter_cons_dropped T S S_eq_dec fn t rest s Hfn). simpl.
    apply Nat.le_le_succ_r. exact IH.
Qed.

Lemma Filter_of_distinct (ts : list T) :
  NoDup (sliceutil.kept ts fn) ->
  sliceutil.Filter S_eq_dec ts fn = sliceutil.kept ts fn.
Proof.
  unfold sliceutil.kept.
  induction ts as [|t rest IH]; intros Hdistinct; [reflexivity|].
  destruct (fn t) as [s include] eqn:Hfn. destruct include.
  - rewrite (Filter_cons_kept T S S_eq_dec fn t rest s Hfn).
    do 2 (simpl in Hdistinct |- *; rewrite ?Hfn in Hdistinct |- *).
    inversion Hdistinct as [|x l Hnew Hrest]; subst.
    rewrite (IH Hrest). f_equal.
    apply filter_all. intros x Hx.
    apply (not_in_single S S_eq_dec). intros ->. exact (Hnew Hx).
  - rewrite (Filter_cons_dropped T S S_eq_dec fn t rest s Hfn).
    do 2 (simpl in Hdistinct |- *; rewrite ?Hfn in Hdistinct |- *).
    exact (IH Hdistinct).
Qed.

(** X1: [Filter] returns every value that [fn] keeps, each one once, and
    nothing else; the result is never longer than the input. *)
Theorem Filter_keeps_each_value_once (ts : list T) :
  NoDup (sliceutil.Filter S_eq_dec ts fn) /\
  (forall s, In s (sliceutil.Filter S_eq_dec ts fn)
             <-> exists t, In t ts /\ fn t = (s, true)) /\
  (List.length (sliceutil.Filter S_eq_dec ts fn) <= List.length ts)%nat.
Proof.
  split; [apply Filter_NoDup | split; [intros s; apply Filter_members | apply Filter_length]].
Qed.

(** X2: [Filter] keeps the order of first occurrences: the result for
    [ts1 ++ ts2] is the result for [ts1] followed by the values of the
    result for [ts2] that the result for [ts1] does not hold. *)
Theorem Filter_app (ts1 ts2 : list T) :
  sliceutil.Filter S_eq_dec (ts1 ++ ts2) fn
  = sliceutil.Filter S_eq_dec ts1 fn
    ++ filter (sliceutil.fresh S_eq_dec (sliceutil.Filter S_eq_dec ts1 fn))
              (sliceutil.Filter S_eq_dec ts2 fn).
Proof.
  induction ts1 as [|t rest IH].
  - simpl. symmetry. apply filter_all. reflexivity.
  - destruct (fn t) as [s include] eqn:Hfn. destruct include.
    + simpl app.
      rewrite !(Filter_cons_kept T S S_eq_dec fn t _ s Hfn), IH.
      simpl. f_equal. rewrite filter_app. f_equal.
      rewrite filter_twice. apply filter_ext. intros x.
      apply Bool.eq_iff_eq_true. rewrite andb_true_iff.
      unfold sliceutil.fresh. rewrite !negb_true_iff, !found_false.
      simpl. rewrite filter_In, negb_true_iff, found_false. simpl. tauto.
    + simpl app. rewrite !(Filter_cons_dropped T S S_eq_dec fn t _ s Hfn). exact IH.
Qed.

(** X3: when the values that [fn] keeps are pairwise distinct, [Filter] is
    the plain filter-and-map: the kept values in the order of the input. *)
Theorem Filter_distinct_values (ts : list T) :
  NoDup (sliceutil.kept ts fn) ->
  sliceutil.Filter S_eq_dec ts fn = sliceutil.kept ts fn.
Proof. apply Filter_of_distinct. Qed.

End FilterLaws.

(** X4: filtering a result of [Filter] again, keeping every value, changes
    nothing. *)
Theorem Filter_idempotent {T S : Type} (S_eq_dec : forall a b : S, {a = b} + {a <> b})
    (fn : T -> S * bool) (ts : list T) :
  sliceutil.Filter S_eq_dec (sliceutil.Filter S_eq_dec ts fn) (fun s => (s, true))
  = sliceutil.Filter S_eq_dec ts fn.
Proof.
  rewrite Filter_of_distinct.
  - unfold sliceutil.kept. simpl. rewrite filter_all by reflexivity. apply map_id.
  - unfold sliceutil.kept. simpl. rewrite filter_all by reflexivity. rewrite map_id.
    apply Filter_NoDup.
Qed.

Lemma Filter_distinct_values_witness :
  sliceutil.Filter Z.eq_dec [1; 2; 3; 4; 5] (fun i => (i, true)) = [1; 2; 3; 4; 5].
Proof.
  apply (Filter_distinct_values Z Z Z.eq_dec (fun i => (i, true)) [1; 2; 3; 4; 5]).
  unfold sliceutil.kept. simpl.
  repeat (constructor; [simpl; lia |]). constructor.
Defined.

(** The cases of the package's test on integers. *)
Example Filter_test_integers :
  sliceutil.Filter Z.eq_dec [1; 2; 3; 2; 4; 3; 5] (fun i => (i, 2 <? i)) = [3; 4; 5] /\
  sliceutil.Filter Z.eq_dec [] (fun i => (i, true)) = [] /\
  sliceutil.Filter Z.eq_dec [1; 2; 3; 4; 5] (fun i => (i, 10 <? i)) = [] /\
  sliceutil.Filter Z.eq_dec [1; 2; 3; 4; 5] (fun _ => (42, true)) = [42].
Proof. repeat split; reflexivity. Qed.

(** ** Package crl: [NewCRL] and [Verify] *)

(** X5: [NewCRL] returns either a wrapper and no error or no wrapper and an
    error, never both and never neither. The wrapper holds the list given
    and the current time is inside its window; the error is
    [ErrCrlCannotBeNil] for a nil list, and otherwise the error of the
    window test. *)
Theorem NewCRL_wrapper_xor_error (now : x509.Time) (rl : option x509.RevocationList) :
  (exists c,
     crl.NewCRL now rl = (Some c, None) /\ rl = Some (crl.list_of c) /\
     x509.ThisUpdate (crl.list_of c) <= now <= x509.NextUpdate (crl.list_of c)) \/
  (crl.NewCRL now rl = (None, Some (Sentinel ErrCrlCannotBeNil)) /\ rl = None) \/
  (exists l,
     rl = Some l /\
     ((crl.NewCRL now rl = (None, Some (Sentinel ErrCrlIsExpired))
       /\ x509.NextUpdate l < now) \/
      (crl.NewCRL now rl = (None, Some (Sentinel ErrCrlNotYetValid))
       /\ now <= x509.NextUpdate l /\ now < x509.ThisUpdate l))).
Proof.
  destruct rl as [l|]; [|right; left; split; reflexivity].
  unfold crl.NewCRL, crl.IsValid. simpl.
  destruct (Z.ltb_spec (x509.NextUpdate l) now) as [Hexp|Hexp].
  - right. right. exists l. split; [reflexivity|]. left. split; [reflexivity | exact Hexp].
  - destruct (Z.ltb_spec now (x509.ThisUpdate l)) as [Hnot|Hnot].
    + right. right. exists l. split; [reflexivity|]. right. repeat split; assumption.
    + left. exists (crl.mkcrl l). repeat split; assumption.
Qed.

(** X6: [Verify] returns no error exactly when the signature check
    succeeds for one of the candidate certificates; in every other case,
    and so for an empty list of candidates, the error is
    [ErrUnknownAuthorityError]. *)
Theorem Verify_accepts_iff_some_signer
    (CheckSignatureFrom : x509.RevocationList -> x509.Certificate -> option error)
    (c : crl.crl) (certs : list x509.Certificate) :
  (crl.Verify CheckSignatureFrom c certs = None <->
   exists cert, In cert certs /\ CheckSignatureFrom (crl.list_of c) cert = None) /\
  (crl.Verify CheckSignatureFrom c certs = None \/
   crl.Verify CheckSignatureFrom c certs = Some (Sentinel ErrUnknownAuthorityError)) /\
  crl.Verify CheckSignatureFrom c [] = Some (Sentinel ErrUnknownAuthorityError).
Proof.
  split; [|split; [|reflexivity]].
  - induction certs as [|cert rest IH]; simpl.
    + split; [discriminate | intros (cert & [] & _)].
    + destruct (CheckSignatureFrom (crl.list_of c) cert) as [e|] eqn:Hsig.
      * rewrite IH. split.
        -- intros (cert' & Hin & Hok). exists cert'. auto.
        -- intros (cert' & [<-|Hin] & Hok); [congruence | exists cert'; auto].
      * split; [intros _; exists cert; auto | reflexivity].
  - induction certs as [|cert rest IH]; simpl; [right; reflexivity|].
    destruct (CheckSignatureFrom (crl.list_of c) cert); [exact IH | left; reflexivity].
Qed.

(** ** Package validate: [prepareUrls] *)


Section PrepareUrls.

Variable go : validate.golib.

Lemma supported_iff (u : validate.URL) :
  validate.supported u = true <->
  validate.Scheme u = "http" \/ validate.Scheme u = "https".
Proof.
  unfold validate.supported, validate.slices_Contains. simpl.
  rewrite !orb_true_iff, !String.eqb_eq. intuition discriminate.
Qed.

Lemma prepareUrls_loop_supported (urls : list string) :
  forall acc,
    Forall (fun u => validate.supported u = true) acc ->
    Forall (fun u => validate.supported u = true)
      (fst (validate.prepareUrls_loop go acc urls)).
Proof.
  induction urls as [|u rest IH]; intros acc Hacc; cbn [validate.prepareUrls_loop];
    [exact Hacc|].
  destruct (validate.url_Parse go u) as [e|parsed]; [constructor|].
  change (validate.slices_Contains ["http"; "https"] (validate.Scheme parsed))
    with (validate.supported parsed).
  destruct (validate.supported parsed) eqn:Hok; cbn [negb].
  - apply IH. apply Forall_app. split; [exact Hacc | constructor; [exact Hok | constructor]].
  - apply IH. exact Hacc.
Qed.

Lemma prepareUrls_loop_error (urls : list string) :
  forall acc e,
    snd (validate.prepareUrls_loop go acc urls) = Some e ->
    fst (validate.prepareUrls_loop go acc urls) = [].
Proof.
  induction urls as [|u rest IH]; intros acc e; cbn [validate.prepareUrls_loop];
    [discriminate|].
  destruct (validate.url_Parse go u) as [e'|parsed]; [reflexivity|].
  destruct (negb _); apply IH.
Qed.

Lemma prepareUrls_loop_parsed (urls : list string) :
  forall acc parsed,
    map (validate.url_Parse go) urls = map inr parsed ->
    validate.prepareUrls_loop go acc urls
    = (acc ++ filter validate.supported parsed, None).
Proof.
  induction urls as [|u rest IH]; intros acc parsed Hall;
    destruct parsed as [|p parsed']; try discriminate Hall;
    cbn [validate.prepareUrls_loop].
  - rewrite app_nil_r. reflexivity.
  - simpl in Hall. injection Hall as Hu Hrest. rewrite Hu.
    change (validate.slices_Contains ["http"; "https"] (validate.Scheme p))
      with (validate.supported p).
    cbn [filter].
    destruct (validate.supported p); cbn [negb].
    + rewrite (IH _ _ Hrest), <- app_assoc. reflexivity.
    + apply IH. exact Hrest.
Qed.

Lemma prepareUrls_loop_first_failure (good : list string) :
  forall acc parsed bad rest err,
    map (validate.url_Parse go) good = map inr parsed ->
    validate.url_Parse go bad = inl err ->
    validate.prepareUrls_loop go acc (good ++ bad :: rest)
    = ([], Some (Errorf "failed to parse CRL URL %q: %w" [OpStr bad; OpW (Some err)])).
Proof.
  induction good as [|u good' IH]; intros acc parsed bad rest err Hall Hbad;
    destruct parsed as [|p parsed']; try discriminate Hall;
    cbn [app validate.prepareUrls_loop].
  - rewrite Hbad. reflexivity.
  - simpl in Hall. injection Hall as Hu Hrest. rewrite Hu.
    destruct (negb _); eapply IH; eassumption.
Qed.

(** X7: every URL that [prepareUrls] returns has the scheme http or https;
    there are at most as many as were given; and with an error no URL is
    returned. *)
Theorem prepareUrls_returns_only_http (urls : list string) :
  Forall (fun u => validate.Scheme u = "http" \/ validate.Scheme u = "https")
    (fst (validate.prepareUrls go urls)) /\
  validate.len (fst (validate.prepareUrls go urls)) <= validate.len urls /\
  (snd (validate.prepareUrls go urls) <> None -> fst (validate.prepareUrls go urls) = []).
Proof.
  split; [|split].
  - eapply Forall_impl; [intros u Hu; apply supported_iff; exact Hu|].
    apply prepareUrls_loop_supported. constructor.
  - apply prepareUrls_len.
  - unfold validate.prepareUrls.
    destruct (snd (validate.prepareUrls_loop go [] urls)) as [e|] eqn:Herr;
      [intros _; eapply prepareUrls_loop_error; exact Herr | contradiction].
Qed.

(** X8: when every URL parses, [prepareUrls] returns the parsed URLs of
    scheme http or https, in the order given, and no error: the others are
    dropped, not refused. *)
Theorem prepareUrls_keeps_http_in_order (urls : list string) (parsed : list validate.URL) :
  map (validate.url_Parse go) urls = map inr parsed ->
  validate.prepareUrls go urls = (filter validate.supported parsed, None).
Proof.
  intros Hall. unfold validate.prepareUrls.
  rewrite (prepareUrls_loop_parsed urls [] parsed Hall). reflexivity.
Qed.

(** X9: the first URL that does not parse makes [prepareUrls] fail with an
    error that names it and wraps the parser's error, whatever the URLs
    before it (kept or dropped) and after it. *)
Theorem prepareUrls_fails_on_first_unparsable (good rest : list string)
    (parsed : list validate.URL) (bad : string) (err : error) :
  map (validate.url_Parse go) good = map inr parsed ->
  validate.url_Parse go bad = inl err ->
  validate.prepareUrls go (good ++ bad :: rest)
  = ([], Some (Errorf "failed to parse CRL URL %q: %w" [OpStr bad; OpW (Some err)])).
Proof.
  intros Hall Hbad. unfold validate.prepareUrls.
  eapply prepareUrls_loop_first_failure; eassumption.
Qed.

End PrepareUrls.

Lemma prepareUrls_keeps_http_in_order_witness :
  validate.prepareUrls fixtures.go0
    [fixtures.ldap_url; fixtures.signer_url; fixtures.crl_url]
  = ([validate.mkURL "http" fixtures.signer_url; validate.mkURL "http" fixtures.crl_url],
     None).
Proof.
  apply (prepareUrls_keeps_http_in_order fixtures.go0
           [fixtures.ldap_url; fixtures.signer_url; fixtures.crl_url]
           [validate.mkURL "ldap" fixtures.ldap_url;
            validate.mkURL "http" fixtures.signer_url;
            validate.mkURL "http" fixtures.crl_url]).
  reflexivity.
Defined.

Lemma prepareUrls_fails_on_first_unparsable_witness :
  validate.prepareUrls fixtures.go0 [fixtures.signer_url; ":bad"; fixtures.crl_url]
  = ([], Some (Errorf "failed to parse CRL URL %q: %w"
                 [OpStr ":bad";
                  OpW (Some (Errorf "parse %q: %w"
                               [OpStr ":bad";
                                OpW (Some (Opaque "missing protocol scheme"))]))])).
Proof.
  apply (prepareUrls_fails_on_first_unparsable fixtures.go0
           [fixtures.signer_url] [fixtures.crl_url]
           [validate.mkURL "http" fixtures.signer_url] ":bad").
  - reflexivity.
  - reflexivity.
Defined.

(** ** Package validate: the downloader's methods *)

Section Downloads.

Variable go : validate.golib.

(** Neither method panics. *)
Lemma downloadCRLSigner_returns (d : validate.downloader) (u : validate.URL)
    (t : list validate.event) :
  exists r, fst (validate.downloadCRLSigner go d u t) = Returned r.
Proof.
  unfold validate.downloadCRLSigner, validate.Do, bind, emit, history, ret.
  destruct (negb (validate.enabled d)); simpl; [eauto|].
  destruct (validate.http_NewRequestWithContext go u); simpl; [eauto|].
  destruct (validate.client d _ u) as [e|resp]; simpl; [eauto|].
  destruct (negb (validate.StatusCode resp =? 200)); simpl; [eauto|].
  destruct (validate.Body resp) as [e|bytes]; simpl; [eauto|].
  destruct (validate.x509_ParseCertificate go bytes); simpl; eauto.
Qed.

(** What a certificate returned by [downloadCRLSigner] comes from. *)
Lemma downloadCRLSigner_inr (d : validate.downloader) (u : validate.URL)
    (t : list validate.event) (cert : x509.Certificate) :
  fst (validate.downloadCRLSigner go d u t) = Returned (inr cert) ->
  validate.enabled d = true /\
  snd (validate.downloadCRLSigner go d u t) = t ++ validate.issuer_download u /\
  exists resp bytes,
    validate.client d (t ++ [validate.DownloadCRLSignerCalled u]) u = inr resp /\
    validate.StatusCode resp = 200 /\
    validate.Body resp = inr bytes /\
    validate.x509_ParseCertificate go bytes = inr cert.
Proof.
  unfold validate.downloadCRLSigner, validate.Do, bind, emit, history, ret.
  destruct (validate.enabled d); simpl; [|discriminate].
  destruct (validate.http_NewRequestWithContext go u); simpl; [discriminate|].
  destruct (validate.client d _ u) as [e|resp] eqn:Hdo; simpl; [discriminate|].
  destruct (Z.eqb_spec (validate.StatusCode resp) 200) as [Hok|Hko]; simpl;
    [|discriminate].
  destruct (validate.Body resp) as [e|bytes] eqn:Hbody; simpl; [discriminate|].
  destruct (validate.x509_ParseCertificate go bytes) as [e|cert'] eqn:Hparse; simpl;
    [discriminate|].
  intros H. injection H as <-.
  split; [reflexivity|]. split; [rewrite <- app_assoc; reflexivity|].
  exists resp, bytes. repeat split; assumption.
Qed.

(** With the downloader enabled, [downloadCRL] returns a list or an error,
    and a list it returns was parsed from a response and is valid at the
    time read after the response. *)
Lemma downloadCRL_enabled_cases (d : validate.downloader) (u : validate.URL)
    (t : list validate.event) :
  validate.enabled d = true ->
  (exists e, fst (validate.downloadCRL go d u t) = Returned (None, Some e)) \/
  (exists l resp bytes,
     fst (validate.downloadCRL go d u t) = Returned (Some l, None) /\
     snd (validate.downloadCRL go d u t)
       = t ++ [validate.DownloadCRLCalled u;
               validate.HttpGet validate.RevocationListFile u] /\
     validate.client d (t ++ [validate.DownloadCRLCalled u]) u = inr resp /\
     validate.StatusCode resp = 200 /\
     validate.Body resp = inr bytes /\
     validate.x509_ParseRevocationList go bytes = inr (crl.list_of l) /\
     crl.IsValid
       (validate.time_Now go
          (t ++ [validate.DownloadCRLCalled u;
                 validate.HttpGet validate.RevocationListFile u])) l = None).
Proof.
  intros Hon.
  unfold validate.downloadCRL, validate.Do, bind, emit, history, ret.
  rewrite Hon. simpl.
  destruct (validate.http_NewRequestWithContext go u); simpl; [left; eauto|].
  destruct (validate.client d _ u) as [e|resp] eqn:Hdo; simpl; [left; eauto|].
  destruct (Z.eqb_spec (validate.StatusCode resp) 200) as [Hok|Hko]; simpl;
    [|left; eauto].
  destruct (validate.Body resp) as [e|bytes] eqn:Hbody; simpl; [left; eauto|].
  destruct (validate.x509_ParseRevocationList go bytes) as [e|rl] eqn:Hparse; simpl;
    [left; eauto|].
  rewrite <- app_assoc. simpl.
  unfold crl.NewCRL.
  destruct (crl.IsValid _ (crl.mkcrl rl)) as [e|] eqn:Hvalid; simpl; [left; eauto|].
  right. exists (crl.mkcrl rl), resp, bytes. repeat split; assumption.
Qed.

(** X10: [downloadCRLSigner] returns a certificate only when the downloader
    is enabled, the one request it sent was answered with status 200 and the
    body read from the answer parses to that certificate; its trace is then
    the call followed by the request. *)
Theorem downloadCRLSigner_certificate_from_200 (d : validate.downloader)
    (u : validate.URL) (t : list validate.event) (cert : x509.Certificate) :
  fst (validate.downloadCRLSigner go d u t) = Returned (inr cert) ->
  validate.enabled d = true /\
  snd (validate.downloadCRLSigner go d u t) = t ++ validate.issuer_download u /\
  exists resp bytes,
    validate.client d (t ++ [validate.DownloadCRLSignerCalled u]) u = inr resp /\
    validate.StatusCode resp = 200 /\
    validate.Body resp = inr bytes /\
    validate.x509_ParseCertificate go bytes = inr cert.
Proof. apply downloadCRLSigner_inr. Qed.

(** X11: with the downloader enabled, [downloadCRL] never returns a nil list
    together with a nil error; a list it returns was parsed from the body of
    an answer of status 200 and its window holds the time read after the
    answer (a list that is expired or not yet valid is an error). *)
Theorem downloadCRL_enabled_list_or_error (d : validate.downloader) (u : validate.URL)
    (t : list validate.event) :
  validate.enabled d = true ->
  fst (validate.downloadCRL go d u t) <> Returned (None, None) /\
  (forall l,
     fst (validate.downloadCRL go d u t) = Returned (Some l, None) ->
     let after := t ++ [validate.DownloadCRLCalled u;
                        validate.HttpGet validate.RevocationListFile u] in
     snd (validate.downloadCRL go d u t) = after /\
     x509.ThisUpdate (crl.list_of l) <= validate.time_Now go after
       <= x509.NextUpdate (crl.list_of l) /\
     exists resp bytes,
       validate.client d (t ++ [validate.DownloadCRLCalled u]) u = inr resp /\
       validate.StatusCode resp = 200 /\
       validate.Body resp = inr bytes /\
       validate.x509_ParseRevocationList go bytes = inr (crl.list_of l)).
Proof.
  intros Hon.
  destruct (downloadCRL_enabled_cases d u t Hon)
    as [(e & Herr)|(l & resp & bytes & Hret & Htrace & Hdo & Hok & Hbody & Hparse & Hvalid)].
  - rewrite Herr. split; [discriminate|]. intros l H. discriminate H.
  - rewrite Hret. split; [discriminate|].
    intros l' H. injection H as <-. cbv zeta.
    split; [exact Htrace|]. split; [|exists resp, bytes; repeat split; assumption].
    unfold crl.IsValid in Hvalid.
    destruct (Z.ltb_spec (x509.NextUpdate (crl.list_of l))
                (validate.time_Now go
                   (t ++ [validate.DownloadCRLCalled u;
                          validate.HttpGet validate.RevocationListFile u])));
      [discriminate|].
    destruct (Z.ltb_spec
                (validate.time_Now go
                   (t ++ [validate.DownloadCRLCalled u;
                          validate.HttpGet validate.RevocationListFile u]))
                (x509.ThisUpdate (crl.list_of l))); [discriminate|].
    lia.
Qed.

End Downloads.

Lemma downloadCRLSigner_certificate_from_200_witness :
  validate.enabled (validate.newDefaultDownloader fixtures.client200) = true /\
  snd (validate.downloadCRLSigner fixtures.go0
         (validate.newDefaultDownloader fixtures.client200)
         (validate.mkURL "http" fixtures.signer_url) [])
  = validate.issuer_download (validate.mkURL "http" fixtures.signer_url).
Proof.
  destruct (downloadCRLSigner_certificate_from_200 fixtures.go0
              (validate.newDefaultDownloader fixtures.client200)
              (validate.mkURL "http" fixtures.signer_url) [] fixtures.issuer0)
    as (Hon & Htrace & _).
  - reflexivity.
  - split; [exact Hon | exact Htrace].
Defined.

Lemma downloadCRL_enabled_list_or_error_witness :
  fst (validate.downloadCRL fixtures.go0
         (validate.newDefaultDownloader fixtures.client200)
         (validate.mkURL "http" fixtures.crl_url) [])
  <> Returned (None, None).
Proof.
  apply (downloadCRL_enabled_list_or_error fixtures.go0
           (validate.newDefaultDownloader fixtures.client200)
           (validate.mkURL "http" fixtures.crl_url) []).
  reflexivity.
Defined.

(** ** Package validate: [getIssuerCertificates] and [Check] *)


Section CheckFacts.

Variable go : validate.golib.

(** [Check] is the structural checks followed by the rest. *)
Lemma Check_unfold (c : validate.ekchecker) (ek : x509.Certificate) (skip : bool)
    (t : list validate.event) :
  validate.Check go c (validate.mkCheckConfig (Some ek) skip) t =
  match prechecks.first_failing (validate.ekdownloader c) skip ek with
  | Some r => (Returned (Some (prechecks.rejection (validate.ekdownloader c) ek r)), t)
  | None =>
      validate.Check_after_check go c ek
        (skip || (validate.len (x509.CRLDistributionPoints ek) =? 0)) t
  end.
Proof.
  unfold validate.Check, validate.CheckConfig_CheckAndSetDefaults.
  cbn [validate.EK]. unfold bind at 1. rewrite check_computes.
  destruct (prechecks.first_failing (validate.ekdownloader c) skip ek) as [r|];
    reflexivity.
Qed.

Lemma Check_nil_EK (c : validate.ekchecker) (skip : bool) (t : list validate.event) :
  validate.Check go c (validate.mkCheckConfig None skip) t
  = (Returned (Some (Errorf "invalid check config: %w"
                       [OpW (Some (Errorf "EK certificate must be provided" []))])), t).
Proof. reflexivity. Qed.

(** The loop of [getIssuerCertificates]: all or nothing, one download for
    each URL, in order. *)
Lemma getIssuerCertificates_loop_cases (d : validate.downloader) (urls : list validate.URL) :
  forall (acc : list x509.Certificate) (t : list validate.event),
    (exists e done,
       validate.getIssuerCertificates_loop go d acc urls t = (Returned ([], Some e), done)) \/
    (exists fetched,
       validate.getIssuerCertificates_loop go d acc urls t
       = (Returned (acc ++ fetched, None),
          t ++ List.concat (map validate.issuer_download urls)) /\
       List.length fetched = List.length urls /\
       validate.enabled d = true) \/
    (urls = [] /\
     validate.getIssuerCertificates_loop go d acc urls t = (Returned (acc, None), t)).
Proof.
  induction urls as [|u rest IH]; intros acc t.
  - right. right. split; reflexivity.
  - cbn [validate.getIssuerCertificates_loop]. unfold bind.
    destruct (downloadCRLSigner_returns go d u t) as (r & Hr).
    pose proof (downloadCRLSigner_inr go d u t) as Hinr.
    destruct (validate.downloadCRLSigner go d u t) as [o t1]. simpl in Hr, Hinr. subst o.
    destruct r as [e|cert]; [left; do 2 eexists; reflexivity|].
    destruct (Hinr cert eq_refl) as (Hon & Htrace & _). subst t1.
    destruct (IH (acc ++ [cert]) (t ++ validate.issuer_download u))
      as [(e & done & Hloop)|[(fetched & Hloop & Hlen & _)|(-> & Hloop)]].
    + left. rewrite Hloop. eauto.
    + right. left. exists (cert :: fetched). rewrite Hloop.
      cbn [map List.concat]. rewrite <- !app_assoc. simpl. auto.
    + right. left. exists [cert]. rewrite Hloop.
      cbn [map List.concat]. rewrite app_nil_r. auto.
Qed.

Lemma getIssuerCertificates_cases (d : validate.downloader) (cert : x509.Certificate)
    (t : list validate.event) :
  (exists e done,
     validate.getIssuerCertificates go d cert t = (Returned ([], Some e), done)) \/
  (exists issuers urls,
     validate.prepareUrls go (x509.IssuingCertificateURL cert) = (urls, None) /\
     validate.getIssuerCertificates go d cert t
     = (Returned (issuers, None), t ++ List.concat (map validate.issuer_download urls)) /\
     List.length issuers = List.length urls /\
     (urls = [] \/ validate.enabled d = true)).
Proof.
  unfold validate.getIssuerCertificates.
  destruct (validate.prepareUrls go (x509.IssuingCertificateURL cert)) as [urls [e|]].
  - left. do 2 eexists. reflexivity.
  - destruct (getIssuerCertificates_loop_cases d urls [] t)
      as [(e & done & Hloop)|[(fetched & Hloop & Hlen & Hon)|(-> & Hloop)]].
    + left. exists e, done. exact Hloop.
    + right. exists fetched, urls. rewrite Hloop. simpl. auto.
    + right. exists [], []. rewrite Hloop. simpl. rewrite app_nil_r. auto.
Qed.

(** X12: [getIssuerCertificates] is all or nothing. With an error it returns
    no certificate. Without, it returns one certificate for each issuer URL
    of scheme http or https, and its trace is one call followed by one
    request for each, in the order of the URLs. *)
Theorem getIssuerCertificates_all_or_nothing (d : validate.downloader)
    (cert : x509.Certificate) (t : list validate.event) :
  (exists e done,
     validate.getIssuerCertificates go d cert t = (Returned ([], Some e), done)) \/
  (exists issuers urls,
     validate.prepareUrls go (x509.IssuingCertificateURL cert) = (urls, None) /\
     validate.getIssuerCertificates go d cert t
     = (Returned (issuers, None), t ++ List.concat (map validate.issuer_download urls)) /\
     List.length issuers = List.length urls).
Proof.
  destruct (getIssuerCertificates_cases d cert t)
    as [Herr|(issuers & urls & Hurls & Hrun & Hlen & _)].
  - left. exact Herr.
  - right. exists issuers, urls. auto.
Qed.

End CheckFacts.

Section CheckOutcomes.

Variable go : validate.golib.

Lemma downloadCRL_returns (d : validate.downloader) (u : validate.URL)
    (t : list validate.event) :
  exists r, fst (validate.downloadCRL go d u t) = Returned r.
Proof.
  destruct (validate.enabled d) eqn:Hon.
  - destruct (downloadCRL_enabled_cases go d u t Hon)
      as [(e & Herr)|(l & _ & _ & Hret & _)]; eexists; eassumption.
  - rewrite (downloadCRL_disabled go d u t Hon). eexists. reflexivity.
Qed.


Lemma Check_crl_loop_enabled_returns (c : validate.ekchecker) (ek : x509.Certificate)
    (issuers : list x509.Certificate) (urls : list validate.URL) :
  validate.enabled (validate.ekdownloader c) = true ->
  forall t, exists r, fst (validate.Check_crl_loop go c ek issuers urls t) = Returned r.
Proof.
  intros Hon. induction urls as [|u rest IH]; intros t; [simpl; eauto|].
  cbn [validate.Check_crl_loop]. unfold bind.
  destruct (downloadCRL_enabled_cases go (validate.ekdownloader c) u t Hon)
    as [(e & Hret)|(l & _ & _ & Hret & _)];
    destruct (validate.downloadCRL go (validate.ekdownloader c) u t) as [o t1];
    simpl in Hret; subst o; [simpl; eauto|].
  destruct (crl.Verify (validate.CheckSignatureFrom go) l issuers); [simpl; eauto|].
  destruct (crl.IsRevoked l ek); [simpl; eauto | apply IH].
Qed.




Lemma first_failing_None (d : validate.downloader) (skip : bool) (ek : x509.Certificate) :
  prechecks.first_failing d skip ek = None ->
  x509.IsCA ek = false /\
  x509.IssuingCertificateURL ek <> [] /\
  validate.len (x509.IssuingCertificateURL ek) <= validate.maxDownloads d /\
  (skip = false ->
   validate.len (x509.CRLDistributionPoints ek) <= validate.maxDownloads d) /\
  prechecks.has_EK_OID ek = true.
Proof.
  unfold prechecks.first_failing. simpl.
  destruct (x509.IsCA ek); [discriminate|].
  destruct (Z.eqb_spec (validate.len (x509.IssuingCertificateURL ek)) 0) as [Hz|Hnz];
    [discriminate|].
  destruct (Z.ltb_spec (validate.maxDownloads d)
              (validate.len (x509.IssuingCertificateURL ek))); [discriminate|].
  destruct (negb skip && _) eqn:Hcrl; [discriminate|].
  destruct (prechecks.has_EK_OID ek); [|discriminate].
  intros _. repeat split; try assumption.
  - intros Hnil. apply Hnz. rewrite Hnil. reflexivity.
  - intros ->. simpl in Hcrl. apply Z.ltb_ge in Hcrl. exact Hcrl.
Qed.

(** X13: with the downloader enabled, [Check] returns for every
    configuration: no path calls a method on a nil value. *)
Theorem Check_enabled_never_panics (c : validate.ekchecker) (cfg : validate.CheckConfig)
    (t : list validate.event) :
  validate.enabled (validate.ekdownloader c) = true ->
  exists r, fst (validate.Check go c cfg t) = Returned r.
Proof.
  intros Hon. destruct cfg as [[ek|] skip]; [|rewrite Check_nil_EK; simpl; eauto].
  rewrite Check_unfold.
  destruct (prechecks.first_failing (validate.ekdownloader c) skip ek); [simpl; eauto|].
  unfold validate.Check_after_check, bind.
  destruct (getIssuerCertificates_cases go (validate.ekdownloader c) ek t)
    as [(e & done & Hrun)|(issuers & urls & _ & Hrun & _)]; rewrite Hrun;
    [simpl; eauto|].
  unfold validate.Check_revocation.
  destruct (negb (skip || _)); simpl.
  - destruct (validate.prepareUrls go (x509.CRLDistributionPoints ek)) as [crlUrls [e|]];
      [simpl; destruct (validate.VerifyCertificate (validate.tb c) ek); simpl; eauto|].
    destruct (Check_crl_loop_enabled_returns c ek issuers crlUrls Hon
                (t ++ List.concat (map validate.issuer_download urls))) as (r & Hr).
    destruct (validate.Check_crl_loop go c ek issuers crlUrls _) as [o t2].
    simpl in Hr. subst o. destruct r; simpl; [eauto|].
    destruct (validate.VerifyCertificate (validate.tb c) ek); simpl; eauto.
  - destruct (validate.VerifyCertificate (validate.tb c) ek); simpl; eauto.
Qed.


(** X15: [Check] returns no error only for a certificate that is not a CA,
    names at least one and at most [maxDownloads] issuer URLs, carries the
    EK OID in its extended key usage and is verified by the trusted
    bundle. *)
Theorem Check_accepts_only_trusted (c : validate.ekchecker) (cfg : validate.CheckConfig)
    (t : list validate.event) :
  fst (validate.Check go c cfg t) = Returned None ->
  exists ek,
    validate.EK cfg = Some ek /\
    x509.IsCA ek = false /\
    x509.IssuingCertificateURL ek <> [] /\
    validate.len (x509.IssuingCertificateURL ek)
      <= validate.maxDownloads (validate.ekdownloader c) /\
    existsb (fun oid => validate.slices_Equal oid validate.EKCertificate)
      (x509.UnknownExtKeyUsage ek) = true /\
    validate.VerifyCertificate (validate.tb c) ek = None.
Proof.
  destruct cfg as [[ek|] skip]; [|rewrite Check_nil_EK; discriminate].
  rewrite Check_unfold.
  destruct (prechecks.first_failing (validate.ekdownloader c) skip ek) as [r|] eqn:Hpass;
    [discriminate|].
  apply first_failing_None in Hpass as (Hca & Hurl & Hmax & _ & Hoid).
  unfold validate.Check_after_check, bind.
  destruct (validate.getIssuerCertificates go (validate.ekdownloader c) ek t)
    as [[[issuers [e|]]|reason] t1]; simpl; try discriminate.
  destruct (validate.Check_revocation go c ek _ issuers t1) as [[[e|]|reason] t2];
    simpl; try discriminate.
  destruct (validate.VerifyCertificate (validate.tb c) ek) eqn:Htrust; [discriminate|].
  intros _. exists ek. repeat split; assumption.
Qed.

End CheckOutcomes.

Lemma Check_enabled_never_panics_witness :
  exists r,
    fst (validate.Check fixtures.go0
           (fixtures.checker (validate.newDefaultDownloader fixtures.client200))
           (validate.mkCheckConfig (Some fixtures.ek_ldap_issuer) false) [])
    = Returned r.
Proof.
  apply (Check_enabled_never_panics fixtures.go0
           (fixtures.checker (validate.newDefaultDownloader fixtures.client200))
           (validate.mkCheckConfig (Some fixtures.ek_ldap_issuer) false) []).
  reflexivity.
Defined.

Lemma Check_accepts_only_trusted_witness :
  validate.VerifyCertificate fixtures.tb0 fixtures.ek_ten_issuers = None /\
  x509.IsCA fixtures.ek_ten_issuers = false.
Proof.
  destruct (Check_accepts_only_trusted fixtures.go0
              (fixtures.checker (validate.newDefaultDownloader fixtures.client200))
              (validate.mkCheckConfig (Some fixtures.ek_ten_issuers) false) [])
    as (ek & Hek & Hca & _ & _ & _ & Htrust).
  - vm_compute. reflexivity.
  - injection Hek as <-. split; [exact Htrust | exact Hca].
Defined.

Section CheckTraces.

Variable go : validate.golib.

Lemma downloadCRLSigner_issuer_events (d : validate.downloader) (u : validate.URL)
    (t : list validate.event) :
  exists a,
    snd (validate.downloadCRLSigner go d u t) = t ++ a /\
    forallb validate.issuer_event a = true.
Proof.
  unfold validate.downloadCRLSigner, validate.Do, bind, emit, history, ret.
  destruct (negb (validate.enabled d)); simpl;
    [exists [validate.DownloadCRLSignerCalled u]; split; reflexivity|].
  destruct (validate.http_NewRequestWithContext go u); simpl;
    [exists [validate.DownloadCRLSignerCalled u]; split; reflexivity|].
  exists (validate.issuer_download u).
  split; [|reflexivity].
  destruct (validate.client d _ u) as [e|resp]; simpl;
    [rewrite <- app_assoc; reflexivity|].
  destruct (negb (validate.StatusCode resp =? 200)); simpl;
    [rewrite <- app_assoc; reflexivity|].
  destruct (validate.Body resp) as [e|bytes]; simpl;
    [rewrite <- app_assoc; reflexivity|].
  destruct (validate.x509_ParseCertificate go bytes); simpl;
    rewrite <- app_assoc; reflexivity.
Qed.

Lemma getIssuerCertificates_loop_issuer_events (d : validate.downloader)
    (urls : list validate.URL) :
  forall acc t,
    exists a,
      snd (validate.getIssuerCertificates_loop go d acc urls t) = t ++ a /\
      forallb validate.issuer_event a = true.
Proof.
  induction urls as [|u rest IH]; intros acc t.
  - exists []. rewrite app_nil_r. split; reflexivity.
  - cbn [validate.getIssuerCertificates_loop]. unfold bind.
    destruct (downloadCRLSigner_issuer_events d u t) as (a & Ha & Hissuer).
    destruct (validate.downloadCRLSigner go d u t) as [[[e|cert]|reason] t1];
      simpl in Ha; subst t1; simpl; try (exists a; split; [reflexivity | exact Hissuer]).
    destruct (IH (acc ++ [cert]) (t ++ a)) as (b & Hb & Hissuer').
    exists (a ++ b). rewrite Hb, app_assoc. split; [reflexivity|].
    rewrite forallb_app, Hissuer, Hissuer'. reflexivity.
Qed.

Lemma getIssuerCertificates_issuer_events (d : validate.downloader)
    (cert : x509.Certificate) (t : list validate.event) :
  exists a,
    snd (validate.getIssuerCertificates go d cert t) = t ++ a /\
    forallb validate.issuer_event a = true.
Proof.
  unfold validate.getIssuerCertificates.
  destruct (validate.prepareUrls go (x509.IssuingCertificateURL cert)) as [urls [e|]].
  - exists []. rewrite app_nil_r. split; reflexivity.
  - apply getIssuerCertificates_loop_issuer_events.
Qed.

(** [getIssuerCertificates] with the downloader disabled. *)
Lemma getIssuerCertificates_disabled (d : validate.downloader) (cert : x509.Certificate)
    (t : list validate.event) :
  validate.enabled d = false ->
  match validate.prepareUrls go (x509.IssuingCertificateURL cert) with
  | (_, Some e) =>
      validate.getIssuerCertificates go d cert t
      = (Returned ([], Some (Errorf "failed to prepare issuer URLs: %w" [OpW (Some e)])), t)
  | ([], None) => validate.getIssuerCertificates go d cert t = (Returned ([], None), t)
  | (u :: _, None) =>
      validate.getIssuerCertificates go d cert t
      = (Returned ([], Some (Errorf "failed to download issuer certificate: %w"
                              [OpW (Some (Sentinel ErrDownloaderDisabled))])),
         t ++ [validate.DownloadCRLSignerCalled u])
  end.
Proof.
  intros Hoff. unfold validate.getIssuerCertificates.
  destruct (validate.prepareUrls go (x509.IssuingCertificateURL cert))
    as [[|u rest] [e|]]; try reflexivity.
  cbn [validate.getIssuerCertificates_loop]. unfold bind.
  rewrite (downloadCRLSigner_disabled go d u t Hoff). reflexivity.
Qed.

(** X16: with the downloader disabled, a run of [Check] sends no request,
    whatever the configuration: its trace is empty or is one call of a
    method of the downloader. *)
Theorem Check_disabled_sends_no_request (c : validate.ekchecker)
    (cfg : validate.CheckConfig) :
  validate.enabled (validate.ekdownloader c) = false ->
  validate.total_fetches (snd (validate.Check go c cfg [])) = 0 /\
  (snd (validate.Check go c cfg []) = [] \/
   (exists u, snd (validate.Check go c cfg []) = [validate.DownloadCRLSignerCalled u]) \/
   (exists u, snd (validate.Check go c cfg []) = [validate.DownloadCRLCalled u])).
Proof.
  intros Hoff.
  assert (Hshape :
    snd (validate.Check go c cfg []) = [] \/
    (exists u, snd (validate.Check go c cfg []) = [validate.DownloadCRLSignerCalled u]) \/
    (exists u, snd (validate.Check go c cfg []) = [validate.DownloadCRLCalled u])).
  { destruct cfg as [[ek|] skip]; [|left; reflexivity].
    rewrite Check_unfold.
    destruct (prechecks.first_failing (validate.ekdownloader c) skip ek);
      [left; reflexivity|].
    unfold validate.Check_after_check, bind.
    pose proof (getIssuerCertificates_disabled (validate.ekdownloader c) ek [] Hoff)
      as Hissuers.
    destruct (validate.prepareUrls go (x509.IssuingCertificateURL ek))
      as [[|u rest] [e|]]; rewrite Hissuers; simpl; eauto.
    unfold validate.Check_revocation.
    destruct (negb (skip || _)); simpl;
      [|destruct (validate.VerifyCertificate (validate.tb c) ek); left; reflexivity].
    destruct (validate.prepareUrls go (x509.CRLDistributionPoints ek))
      as [[|u rest] [e|]].
    - left. reflexivity.
    - simpl. destruct (validate.VerifyCertificate (validate.tb c) ek); left; reflexivity.
    - left. reflexivity.
    - rewrite (Check_crl_loop_disabled_panics go c ek [] u rest [] Hoff).
      right. right. exists u. reflexivity. }
  split; [|exact Hshape].
  destruct Hshape as [->|[(u & ->)|(u & ->)]]; reflexivity.
Qed.

(** X17: with the downloader disabled, a certificate that passes the
    structural checks and has an issuer URL of scheme http or https is
    refused after one call of [downloadCRLSigner], with an error in whose
    chain [ErrDownloaderDisabled] is. *)
Theorem Check_disabled_reports_disabled (c : validate.ekchecker) (ek : x509.Certificate)
    (skip : bool) (u : validate.URL) (rest : list validate.URL)
    (t : list validate.event) :
  validate.enabled (validate.ekdownloader c) = false ->
  prechecks.first_failing (validate.ekdownloader c) skip ek = None ->
  validate.prepareUrls go (x509.IssuingCertificateURL ek) = (u :: rest, None) ->
  exists e,
    validate.Check go c (validate.mkCheckConfig (Some ek) skip) t
    = (Returned (Some e), t ++ [validate.DownloadCRLSignerCalled u]) /\
    errors_Is e ErrDownloaderDisabled = true.
Proof.
  intros Hoff Hpass Hurls.
  rewrite Check_unfold, Hpass.
  unfold validate.Check_after_check, bind.
  pose proof (getIssuerCertificates_disabled (validate.ekdownloader c) ek t Hoff)
    as Hissuers.
  rewrite Hurls in Hissuers. rewrite Hissuers.
  eexists. split; reflexivity.
Qed.

Lemma issuer_events_no_CRL_fetch (l : list validate.event) :
  forallb validate.issuer_event l = true ->
  filter (validate.is_fetch validate.RevocationListFile) l = [].
Proof.
  induction l as [|e l IH]; simpl; [reflexivity|].
  rewrite andb_true_iff. intros (He & Hl).
  destruct e as [u|u|[] u]; simpl in *; try discriminate; apply IH; exact Hl.
Qed.

(** X18: when revocation checking is skipped, by the configuration or
    because the certificate has no distribution point, a run of [Check]
    neither calls [downloadCRL] nor requests a revocation list: every event
    of its trace belongs to the download of an issuer. *)
Theorem Check_skipped_revocation_no_CRL_download (c : validate.ekchecker)
    (ek : x509.Certificate) (skip : bool) :
  skip = true \/ x509.CRLDistributionPoints ek = [] ->
  let trace := snd (validate.Check go c (validate.mkCheckConfig (Some ek) skip) []) in
  forallb validate.issuer_event trace = true /\
  validate.fetches validate.RevocationListFile trace = 0 /\
  (forall u, ~ In (validate.DownloadCRLCalled u) trace).
Proof.
  intros Hskip. cbv zeta.
  assert (Hissuer :
    forallb validate.issuer_event
      (snd (validate.Check go c (validate.mkCheckConfig (Some ek) skip) [])) = true).
  { rewrite Check_unfold.
    destruct (prechecks.first_failing (validate.ekdownloader c) skip ek);
      [reflexivity|].
    assert (Hon : skip || (validate.len (x509.CRLDistributionPoints ek) =? 0) = true).
    { destruct Hskip as [->| ->]; [reflexivity | apply orb_true_r]. }
    rewrite Hon.
    unfold validate.Check_after_check, validate.Check_revocation, bind.
    destruct (getIssuerCertificates_issuer_events (validate.ekdownloader c) ek [])
      as (a & Ha & Hissuer).
    destruct (validate.getIssuerCertificates go (validate.ekdownloader c) ek [])
      as [[[issuers [e|]]|reason] t1]; simpl in Ha; subst t1; simpl;
      try exact Hissuer.
    destruct (validate.VerifyCertificate (validate.tb c) ek); exact Hissuer. }
  split; [exact Hissuer|].
  rewrite forallb_forall in Hissuer. split.
  - unfold validate.fetches. rewrite issuer_events_no_CRL_fetch; [reflexivity|].
    apply forallb_forall. exact Hissuer.
  - intros u Hin. apply Hissuer in Hin. discriminate Hin.
Qed.

End CheckTraces.

Lemma Check_disabled_sends_no_request_witness :
  validate.total_fetches
    (snd (validate.Check fixtures.go0 (fixtures.checker fixtures.disabled)
            (validate.mkCheckConfig (Some fixtures.ek_ten_issuers) false) [])) = 0.
Proof.
  apply (Check_disabled_sends_no_request fixtures.go0
           (fixtures.checker fixtures.disabled)
           (validate.mkCheckConfig (Some fixtures.ek_ten_issuers) false)).
  reflexivity.
Defined.

Lemma Check_disabled_reports_disabled_witness :
  exists e,
    validate.Check fixtures.go0 (fixtures.checker fixtures.disabled)
      (validate.mkCheckConfig (Some fixtures.ek_no_crl) false) []
    = (Returned (Some e),
       [validate.DownloadCRLSignerCalled (validate.mkURL "http" fixtures.signer_url)]) /\
    errors_Is e ErrDownloaderDisabled = true.
Proof.
  apply (Check_disabled_reports_disabled fixtures.go0 (fixtures.checker fixtures.disabled)
           fixtures.ek_no_crl false (validate.mkURL "http" fixtures.signer_url) [] []).
  - reflexivity.
  - reflexivity.
  - reflexivity.
Defined.

Lemma Check_skipped_revocation_no_CRL_download_witness :
  validate.fetches validate.RevocationListFile
    (snd (validate.Check fixtures.go0
            (fixtures.checker (validate.newDefaultDownloader fixtures.client200))
            (validate.mkCheckConfig (Some fixtures.ek_no_crl) false) [])) = 0.
Proof.
  apply (Check_skipped_revocation_no_CRL_download fixtures.go0
           (fixtures.checker (validate.newDefaultDownloader fixtures.client200))
           fixtures.ek_no_crl false).
  right. reflexivity.
Defined.

(** ** Package validate: [NewEKChecker] *)

(** X19: [NewEKChecker] fails exactly when no bundle is given and the
    bundle cannot be fetched, and its error wraps that failure. The checker
    it returns uses the bundle given, else the fetched one, and the
    downloader given, else an enabled one with [http.DefaultClient] and a
    ceiling of 10. In both cases the downloader's timeout is overwritten with
    the configured timeout, or with 5 seconds when that is zero: the 2
    seconds of [newDefaultDownloader] are never in effect. *)
Theorem NewEKChecker_defaults (env : validate.defaults) (cfg : validate.EKCheckerConfig) :
  let timeout :=
    if validate.Timeout cfg =? 0 then 5 * validate.second else validate.Timeout cfg in
  let d :=
    match validate.Downloader cfg with
    | Some d => d
    | None => validate.newDefaultDownloader (validate.DefaultClient env)
    end in
  match validate.NewEKChecker env cfg with
  | inl e =>
      validate.Bundle cfg = None /\
      exists cause,
        validate.GetTrustedBundle env timeout = inl cause /\
        e = Errorf "invalid config: %w" [OpW (Some cause)]
  | inr checker =>
      validate.ekdownloader checker = validate.with_timeout d timeout /\
      validate.timeout (validate.ekdownloader checker) <> 0 /\
      (validate.Downloader cfg = None ->
       validate.enabled (validate.ekdownloader checker) = true /\
       validate.maxDownloads (validate.ekdownloader checker) = 10) /\
      (validate.Bundle cfg = Some (validate.tb checker) \/
       validate.Bundle cfg = None /\
       validate.GetTrustedBundle env timeout = inr (validate.tb checker))
  end.
Proof.
  cbv zeta. unfold validate.NewEKChecker, validate.EKCheckerConfig_CheckAndSetDefaults.
  assert (Hnonzero :
    (if validate.Timeout cfg =? 0 then 5 * validate.second else validate.Timeout cfg) <> 0).
  { destruct (Z.eqb_spec (validate.Timeout cfg) 0); [discriminate | assumption]. }
  destruct (validate.Bundle cfg) as [bundle|].
  - simpl. split; [reflexivity|]. split; [exact Hnonzero|].
    split; [intros ->; split; reflexivity | left; reflexivity].
  - destruct (validate.GetTrustedBundle env _) as [cause|bundle] eqn:Hget; simpl.
    + split; [reflexivity|]. exists cause. split; reflexivity.
    + split; [reflexivity|]. split; [exact Hnonzero|].
      split; [intros ->; split; reflexivity | right; split; reflexivity].
Qed.

(** ** Package tpm: [getEK], [search] and [GetEKCertificate] *)

Lemma TPMAlgID_eqb_eq (a b : tpm.TPMAlgID) : tpm.TPMAlgID_eqb a b = true <-> a = b.
Proof.
  destruct a, b; simpl; split; intros H; try reflexivity; try discriminate.
  - apply Z.eqb_eq in H. congruence.
  - injection H as ->. apply Z.eqb_refl.
Qed.

Lemma find_first {A : Type} (p : A -> bool) (before after : list A) (x : A) :
  (forall y, In y before -> p y = false) -> p x = true ->
  find p (before ++ x :: after) = Some x /\ existsb p (before ++ x :: after) = true.
Proof.
  intros Hbefore Hx. induction before as [|y before IH]; simpl.
  - rewrite Hx. split; reflexivity.
  - rewrite (Hbefore y (or_introl eq_refl)). simpl. apply IH.
    intros z Hz. apply Hbefore. right. exact Hz.
Qed.

(** X20: [getEK] asks the TPM for a key only for the first available
    certificate of the algorithm asked for, and returns what the TPM
    answers; when no certificate of that algorithm is available it returns
    [ErrEKCertNotFound] without any command to the TPM. *)
Theorem getEK_first_template_of_algorithm (device : tpm.TPM) (alg : tpm.TPMAlgID)
    (certs : list tpm.EKCertTemplate) (t : list tpm.event) :
  ((forall template, In template certs -> tpm.TemplateType template <> alg) ->
   tpm.getEK device alg certs t
   = (Returned (tpm.EK_zero, Some (Sentinel ErrEKCertNotFound)),
      t ++ [tpm.GetEKCalled alg])) /\
  (forall before template after,
     certs = before ++ template :: after ->
     tpm.TemplateType template = alg ->
     (forall other, In other before -> tpm.TemplateType other <> alg) ->
     tpm.getEK device alg certs t
     = (Returned (tpm.TPM_EK device template),
        t ++ [tpm.GetEKCalled alg; tpm.EKCalled template])).
Proof.
  split.
  - intros Hnone. unfold tpm.getEK, bind, emit, ret.
    assert (Hno : existsb (tpm.has_type alg) certs = false).
    { apply not_true_is_false. intros Hex.
      apply existsb_exists in Hex as (x & Hin & Hx).
      apply TPMAlgID_eqb_eq in Hx. exact (Hnone x Hin Hx). }
    rewrite Hno. reflexivity.
  - intros before template after -> Htype Hbefore.
    unfold tpm.getEK, bind, emit, ret.
    destruct (find_first (tpm.has_type alg) before after template) as (Hfind & Hex).
    + intros y Hy. apply not_true_is_false. intros Hty.
      apply TPMAlgID_eqb_eq in Hty. exact (Hbefore y Hy Hty).
    + apply TPMAlgID_eqb_eq. exact Htype.
    + rewrite Hex, Hfind. simpl. rewrite <- app_assoc. reflexivity.
Qed.

Lemma search_empty_or_persisted_run (device : tpm.TPM) :
  (tpm.SearchAvailableCertificates device = [] ->
   tpm.search device []
   = (Returned (tpm.EK_zero, Some (Errorf "no EK certificates available in TPM" [])),
      [tpm.SearchAvailableCertificatesCalled])) /\
  (forall template0 rest,
     tpm.SearchAvailableCertificates device <> [] ->
     tpm.PersistedEKs device = template0 :: rest ->
     tpm.search device []
     = (fst (tpm.search_select (fst (tpm.TPM_EK device template0)) []),
        [tpm.SearchAvailableCertificatesCalled; tpm.PersistedEKsCalled;
         tpm.EKCalled template0])).
Proof.
  split.
  - intros Hnone. unfold tpm.search, bind, emit. rewrite Hnone. reflexivity.
  - intros template0 rest Hsome Hpersisted.
    unfold tpm.search, bind, emit. rewrite Hpersisted.
    destruct (tpm.SearchAvailableCertificates device) as [|c0 certs]; [contradiction|].
    simpl. destruct (tpm.TPM_EK device template0) as [ek errGet]. simpl.
    apply search_select_run.
Qed.

(** X21: [search] generates no key when it can do without: when the TPM
    holds no EK certificate it fails after the enumeration alone, and when a
    persisted handle exists it requests the key of the first persisted
    handle and nothing else; in both cases [getEK] is not called. *)
Theorem search_no_generation_when_avoidable (device : tpm.TPM) :
  (tpm.SearchAvailableCertificates device = [] ->
   tpm.search device []
   = (Returned (tpm.EK_zero, Some (Errorf "no EK certificates available in TPM" [])),
      [tpm.SearchAvailableCertificatesCalled])) /\
  (forall template0 rest,
     tpm.SearchAvailableCertificates device <> [] ->
     tpm.PersistedEKs device = template0 :: rest ->
     snd (tpm.search device [])
     = [tpm.SearchAvailableCertificatesCalled; tpm.PersistedEKsCalled;
        tpm.EKCalled template0]) /\
  (tpm.SearchAvailableCertificates device = [] \/ tpm.PersistedEKs device <> [] ->
   forall alg, ~ In (tpm.GetEKCalled alg) (snd (tpm.search device []))).
Proof.
  destruct (search_empty_or_persisted_run device) as (Hempty & Hpersisted).
  split; [exact Hempty|]. split.
  - intros template0 rest Hsome Hp. rewrite (Hpersisted template0 rest Hsome Hp).
    reflexivity.
  - intros Hcase alg.
    destruct (tpm.SearchAvailableCertificates device) as [|c0 certs] eqn:Hcerts.
    + rewrite (Hempty eq_refl). intros [H|[]]; discriminate H.
    + destruct Hcase as [Hcase|Hcase]; [discriminate|].
      destruct (tpm.PersistedEKs device) as [|template0 rest] eqn:Hp; [contradiction|].
      rewrite (Hpersisted template0 rest); [|discriminate|reflexivity].
      intros [H|[H|[H|[]]]]; discriminate H.
Qed.

(** X22: when [search] returns an EK and no error, the EK has a certificate
    and a public area, the key was requested for a template that is the
    first persisted handle or an ECC template, and [getEK] was not called
    for RSA. *)
Theorem search_success_origin (device : tpm.TPM) (ek : tpm.EK) :
  fst (tpm.search device []) = Returned (ek, None) ->
  tpm.Certificate ek <> None /\
  tpm.Public ek <> None /\
  ~ In (tpm.GetEKCalled tpm.TPMAlgRSA) (snd (tpm.search device [])) /\
  exists template,
    In (tpm.EKCalled template) (snd (tpm.search device [])) /\
    fst (tpm.TPM_EK device template) = ek /\
    ((exists rest, tpm.PersistedEKs device = template :: rest) \/
     tpm.PersistedEKs device = [] /\ tpm.TemplateType template = tpm.TPMAlgECC).
Proof.
  assert (Hselect : forall e t r,
            fst (tpm.search_select e t) = Returned (r, None) ->
            r = e /\ tpm.Certificate e <> None /\ tpm.Public e <> None).
  { intros e t r. unfold tpm.search_select.
    destruct (tpm.Certificate e); [|discriminate].
    destruct (tpm.Public e); [|discriminate].
    simpl. intros H. injection H as <-. repeat split; discriminate. }
  destruct (search_empty_or_persisted_run device) as (Hempty & Hpersisted).
  destruct (tpm.SearchAvailableCertificates device) as [|c0 certs] eqn:Hcerts.
  { rewrite (Hempty eq_refl). discriminate. }
  destruct (tpm.PersistedEKs device) as [|template0 rest] eqn:Hp.
  - assert (Hsome : tpm.SearchAvailableCertificates device <> [])
      by (rewrite Hcerts; discriminate).
    rewrite (search_without_persisted device Hp Hsome). rewrite Hcerts.
    destruct (getEK_events device tpm.TPMAlgECC (c0 :: certs))
      as [(Hev & Hret)|(template & Htype & _ & Hev & Hret)]; rewrite Hret, Hev.
    + simpl. destruct (tpm.getEK_returns device tpm.TPMAlgRSA (c0 :: certs))
        as [[ek' [e'|]]|reason]; discriminate.
    + destruct (tpm.TPM_EK device template) as [ek0 [e|]] eqn:Hek.
      * destruct (errors_Is e ErrEKCertNotFound); [|discriminate].
        destruct (tpm.getEK_returns device tpm.TPMAlgRSA (c0 :: certs))
          as [[ek' [e'|]]|reason]; discriminate.
      * intros Hok. rewrite search_select_trace.
        apply Hselect in Hok as (-> & Hcert & Hpub).
        split; [exact Hcert|]. split; [exact Hpub|]. split.
        -- simpl. intros [H|[H|[H|[H|[]]]]]; discriminate H.
        -- exists template. split; [simpl; auto|]. split; [rewrite Hek; reflexivity|].
           right. split; [reflexivity | exact Htype].
  - rewrite (Hpersisted template0 rest); [|discriminate|reflexivity].
    simpl. intros Hok.
    apply Hselect in Hok as (-> & Hcert & Hpub).
    split; [exact Hcert|]. split; [exact Hpub|]. split.
    + intros [H|[H|[H|[]]]]; discriminate H.
    + exists template0. split; [simpl; auto|]. split; [reflexivity|].
      left. exists rest. reflexivity.
Qed.

Lemma search_success_origin_witness :
  tpm.Certificate (fixtures.ek_of fixtures.ecc_template) <> None /\
  ~ In (tpm.GetEKCalled tpm.TPMAlgRSA)
       (snd (tpm.search (fixtures.tpm_ecc_only None) [])).
Proof.
  destruct (search_success_origin (fixtures.tpm_ecc_only None)
              (fixtures.ek_of fixtures.ecc_template))
    as (Hcert & _ & Hrsa & _).
  - reflexivity.
  - split; [exact Hcert | exact Hrsa].
Defined.

(** X23: the session of [GetEKCertificate]. When the TPM cannot be opened
    the error wraps the failure and nothing else is sent to the TPM, no
    [Close] either. When it is opened, [Close] is sent exactly once, as the
    last command, on every path. *)
Theorem GetEKCertificate_session_lifecycle (cfg : tpm.TPMConfig) :
  (forall e t,
     tpm.GetEKCertificate (inl e) cfg t
     = (Returned (None, Some (Errorf "failed to open TPM: %w" [OpW (Some e)])),
        t ++ [tpm.OpenTPMCalled])) /\
  (forall device,
     exists commands,
       snd (tpm.GetEKCertificate (inr device) cfg [])
       = tpm.OpenTPMCalled :: commands ++ [tpm.CloseCalled] /\
       ~ In tpm.CloseCalled commands).
Proof.
  split.
  - intros e t. reflexivity.
  - intros device. apply GetEKCertificate_closes_session.
Qed.

(** X24: [GetEKCertificate] returns a response or an error, never both and
    never neither; a response holds the certificate of the EK that [search]
    selected and the manufacturer that [Info] reported. *)
Theorem GetEKCertificate_response_xor_error (open : error + tpm.TPM) (cfg : tpm.TPMConfig)
    (r : option tpm.EKResponse * option error) :
  fst (tpm.GetEKCertificate open cfg []) = Returned r ->
  (exists e, r = (None, Some e)) \/
  (exists device info ek,
     open = inr device /\
     tpm.Info device = inr info /\
     fst (tpm.search device []) = Returned (ek, None) /\
     r = (Some {| tpm.ResponseCertificate := tpm.Certificate ek;
                  tpm.ResponseManufacturer := tpm.InfoManufacturer info |}, None)).
Proof.
  unfold tpm.GetEKCertificate, tpm.GetEKCertificate_frame,
    tpm.GetEKCertificate_body, tpm.GetEKCertificate_deferred,
    tpm.TPMConfig_CheckAndSetDefaults, bind, emit, ret.
  destruct open as [e|device]; simpl.
  - intros H. injection H as <-. left. eauto.
  - destruct (tpm.Info device) as [e|info] eqn:Hinfo.
    + destruct (tpm.Close device); simpl; intros H; injection H as <-; left; eauto.
    + rewrite (search_run device [tpm.OpenTPMCalled; tpm.InfoCalled]).
      destruct (fst (tpm.search device [])) as [[ek [e|]]|reason] eqn:Hsearch.
      * destruct (tpm.Close device); simpl; intros H; injection H as <-; left; eauto.
      * destruct (tpm.Close device); simpl; intros H; injection H as <-; right;
          exists device, info, ek; auto.
      * destruct (tpm.Close device); simpl; discriminate.
Qed.

Lemma GetEKCertificate_response_xor_error_witness :
  (exists e,
     (Some (tpm.mkEKResponse (Some fixtures.ek_no_crl)
              (tpm.InfoManufacturer fixtures.info0)), @None error) = (None, Some e)) \/
  (exists device info ek,
     @inr error tpm.TPM (fixtures.tpm_ecc_only None) = inr device /\
     tpm.Info device = inr info /\
     fst (tpm.search device []) = Returned (ek, None) /\
     (Some (tpm.mkEKResponse (Some fixtures.ek_no_crl)
              (tpm.InfoManufacturer fixtures.info0)), @None error)
     = (Some {| tpm.ResponseCertificate := tpm.Certificate ek;
                tpm.ResponseManufacturer := tpm.InfoManufacturer info |}, None)).
Proof.
  apply (GetEKCertificate_response_xor_error (inr (fixtures.tpm_ecc_only None))
           tpm.mkTPMConfig).
  reflexivity.
Defined.


(** ** Package privilege: the sudo implementation *)

(** X25: [NeedsElevation] answers false exactly for root or when the TPM
    device exists and can be opened for reading and writing. Root causes no
    file-system call, and the device file is closed exactly when it was
    opened. *)
Theorem NeedsElevation_iff_cannot_open_device (os : privilege.host) :
  (fst (privilege.NeedsElevation os) = false <->
   privilege.Geteuid os = 0 \/
   privilege.Stat os privilege.tpmDevicePath = None /\
   privilege.OpenFile os privilege.tpmDevicePath = None) /\
  (privilege.Geteuid os = 0 -> snd (privilege.NeedsElevation os) = []) /\
  (In (privilege.FileClosed privilege.tpmDevicePath) (snd (privilege.NeedsElevation os)) <->
   In (privilege.OpenFileCalled privilege.tpmDevicePath)
      (snd (privilege.NeedsElevation os)) /\
   privilege.OpenFile os privilege.tpmDevicePath = None).
Proof.
  unfold privilege.NeedsElevation.
  destruct (Z.eqb_spec (privilege.Geteuid os) 0) as [Hroot|Huser]; simpl.
  - split; [tauto|]. split; [reflexivity|]. tauto.
  - destruct (privilege.Stat os privilege.tpmDevicePath) as [e|]; simpl.
    + split; [split; [discriminate | intros [H|[H _]]; [contradiction | discriminate]]|].
      split; [contradiction|].
      split; [intros [H|[]]; discriminate H | intros ([H|[]] & _); discriminate H].
    + destruct (privilege.OpenFile os privilege.tpmDevicePath) as [e|]; simpl.
      * split; [split; [discriminate | intros [H|[_ H]]; [contradiction | discriminate]]|].
        split; [contradiction|].
        split; [intros [H|[H|[]]]; discriminate H | intros (_ & H); discriminate H].
      * split; [split; auto|]. split; [contradiction|].
        split; [intros _; split; [right; left; reflexivity | reflexivity] |
                intros _; right; right; left; reflexivity].
Qed.

(** X26: [Elevate] returns nil exactly when no elevation is needed, and then
    runs no command. A command it runs is sudo followed by the path of the
    executable and the arguments of the process without the first; after it
    the process exits, with 0 when sudo succeeded and with the status of the
    child when there is one, or an error is returned: never nil. *)
Theorem Elevate_sudo_once_then_exit (os : privilege.host) :
  (fst (privilege.Elevate os) = Continues None <->
   fst (privilege.NeedsElevation os) = false) /\
  (fst (privilege.NeedsElevation os) = false ->
   snd (privilege.Elevate os) = snd (privilege.NeedsElevation os)) /\
  (forall argv,
     In (privilege.CommandRun argv) (snd (privilege.Elevate os)) ->
     exists executable arg0 args,
       privilege.Executable os = inr executable /\
       privilege.Args os = arg0 :: args /\
       argv = "sudo" :: executable :: args /\
       snd (privilege.Elevate os)
       = snd (privilege.NeedsElevation os)
           ++ [privilege.ExecutableCalled; privilege.CommandRun argv] /\
       match privilege.Run os argv with
       | None => fst (privilege.Elevate os) = Exits 0
       | Some (privilege.ExitError _ (Some status)) =>
           fst (privilege.Elevate os) = Exits status
       | Some r =>
           fst (privilege.Elevate os)
           = Continues (Some (Errorf "failed to re-execute with sudo: %w"
                                [OpW (Some (privilege.error_of r))]))
       end).
Proof.
  assert (Hquiet : forall argv,
            ~ In (privilege.CommandRun argv) (snd (privilege.NeedsElevation os)) /\
            ~ In (privilege.CommandRun argv)
                 (snd (privilege.NeedsElevation os) ++ [privilege.ExecutableCalled])).
  { intros argv. unfold privilege.NeedsElevation.
    destruct (privilege.Geteuid os =? 0);
      [|destruct (privilege.Stat os privilege.tpmDevicePath);
        [|destruct (privilege.OpenFile os privilege.tpmDevicePath)]];
      simpl; split; intros H;
      repeat (destruct H as [H|H]; try discriminate H); exact H. }
  unfold privilege.Elevate.
  destruct (privilege.NeedsElevation os) as [needed t]. simpl in Hquiet. simpl fst. simpl snd.
  destruct needed; simpl.
  - split.
    { split; [|discriminate].
      destruct (privilege.Executable os) as [e|executable]; [discriminate|].
      destruct (privilege.Args os) as [|arg0 args]; [discriminate|].
      cbv zeta. destruct (privilege.Run os _) as [[e [status|]|e]|]; discriminate. }
    split; [discriminate|].
    intros argv Hin.
    destruct (privilege.Executable os) as [e|executable];
      [exfalso; exact (proj2 (Hquiet argv) Hin)|].
    destruct (privilege.Args os) as [|arg0 args];
      [exfalso; exact (proj2 (Hquiet argv) Hin)|].
    cbv zeta in Hin |- *.
    assert (Hargv : argv = "sudo" :: [executable] ++ args).
    { assert (Hlast : In (privilege.CommandRun argv)
                        (t ++ [privilege.ExecutableCalled;
                               privilege.CommandRun ("sudo" :: [executable] ++ args)])).
      { destruct (privilege.Run os _) as [[e [status|]|e]|]; exact Hin. }
      apply in_app_or in Hlast as [Hlast|[Hlast|[Hlast|[]]]].
      - exfalso. exact (proj1 (Hquiet argv) Hlast).
      - discriminate Hlast.
      - injection Hlast as <-. reflexivity. }
    subst argv. exists executable, arg0, args.
    split; [reflexivity|]. split; [reflexivity|]. split; [reflexivity|].
    destruct (privilege.Run os _) as [[e [status|]|e]|]; split; reflexivity.
  - split; [split; reflexivity|]. split; [reflexivity|].
    intros argv Hin. exfalso. exact (proj1 (Hquiet argv) Hin).
Qed.

(** ** Package windowsexec: [RunAsAndWait] *)

Section RunAsAndWait.

Variable w : windowsexec.api.

(** The wait and the exit code, for a handle. *)
Lemma wait_and_check_cases (h timeout : Z) (t : list windowsexec.event) :
  let ms := windowsexec.uint32 (windowsexec.waitTime w timeout) in
  (windowsexec.wait_and_check w h timeout t
   = (Returned None,
      t ++ [windowsexec.WaitForSingleObjectCalled h ms;
            windowsexec.GetExitCodeProcessCalled h]) /\
   windowsexec.WaitForSingleObject w h ms
   = (windowsexec.uint32 (windowsexec.WAIT_OBJECT_0 (windowsexec.consts w)), None) /\
   windowsexec.GetExitCodeProcess w h = (0, None)) \/
  (exists e rest,
     windowsexec.wait_and_check w h timeout t
     = (Returned (Some e), t ++ windowsexec.WaitForSingleObjectCalled h ms :: rest) /\
     (rest = [] \/ rest = [windowsexec.GetExitCodeProcessCalled h])).
Proof.
  cbv zeta. unfold windowsexec.wait_and_check, bind, emit, ret.
  destruct (windowsexec.WaitForSingleObject w h _) as [r [e|]] eqn:Hwait.
  - right. do 2 eexists. split; [reflexivity | left; reflexivity].
  - destruct (Z.eqb_spec r
                (windowsexec.uint32 (windowsexec.WAIT_OBJECT_0 (windowsexec.consts w))))
      as [->|Hne].
    + destruct (windowsexec.GetExitCodeProcess w h) as [code [e|]] eqn:Hcode.
      * right. do 2 eexists. rewrite <- app_assoc.
        split; [reflexivity | right; reflexivity].
      * destruct (Z.eqb_spec code 0) as [->|Hcode0]; simpl.
        -- left. rewrite <- app_assoc. repeat split; reflexivity.
        -- right. do 2 eexists. rewrite <- app_assoc.
           split; [reflexivity | right; reflexivity].
    + destruct (r =? _); right; do 2 eexists; split;
        try reflexivity; left; reflexivity.
Qed.

(** The runs of [RunAsAndWait]: a conversion fails; or the process is not
    started; or it is started, waited for and its handle closed. *)
Lemma RunAsAndWait_cases (file directory : string) (timeout : Z)
    (parameters : list string) :
  (exists e,
     windowsexec.RunAsAndWait w file directory timeout parameters []
     = (Returned (Some e), [])) \/
  (exists info e,
     windowsexec.RunAsAndWait w file directory timeout parameters []
     = (Returned (Some e), [windowsexec.ShellExecuteExWCalled info]) /\
     (fst (windowsexec.shellExecuteExW w info) <> None \/
      snd (windowsexec.shellExecuteExW w info) = 0)) \/
  (exists info h,
     windowsexec.UTF16PtrFromString w "runas" = inr (windowsexec.lpVerb info) /\
     windowsexec.UTF16PtrFromString w file = inr (windowsexec.lpFile info) /\
     windowsexec.UTF16PtrFromString w directory = inr (windowsexec.lpDirectory info) /\
     windowsexec.UTF16PtrFromString w (String.concat " " parameters)
     = inr (windowsexec.lpParameters info) /\
     windowsexec.fMask info = windowsexec.SEE_MASK_NOCLOSEPROCESS /\
     windowsexec.shellExecuteExW w info = (None, h) /\
     h <> 0 /\
     windowsexec.RunAsAndWait w file directory timeout parameters []
     = (fst (windowsexec.wait_and_check w h timeout
               [windowsexec.ShellExecuteExWCalled info]),
        snd (windowsexec.wait_and_check w h timeout
               [windowsexec.ShellExecuteExWCalled info])
          ++ [windowsexec.CloseHandleCalled h])).
Proof.
  unfold windowsexec.RunAsAndWait.
  destruct (windowsexec.UTF16PtrFromString w "runas") as [e|verb] eqn:Hverb;
    [left; eexists; reflexivity|].
  destruct (windowsexec.UTF16PtrFromString w file) as [e|lpfile] eqn:Hfile;
    [left; eexists; reflexivity|].
  destruct (windowsexec.UTF16PtrFromString w directory) as [e|lpdirectory] eqn:Hdir;
    [left; eexists; reflexivity|].
  destruct (windowsexec.UTF16PtrFromString w (String.concat " " parameters))
    as [e|lpparameters] eqn:Hparams; [left; eexists; reflexivity|].
  unfold bind at 1. unfold emit at 1. simpl app.
  destruct (windowsexec.shellExecuteExW w _) as [[e|] h] eqn:Hshell.
  - right. left. do 2 eexists. split; [reflexivity|]. rewrite Hshell. left. discriminate.
  - destruct (Z.eqb_spec h 0) as [->|Hh].
    + right. left. do 2 eexists. split; [reflexivity|]. rewrite Hshell. right. reflexivity.
    + right. right.
      exists {| windowsexec.fMask := windowsexec.SEE_MASK_NOCLOSEPROCESS;
                windowsexec.lpVerb := verb; windowsexec.lpFile := lpfile;
                windowsexec.lpParameters := lpparameters;
                windowsexec.lpDirectory := lpdirectory;
                windowsexec.nShow := windowsexec.SW_NORMAL (windowsexec.consts w) |}, h.
      do 5 (split; [reflexivity|]). split; [exact Hshell|].
      split; [exact Hh|].
      unfold bind, emit, ret. cbn [app].
      destruct (wait_and_check_cases h timeout [windowsexec.ShellExecuteExWCalled
          {| windowsexec.fMask := windowsexec.SEE_MASK_NOCLOSEPROCESS;
             windowsexec.lpVerb := verb; windowsexec.lpFile := lpfile;
             windowsexec.lpParameters := lpparameters;
             windowsexec.lpDirectory := lpdirectory;
             windowsexec.nShow := windowsexec.SW_NORMAL (windowsexec.consts w) |}])
        as [(Hrun & _)|(e & rest & Hrun & _)]; rewrite Hrun; reflexivity.
Qed.

Lemma RunAsAndWait_nil_inversion (file directory : string) (timeout : Z)
    (parameters : list string) :
  fst (windowsexec.RunAsAndWait w file directory timeout parameters []) = Returned None ->
  exists info h,
    windowsexec.UTF16PtrFromString w "runas" = inr (windowsexec.lpVerb info) /\
    windowsexec.UTF16PtrFromString w file = inr (windowsexec.lpFile info) /\
    windowsexec.UTF16PtrFromString w directory = inr (windowsexec.lpDirectory info) /\
    windowsexec.UTF16PtrFromString w (String.concat " " parameters)
    = inr (windowsexec.lpParameters info) /\
    windowsexec.shellExecuteExW w info = (None, h) /\
    h <> 0 /\
    windowsexec.WaitForSingleObject w h
      (windowsexec.uint32 (windowsexec.waitTime w timeout))
    = (windowsexec.uint32 (windowsexec.WAIT_OBJECT_0 (windowsexec.consts w)), None) /\
    windowsexec.GetExitCodeProcess w h = (0, None).
Proof.
  destruct (RunAsAndWait_cases file directory timeout parameters)
    as [(e & Hrun)|[(info & e & Hrun & _)|
        (info & h & Hverb & Hfile & Hdir & Hparams & _ & Hshell & Hh & Hrun)]];
    rewrite Hrun; simpl; try discriminate.
  destruct (wait_and_check_cases h timeout [windowsexec.ShellExecuteExWCalled info])
    as [(_ & Hwait & Hcode)|(e & rest & Hwc & _)].
  - intros _. exists info, h. repeat split; assumption.
  - rewrite Hwc. discriminate.
Qed.

(** X27: [RunAsAndWait] returns nil only when the process was started with
    the verb runas, the file, the directory and the parameters joined by
    single spaces, its handle is not null, the wait ended with
    [WAIT_OBJECT_0] and the exit code read is 0. *)
Theorem RunAsAndWait_nil_only_on_exit_0 (file directory : string) (timeout : Z)
    (parameters : list string) :
  fst (windowsexec.RunAsAndWait w file directory timeout parameters []) = Returned None ->
  exists info h,
    windowsexec.UTF16PtrFromString w "runas" = inr (windowsexec.lpVerb info) /\
    windowsexec.UTF16PtrFromString w file = inr (windowsexec.lpFile info) /\
    windowsexec.UTF16PtrFromString w directory = inr (windowsexec.lpDirectory info) /\
    windowsexec.UTF16PtrFromString w (String.concat " " parameters)
    = inr (windowsexec.lpParameters info) /\
    windowsexec.shellExecuteExW w info = (None, h) /\
    h <> 0 /\
    windowsexec.WaitForSingleObject w h
      (windowsexec.uint32 (windowsexec.waitTime w timeout))
    = (windowsexec.uint32 (windowsexec.WAIT_OBJECT_0 (windowsexec.consts w)), None) /\
    windowsexec.GetExitCodeProcess w h = (0, None).
Proof. apply RunAsAndWait_nil_inversion. Qed.

Lemma RunAsAndWait_closes_the_handle_shape (file directory : string) (timeout : Z)
    (parameters : list string) :
  let trace := snd (windowsexec.RunAsAndWait w file directory timeout parameters []) in
  trace = [] \/
  (exists info,
     trace = [windowsexec.ShellExecuteExWCalled info] /\
     (fst (windowsexec.shellExecuteExW w info) <> None \/
      snd (windowsexec.shellExecuteExW w info) = 0)) \/
  (exists info h rest,
     windowsexec.shellExecuteExW w info = (None, h) /\ h <> 0 /\
     (rest = [] \/ rest = [windowsexec.GetExitCodeProcessCalled h]) /\
     trace
     = windowsexec.ShellExecuteExWCalled info
         :: windowsexec.WaitForSingleObjectCalled h
              (windowsexec.uint32 (windowsexec.waitTime w timeout))
         :: rest ++ [windowsexec.CloseHandleCalled h]).
Proof.
  cbv zeta.
  destruct (RunAsAndWait_cases file directory timeout parameters)
    as [(e & Hrun)|[(info & e & Hrun & Hwhy)|
        (info & h & _ & _ & _ & _ & _ & Hshell & Hh & Hrun)]]; rewrite Hrun; simpl.
  - left. reflexivity.
  - right. left. exists info. split; [reflexivity | exact Hwhy].
  - right. right.
    destruct (wait_and_check_cases h timeout [windowsexec.ShellExecuteExWCalled info])
      as [(Hwc & _)|(e & rest & Hwc & Hrest)]; rewrite Hwc; simpl.
    + exists info, h, [windowsexec.GetExitCodeProcessCalled h].
      repeat split; auto.
    + exists info, h, rest. repeat split; auto.
Qed.

(** X28: the calls of [RunAsAndWait], in order: none, or [shellExecuteExW]
    alone when no process handle was obtained, or [shellExecuteExW], the
    wait on the handle, possibly the reading of the exit code, and last the
    closing of the handle. A handle that was obtained is closed exactly
    once on every path, and nothing else is closed. *)
Theorem RunAsAndWait_closes_the_handle (file directory : string) (timeout : Z)
    (parameters : list string) :
  let trace := snd (windowsexec.RunAsAndWait w file directory timeout parameters []) in
  trace = [] \/
  (exists info,
     trace = [windowsexec.ShellExecuteExWCalled info] /\
     (fst (windowsexec.shellExecuteExW w info) <> None \/
      snd (windowsexec.shellExecuteExW w info) = 0)) \/
  (exists info h rest,
     windowsexec.shellExecuteExW w info = (None, h) /\ h <> 0 /\
     (rest = [] \/ rest = [windowsexec.GetExitCodeProcessCalled h]) /\
     trace
     = windowsexec.ShellExecuteExWCalled info
         :: windowsexec.WaitForSingleObjectCalled h
              (windowsexec.uint32 (windowsexec.waitTime w timeout))
         :: rest ++ [windowsexec.CloseHandleCalled h]).
Proof. apply RunAsAndWait_closes_the_handle_shape. Qed.

(** X29: the wait of [RunAsAndWait]. For a timeout of at least one
    millisecond and less than 2^32 milliseconds it waits that number of
    whole milliseconds; for a timeout that is zero or negative it waits
    [INFINITE]; a positive timeout under one millisecond waits 0
    milliseconds, and the number of milliseconds wraps around at 2^32. *)
Theorem RunAsAndWait_wait_time (file directory : string) (timeout : Z)
    (parameters : list string) (h ms : Z) :
  In (windowsexec.WaitForSingleObjectCalled h ms)
     (snd (windowsexec.RunAsAndWait w file directory timeout parameters [])) ->
  0 <= ms < 2 ^ 32 /\
  (timeout <= 0 ->
   ms = windowsexec.uint32 (windowsexec.INFINITE (windowsexec.consts w))) /\
  (1000000 <= timeout < 2 ^ 32 * 1000000 -> ms = timeout / 1000000 /\ 1 <= ms) /\
  (0 < timeout < 1000000 -> ms = 0) /\
  (0 < timeout -> ms = (timeout / 1000000) mod 2 ^ 32).
Proof.
  intros Hin.
  assert (Hms : ms = windowsexec.uint32 (windowsexec.waitTime w timeout)).
  { destruct (RunAsAndWait_closes_the_handle_shape file directory timeout parameters)
      as [Ht|[(info & Ht & _)|(info & h' & rest & _ & _ & Hrest & Ht)]];
      rewrite Ht in Hin.
    - destruct Hin.
    - destruct Hin as [Hin|[]]. discriminate Hin.
    - destruct Hin as [Hin|[Hin|Hin]]; [discriminate Hin | congruence |].
      apply in_app_or in Hin as [Hin|[Hin|[]]]; [|discriminate Hin].
      destruct Hrest as [->| ->]; [destruct Hin|].
      destruct Hin as [Hin|[]]. discriminate Hin. }
  subst ms. unfold windowsexec.uint32, windowsexec.waitTime, windowsexec.Milliseconds.
  split; [apply Z.mod_pos_bound; lia|].
  split; [intros Hle; destruct (Z.ltb_spec 0 timeout); [lia | reflexivity]|].
  split; [|split].
  - intros Hrange. destruct (Z.ltb_spec 0 timeout); [|lia].
    rewrite Z.quot_div_nonneg by lia.
    assert (1 <= timeout / 1000000) by (apply Z.div_le_lower_bound; lia).
    assert (timeout / 1000000 < 2 ^ 32) by (apply Z.div_lt_upper_bound; lia).
    rewrite Z.mod_small by lia. lia.
  - intros Hrange. destruct (Z.ltb_spec 0 timeout); [|lia].
    rewrite Z.quot_div_nonneg by lia.
    rewrite Z.div_small by lia. reflexivity.
  - intros Hpos. destruct (Z.ltb_spec 0 timeout); [|lia].
    rewrite Z.quot_div_nonneg by lia. reflexivity.
Qed.

End RunAsAndWait.

Lemma RunAsAndWait_nil_only_on_exit_0_witness :
  exists info h,
    windowsexec.shellExecuteExW (fixtures_windows.windows_ok 0) info = (None, h) /\
    h <> 0 /\
    windowsexec.GetExitCodeProcess (fixtures_windows.windows_ok 0) h = (0, None).
Proof.
  destruct (RunAsAndWait_nil_only_on_exit_0 (fixtures_windows.windows_ok 0)
              "C:\tpm-trust.exe" "C:\" (5 * privilege_windows.minute) ["audit"])
    as (info & h & _ & _ & _ & _ & Hshell & Hh & _ & Hcode).
  - reflexivity.
  - exists info, h. split; [exact Hshell | split; [exact Hh | exact Hcode]].
Defined.

Lemma RunAsAndWait_wait_time_witness :
  0 <= 300000 < 2 ^ 32 /\
  (1000000 <= 5 * privilege_windows.minute < 2 ^ 32 * 1000000 ->
   300000 = 5 * privilege_windows.minute / 1000000 /\ 1 <= 300000).
Proof.
  destruct (RunAsAndWait_wait_time (fixtures_windows.windows_ok 0)
              "C:\tpm-trust.exe" "C:\" (5 * privilege_windows.minute) ["audit"] 7 300000)
    as (Hrange & _ & Hexact & _).
  - vm_compute. right. left. reflexivity.
  - split; [exact Hrange | exact Hexact].
Defined.

(** ** Package privilege: the Windows implementation *)





(** Two runs on a Windows where every call succeeds: the elevated process
    exits with 0, and with 3. *)
Example elevateWindows_runs :
  privilege_windows.elevateWindows fixtures_windows.windows_host
    (fixtures_windows.windows_ok 0)
  = (Exits 0,
     [windowsexec.ShellExecuteExWCalled
        (windowsexec.mkshellExecuteInfoW 64 "runas" "C:\tpm-trust.exe" "audit" "C:\" 1);
      windowsexec.WaitForSingleObjectCalled 7 300000;
      windowsexec.GetExitCodeProcessCalled 7;
      windowsexec.CloseHandleCalled 7]) /\
  fst (privilege_windows.elevateWindows fixtures_windows.windows_host
         (fixtures_windows.windows_ok 3))
  = Continues
      (Some (Errorf "failed to re-execute with elevated privileges: %w"
               [OpW (Some (Errorf "elevated process exited with code: %d" [OpInt 3]))])).
Proof. split; vm_compute; reflexivity. Qed.
